(** * Geyser equity-research scoring: a shallow embedding of
      [src/report_generator.py] (ScoringEngine, ThesisGenerator),
      [src/peer_comparison.py] (calculate_relative_valuation) and the
      scoring tables of [src/config.py].

    Python floats are IEEE-754 binary64 numbers; they are embedded as Rocq's
    primitive floats, so every arithmetic step and every comparison below is
    the one the interpreter performs.  The decimal operations of the
    interpreter ([round(x, n)] and the [.nf] / [.n%] format specifications)
    are derived from the exact binary value of the float.

    A metric is a number or [None]; an integer metric is read as the float
    of the same value (the two compare and print alike at the magnitudes of
    financial ratios).  The inputs are typed as their producers build them:
    the metric bags hold optional numbers, while the peer premium and the
    technical momentum score are numbers whenever their key is present. *)

From Stdlib Require Import ZArith Lia Floats Ascii String List Bool.
From stdpp Require Import base option strings gmap.

Set Warnings "-inexact-float".
Local Open Scope Z_scope.

(** ** Python numbers *)

Module Py.

(** The float comparisons, written as the Python operators. *)
Definition lt (a b : float) : bool := PrimFloat.ltb a b.
Definition gt (a b : float) : bool := PrimFloat.ltb b a.
Definition le (a b : float) : bool := PrimFloat.leb a b.
Definition ge (a b : float) : bool := PrimFloat.leb b a.
Definition num_eq (a b : float) : bool := PrimFloat.eqb a b.

(** [bool(x)] of a float: everything but the two zeros is true (a NaN is
    true). *)
Definition truthy (x : float) : bool := negb (PrimFloat.eqb x 0%float).

(** [if v:] on an optional number: [None] and zero are false. *)
Definition present (v : option float) : bool :=
  match v with
  | Some x => truthy x
  | None => false
  end.

(** [a or b] on optional numbers. *)
Definition or_else (a b : option float) : option float :=
  if present a then a else b.

(** [v or d] where [d] is a number: the value when it is true, else [d]. *)
Definition or_num (v : option float) (d : float) : float :=
  match v with
  | Some x => if truthy x then x else d
  | None => d
  end.

(** The builtins [min(a, b)] and [max(a, b)]: the first argument is kept
    unless the second one compares strictly smaller (greater). *)
Definition min (a b : float) : float := if lt b a then b else a.
Definition max (a b : float) : float := if gt b a then b else a.

(** [pd.isna] / [math.isnan] on a float. *)
Definition is_nan (x : float) : bool := negb (PrimFloat.eqb x x).

(** *** Decimal rounding of a binary float *)

(** Nearest integer to [num / den] for [0 <= num] and [0 < den], ties to the
    even neighbour. *)
Definition round_half_even_div (num den : Z) : Z :=
  let q := num / den in
  let r := num mod den in
  match (2 * r ?= den) with
  | Lt => q
  | Gt => q + 1
  | Eq => if Z.even q then q else q + 1
  end.

(** Nearest integer to [m * 2^e * 10^d], ties to even: the digits that the
    correctly rounded decimal conversion of the float [m * 2^e] keeps when it
    is asked for [d] places after the point. *)
Definition scaled_digits (m : positive) (e : Z) (d : nat) : Z :=
  let p := 10 ^ Z.of_nat d in
  if 0 <=? e then Z.pos m * 2 ^ e * p
  else round_half_even_div (Z.pos m * p) (2 ^ (- e)).

(** The float nearest to [n / 10^d] (what reading the decimal string back
    gives). *)
Definition decimal_to_float (s : bool) (n : Z) (d : nat) : float :=
  match n with
  | Z.pos p =>
      SF2Prim (SFdiv prec emax (S754_finite s p 0)
                 (S754_finite false (Z.to_pos (10 ^ Z.of_nat d)) 0))
  | _ => if s then (-0)%float else 0%float
  end.

(** [round(x, d)]: infinities and NaN round to themselves, a
    finite float goes through its [d]-place decimal representation. *)
Definition round (x : float) (d : nat) : float :=
  match Prim2SF x with
  | S754_finite s m e => decimal_to_float s (scaled_digits m e d) d
  | _ => x
  end.

(** *** Fixed-point formatting *)

Definition digit_char (n : Z) : ascii :=
  ascii_of_nat (48 + Z.to_nat (n mod 10)).

(** The last [d] decimal digits of [n], most significant first. *)
Fixpoint low_digits (d : nat) (n : Z) (acc : string) : string :=
  match d with
  | O => acc
  | S d' => low_digits d' (n / 10) (String (digit_char n) acc)
  end.

(** All decimal digits of [n >= 0]; [fuel] bounds the number of digits. *)
Fixpoint all_digits (fuel : nat) (n : Z) (acc : string) : string :=
  match fuel with
  | O => acc
  | S f =>
      let acc' := String (digit_char n) acc in
      if n / 10 =? 0 then acc' else all_digits f (n / 10) acc'
  end.

Definition nat_digits (n : Z) : string :=
  all_digits (S (Z.to_nat (Z.log2 n))) n EmptyString.

(** [n / 10^d] printed with exactly [d] places after the point. *)
Definition fixed_string (n : Z) (d : nat) : string :=
  let p := 10 ^ Z.of_nat d in
  let ip := nat_digits (n / p) in
  match d with
  | O => ip
  | _ => ip +:+ "." +:+ low_digits d (n mod p) EmptyString
  end.

(** [format(x, ".df")]. *)
Definition format_f (x : float) (d : nat) : string :=
  match Prim2SF x with
  | S754_finite s m e =>
      (if s then "-" else "") +:+ fixed_string (scaled_digits m e d) d
  | S754_zero s => (if s then "-" else "") +:+ fixed_string 0 d
  | S754_infinity s => if s then "-inf" else "inf"
  | S754_nan => "nan"
  end.

(** [format(x, ".d%")]: the value is multiplied by 100 as a float, then
    printed as with [f]. *)
Definition format_pct (x : float) (d : nat) : string :=
  format_f (x * 100)%float d +:+ "%".

End Py.

(** ** Python strings

    A string is a sequence of code points below 256 (the factor strings are
    ASCII). *)

Module PyStr.

(** [c.lower()] for one code point: A-Z and the Latin-1 capitals. *)
Definition lower_char (c : ascii) : ascii :=
  let n := nat_of_ascii c in
  if ((65 <=? n) && (n <=? 90))%nat then ascii_of_nat (n + 32)
  else if ((192 <=? n) && (n <=? 222) && negb (n =? 215))%nat
       then ascii_of_nat (n + 32)
  else c.

Fixpoint lower (s : string) : string :=
  match s with
  | EmptyString => EmptyString
  | String c s' => String (lower_char c) (lower s')
  end.

(** [s.startswith(w)]. *)
Fixpoint starts_with (w s : string) : bool :=
  match w, s with
  | EmptyString, _ => true
  | String a w', String b s' => if Ascii.eqb a b then starts_with w' s' else false
  | String _ _, EmptyString => false
  end.

(** [w in s]: [w] occurs in [s] as a substring. *)
Fixpoint contains (w s : string) : bool :=
  match s with
  | EmptyString => starts_with w EmptyString
  | String _ s' => starts_with w s || contains w s'
  end.

(** [sep.join(l)]. *)
Fixpoint join (sep : string) (l : list string) : string :=
  match l with
  | [] => EmptyString
  | [x] => x
  | x :: l' => x +:+ sep +:+ join sep l'
  end.

(** [any(word in s for word in words)]. *)
Definition any_in (words : list string) (s : string) : bool :=
  existsb (fun w => contains w s) words.

End PyStr.

(** ** Configuration ([config.py]) *)

Module Config.

Local Open Scope float_scope.

Inductive category :=
  | valuation | growth | profitability | financial_health
  | momentum_sentiment | quality_moat.

Definition categories : list category :=
  [valuation; growth; profitability; financial_health;
   momentum_sentiment; quality_moat].

Definition SCORE_WEIGHTS (c : category) : float :=
  match c with
  | valuation => 0.25
  | growth => 0.20
  | profitability => 0.20
  | financial_health => 0.15
  | momentum_sentiment => 0.10
  | quality_moat => 0.10
  end.

Inductive threshold := strong_buy | buy | hold | sell.

Definition RECOMMENDATION_THRESHOLDS (t : threshold) : float :=
  match t with
  | strong_buy => 8.0
  | buy => 6.5
  | hold => 5.0
  | sell => 3.5
  end.

(** [sum(SCORE_WEIGHTS.values())]: the builtin starts from 0 and adds the
    values in the order of the table. *)
Definition weights_total : float :=
  fold_left PrimFloat.add (map SCORE_WEIGHTS categories) 0.

End Config.

(** ** The inputs of the scoring engine *)

(** A metric bag is a dict from metric names to optional numbers: a key may
    be absent, present with [None], or present with a number. *)
Abbreviation MetricBag := (gmap string (option float)).

(** [bag.get(k)]. *)
Definition bag_get (bag : MetricBag) (k : string) : option float :=
  default None (bag !! k).

(** The part of the financial-analysis result that the engine reads.  A
    category that is absent from the dict is the empty bag
    ([analysis.get("valuation", {})]). *)
Record Analysis := {
  an_ticker : option string;
  an_valuation : MetricBag;
  an_growth : MetricBag;
  an_profitability : MetricBag;
  (* profitability["margin_trends"]["operating_margin"], when present *)
  an_operating_margin_trend : option (list (option float));
  an_financial_health : MetricBag;
}.

(** [peer_summary["relative_valuation"]["avg_premium_discount"]]; [None]
    when the key (or the whole summary) is absent.  Its producer always
    stores a number. *)
Record PeerSummary := {
  ps_avg_premium_discount : option float;
}.

(** The sentiment result: [momentum], [analyst_recommendations] (with its
    [price_targets]) and [earnings_history]. *)
Record Sentiment := {
  (* momentum["momentum_score"]; None when the key is absent *)
  se_momentum_score : option float;
  (* momentum["technical_signals"], [] when absent *)
  se_technical_signals : list string;
  se_mean_rating : option float;
  se_upside_pct : option float;
  se_beat_rate : option float;
}.

Definition empty_analysis : Analysis :=
  {| an_ticker := None; an_valuation := ∅; an_growth := ∅;
     an_profitability := ∅; an_operating_margin_trend := None;
     an_financial_health := ∅ |}.

Definition empty_peer_summary : PeerSummary :=
  {| ps_avg_premium_discount := None |}.

Definition empty_sentiment : Sentiment :=
  {| se_momentum_score := None; se_technical_signals := [];
     se_mean_rating := None; se_upside_pct := None; se_beat_rate := None |}.

(** ** The scoring engine ([ScoringEngine]) *)

Declare Scope py_scope.
Delimit Scope py_scope with py.
Notation "a <? b" := (Py.lt a b) (at level 70, no associativity) : py_scope.
Notation "a >? b" := (Py.gt a b) (at level 70, no associativity) : py_scope.
Notation "a <=? b" := (Py.le a b) (at level 70, no associativity) : py_scope.
Notation "a >=? b" := (Py.ge a b) (at level 70, no associativity) : py_scope.

Module Engine.

Import Config.
Local Open Scope string_scope.
Local Open Scope float_scope.
Local Open Scope py_scope.

(** The two locals that every scorer threads through its rules: the running
    [score] and the [factors] list. *)
Record acc := Acc { acc_score : float; acc_factors : list string }.

(** [score += d; factors.append(f)] and [score -= d; factors.append(f)]. *)
Definition plus (st : acc) (d : float) (f : string) : acc :=
  Acc (acc_score st + d) (acc_factors st ++ [f]).
Definition minus (st : acc) (d : float) (f : string) : acc :=
  Acc (acc_score st - d) (acc_factors st ++ [f]).

(** [if v: body(v)]. *)
Definition if_true (v : option float) (body : float -> acc -> acc)
    (st : acc) : acc :=
  match v with
  | Some x => if Py.truthy x then body x st else st
  | None => st
  end.

(** [if v is not None: body(v)]. *)
Definition if_not_none (v : option float) (body : float -> acc -> acc)
    (st : acc) : acc :=
  match v with
  | Some x => body x st
  | None => st
  end.

(** The dict that every scorer returns. *)
Record CategoryScore := {
  score : float;
  weight : float;
  weighted : float;
  factors : list string;
}.

(** [score = max(1, min(10, score))]. *)
Definition clamp (s : float) : float := Py.max 1 (Py.min 10 s).

(** The common tail of the scorers: clamp, then build the result dict. *)
Definition result (c : category) (st : acc) : CategoryScore :=
  let s := clamp (acc_score st) in
  {| score := Py.round s 1;
     weight := SCORE_WEIGHTS c;
     weighted := Py.round (s * SCORE_WEIGHTS c) 2;
     factors := acc_factors st |}.

(** *** score_valuation *)

Definition pe_rule (pe : option float) : acc -> acc :=
  if_true pe (fun pe st =>
    if pe <? 15 then
      plus st 1.5 ("Low P/E (" +:+ Py.format_f pe 1 +:+ "x) suggests value")
    else if pe <? 25 then
      plus st 0.5 ("Reasonable P/E (" +:+ Py.format_f pe 1 +:+ "x)")
    else if pe >? 50 then
      minus st 1.5
        ("High P/E (" +:+ Py.format_f pe 1 +:+ "x) suggests premium valuation")
    else if pe >? 35 then
      minus st 0.5 ("Elevated P/E (" +:+ Py.format_f pe 1 +:+ "x)")
    else st).

Definition forward_pe_rule (pe pe_forward : option float) (st : acc) : acc :=
  match pe, pe_forward with
  | Some pe, Some pe_forward =>
      if Py.truthy pe && Py.truthy pe_forward then
        if pe_forward <? pe * 0.8 then
          plus st 0.5 "Forward P/E significantly lower - growth expected"
        else if pe_forward >? pe * 1.2 then
          minus st 0.5 "Forward P/E higher - potential earnings decline"
        else st
      else st
  | _, _ => st
  end.

Definition peg_rule (peg : option float) : acc -> acc :=
  if_true peg (fun peg st =>
    if peg <? 1 then
      plus st 1 ("Attractive PEG ratio (" +:+ Py.format_f peg 2 +:+ ")")
    else if peg >? 2 then
      minus st 0.5 ("High PEG ratio (" +:+ Py.format_f peg 2 +:+ ")")
    else st).

Definition peer_rule (avg_premium : float) (st : acc) : acc :=
  if avg_premium <? -20 then
    plus st 1
      ("Trading at " +:+ Py.format_f (abs avg_premium) 0
         +:+ "% discount to peers")
  else if avg_premium <? -10 then
    plus st 0.5 "Trading at slight discount to peers"
  else if avg_premium >? 30 then
    minus st 1
      ("Significant premium (" +:+ Py.format_f avg_premium 0 +:+ "%) vs peers")
  else if avg_premium >? 15 then
    minus st 0.5 "Premium valuation vs peers"
  else st.

Definition fcf_yield_rule (fcf_yield : option float) : acc -> acc :=
  if_true fcf_yield (fun fcf_yield st =>
    if fcf_yield >? 0.06 then
      plus st 0.5 ("Strong FCF yield (" +:+ Py.format_pct fcf_yield 1 +:+ ")")
    else if fcf_yield <? 0.02 then
      minus st 0.5 ("Low FCF yield (" +:+ Py.format_pct fcf_yield 1 +:+ ")")
    else st).

(** The body of [score_valuation] up to the clamp. *)
Definition valuation_rules (a : Analysis) (p : PeerSummary) : acc :=
  let st := Acc 5.0 [] in
  let valuation := an_valuation a in
  let pe := bag_get valuation "pe_trailing" in
  let pe_forward := bag_get valuation "pe_forward" in
  let st := pe_rule pe st in
  let st := forward_pe_rule pe pe_forward st in
  let st := peg_rule (bag_get valuation "peg_ratio") st in
  let avg_premium := default 0 (ps_avg_premium_discount p) in
  let st := peer_rule avg_premium st in
  fcf_yield_rule (bag_get valuation "fcf_yield") st.

Definition score_valuation (a : Analysis) (p : PeerSummary) : CategoryScore :=
  result valuation (valuation_rules a p).

(** *** score_growth *)

Definition revenue_growth_rule (rev_growth : option float) : acc -> acc :=
  if_true rev_growth (fun g st =>
    if g >? 0.30 then
      plus st 2 ("Excellent revenue growth (" +:+ Py.format_pct g 1 +:+ ")")
    else if g >? 0.15 then
      plus st 1 ("Strong revenue growth (" +:+ Py.format_pct g 1 +:+ ")")
    else if g >? 0.05 then
      plus st 0.5 ("Moderate revenue growth (" +:+ Py.format_pct g 1 +:+ ")")
    else if g <? 0 then
      minus st 1 ("Revenue declining (" +:+ Py.format_pct g 1 +:+ ")")
    else st).

Definition revenue_cagr_rule (rev_cagr : option float) : acc -> acc :=
  if_true rev_cagr (fun g st =>
    if g >? 0.20 then
      plus st 1 ("Strong 3-year revenue CAGR (" +:+ Py.format_pct g 1 +:+ ")")
    else if g <? 0.05 then
      minus st 0.5 "Slow revenue growth over 3 years"
    else st).

Definition eps_growth_rule (eps_growth : option float) : acc -> acc :=
  if_true eps_growth (fun g st =>
    if g >? 0.25 then
      plus st 1 ("Strong EPS growth (" +:+ Py.format_pct g 1 +:+ ")")
    else if g <? 0 then
      minus st 1 ("EPS declining (" +:+ Py.format_pct g 1 +:+ ")")
    else st).

Definition fcf_growth_rule (fcf_growth : option float) : acc -> acc :=
  if_true fcf_growth (fun g st =>
    if g >? 0.20 then
      plus st 0.5 ("Strong FCF growth (" +:+ Py.format_pct g 1 +:+ ")")
    else if g <? -0.20 then
      minus st 0.5 "FCF declining significantly"
    else st).

Definition growth_rules (a : Analysis) : acc :=
  let st := Acc 5.0 [] in
  let growth := an_growth a in
  let rev_growth :=
    Py.or_else (bag_get growth "revenue_growth_1y")
               (bag_get growth "revenue_growth_yoy") in
  let st := revenue_growth_rule rev_growth st in
  let st := revenue_cagr_rule (bag_get growth "revenue_cagr_3y") st in
  let st := eps_growth_rule (bag_get growth "eps_growth_1y") st in
  fcf_growth_rule (bag_get growth "fcf_growth_1y") st.

Definition score_growth (a : Analysis) : CategoryScore :=
  result growth (growth_rules a).

(** *** score_profitability *)

Definition gross_margin_rule (gross_margin : option float) : acc -> acc :=
  if_true gross_margin (fun m st =>
    if m >? 0.60 then
      plus st 1.5 ("Excellent gross margin (" +:+ Py.format_pct m 1 +:+ ")")
    else if m >? 0.40 then
      plus st 0.5 ("Good gross margin (" +:+ Py.format_pct m 1 +:+ ")")
    else if m <? 0.20 then
      minus st 1 ("Low gross margin (" +:+ Py.format_pct m 1 +:+ ")")
    else st).

Definition operating_margin_rule (op_margin : option float) : acc -> acc :=
  if_true op_margin (fun m st =>
    if m >? 0.25 then
      plus st 1 ("Strong operating margin (" +:+ Py.format_pct m 1 +:+ ")")
    else if m >? 0.15 then
      plus st 0.5 ("Healthy operating margin (" +:+ Py.format_pct m 1 +:+ ")")
    else if m <? 0.05 then
      minus st 1 ("Thin operating margin (" +:+ Py.format_pct m 1 +:+ ")")
    else st).

Definition roe_rule (roe : option float) : acc -> acc :=
  if_true roe (fun r st =>
    if r >? 0.25 then
      plus st 1 ("Excellent ROE (" +:+ Py.format_pct r 1 +:+ ")")
    else if r >? 0.15 then
      plus st 0.5 ("Good ROE (" +:+ Py.format_pct r 1 +:+ ")")
    else if r <? 0.08 then
      minus st 0.5 ("Low ROE (" +:+ Py.format_pct r 1 +:+ ")")
    else st).

Definition roic_rule (roic : option float) : acc -> acc :=
  if_true roic (fun r st =>
    if r >? 0.20 then
      plus st 1
        ("High ROIC (" +:+ Py.format_pct r 1
           +:+ ") - efficient capital allocation")
    else if r <? 0.08 then
      minus st 0.5 ("Low ROIC (" +:+ Py.format_pct r 1 +:+ ")")
    else st).

Definition profitability_rules (a : Analysis) : acc :=
  let st := Acc 5.0 [] in
  let prof := an_profitability a in
  let st := gross_margin_rule (bag_get prof "gross_margin") st in
  let st := operating_margin_rule (bag_get prof "operating_margin") st in
  let st := roe_rule (bag_get prof "roe") st in
  roic_rule (bag_get prof "roic") st.

Definition score_profitability (a : Analysis) : CategoryScore :=
  result profitability (profitability_rules a).

(** *** score_financial_health *)

Definition current_ratio_rule (current_ratio : option float) : acc -> acc :=
  if_true current_ratio (fun r st =>
    if r >? 2 then
      plus st 1 ("Strong current ratio (" +:+ Py.format_f r 2 +:+ ")")
    else if r >? 1.5 then
      plus st 0.5 ("Healthy current ratio (" +:+ Py.format_f r 2 +:+ ")")
    else if r <? 1 then
      minus st 1
        ("Low current ratio (" +:+ Py.format_f r 2 +:+ ") - liquidity risk")
    else st).

Definition debt_to_equity_rule (de_ratio : option float) : acc -> acc :=
  if_not_none de_ratio (fun r st =>
    if r <? 30 then
      plus st 1 ("Low leverage (D/E: " +:+ Py.format_f r 0 +:+ "%)")
    else if r <? 100 then
      plus st 0.5 ("Moderate leverage (D/E: " +:+ Py.format_f r 0 +:+ "%)")
    else if r >? 200 then
      minus st 1 ("High leverage (D/E: " +:+ Py.format_f r 0 +:+ "%)")
    else st).

Definition interest_coverage_rule (int_coverage : option float)
    : acc -> acc :=
  if_true int_coverage (fun c st =>
    if c >? 10 then
      plus st 1 ("Excellent interest coverage (" +:+ Py.format_f c 1 +:+ "x)")
    else if c >? 5 then
      plus st 0.5 ("Good interest coverage (" +:+ Py.format_f c 1 +:+ "x)")
    else if c <? 2 then
      minus st 1
        ("Low interest coverage (" +:+ Py.format_f c 1 +:+ "x) - debt risk")
    else st).

Definition altman_rule (z_score : option float) : acc -> acc :=
  if_true z_score (fun z st =>
    if z >? 3 then
      plus st 0.5
        ("Strong Altman Z-Score (" +:+ Py.format_f z 2
           +:+ ") - low bankruptcy risk")
    else if z <? 1.8 then
      minus st 1
        ("Low Altman Z-Score (" +:+ Py.format_f z 2 +:+ ") - elevated risk")
    else st).

Definition financial_health_rules (a : Analysis) : acc :=
  let st := Acc 5.0 [] in
  let health := an_financial_health a in
  let st := current_ratio_rule (bag_get health "current_ratio") st in
  let st := debt_to_equity_rule (bag_get health "debt_to_equity") st in
  let st := interest_coverage_rule (bag_get health "interest_coverage") st in
  altman_rule (bag_get health "altman_z_score") st.

Definition score_financial_health (a : Analysis) : CategoryScore :=
  result financial_health (financial_health_rules a).

(** *** score_momentum_sentiment *)

Definition mean_rating_rule (mean_rating : option float) : acc -> acc :=
  if_true mean_rating (fun r st =>
    if r <=? 2 then plus st 1 "Strong analyst buy consensus"
    else if r <=? 2.5 then plus st 0.5 "Positive analyst sentiment"
    else if r >=? 4 then minus st 1 "Bearish analyst sentiment"
    else st).

Definition upside_rule (upside : option float) : acc -> acc :=
  if_not_none upside (fun u st =>
    if u >? 20 then
      plus st 0.5
        ("Significant upside to price target (" +:+ Py.format_f u 0 +:+ "%)")
    else if u <? -10 then
      minus st 0.5
        ("Below analyst price target (" +:+ Py.format_f u 0 +:+ "%)")
    else st).

Definition beat_rate_rule (beat_rate : option float) : acc -> acc :=
  if_not_none beat_rate (fun b st =>
    if b >=? 0.75 then
      plus st 0.5 ("Strong earnings beat rate (" +:+ Py.format_pct b 0 +:+ ")")
    else if b <? 0.5 then
      minus st 0.5 ("Weak earnings beat rate (" +:+ Py.format_pct b 0 +:+ ")")
    else st).

(** The score starts from the technical momentum score (5 when the key is
    absent) and the factors from the first three technical signals. *)
Definition momentum_rules (s : Sentiment) : acc :=
  let momentum_score := default 5 (se_momentum_score s) in
  let st := Acc momentum_score (take 3 (se_technical_signals s)) in
  let st := mean_rating_rule (se_mean_rating s) st in
  let st := upside_rule (se_upside_pct s) st in
  beat_rate_rule (se_beat_rate s) st.

Definition score_momentum_sentiment (s : Sentiment) : CategoryScore :=
  result momentum_sentiment (momentum_rules s).

(** *** score_quality_moat *)

Definition margins_rule (gross_margin op_margin : float) (st : acc) : acc :=
  if (gross_margin >? 0.50) && (op_margin >? 0.20) then
    plus st 1.5 "High margins suggest pricing power/moat"
  else if (gross_margin >? 0.40) && (op_margin >? 0.15) then
    plus st 0.5 "Healthy margins indicate competitive position"
  else st.

Definition returns_rule (roe roic : float) (st : acc) : acc :=
  if (roe >? 0.20) && (roic >? 0.15) then
    plus st 1 "High ROE & ROIC suggest durable competitive advantage"
  else st.

Definition cagr_moat_rule (rev_cagr : option float) (st : acc) : acc :=
  if Py.present rev_cagr && (default 0 rev_cagr >? 0.10) then
    plus st 0.5 "Consistent revenue growth demonstrates market position"
  else st.

Definition leverage_moat_rule (de_ratio : float) (st : acc) : acc :=
  if de_ratio <? 50 then plus st 0.5 "Conservative capital structure"
  else st.

Definition cash_moat_rule (fcf : float) (st : acc) : acc :=
  if fcf >? 0.04 then plus st 0.5 "Strong free cash flow generation"
  else st.

Definition quality_rules (a : Analysis) : acc :=
  let st := Acc 5.0 [] in
  let prof := an_profitability a in
  let health := an_financial_health a in
  let growth := an_growth a in
  let gross_margin := Py.or_num (bag_get prof "gross_margin") 0 in
  let op_margin := Py.or_num (bag_get prof "operating_margin") 0 in
  let st := margins_rule gross_margin op_margin st in
  let roe := Py.or_num (bag_get prof "roe") 0 in
  let roic := Py.or_num (bag_get prof "roic") 0 in
  let st := returns_rule roe roic st in
  let st := cagr_moat_rule (bag_get growth "revenue_cagr_3y") st in
  let de_ratio := Py.or_num (bag_get health "debt_to_equity") 100 in
  let st := leverage_moat_rule de_ratio st in
  let fcf := Py.or_num (bag_get (an_valuation a) "fcf_yield") 0 in
  cash_moat_rule fcf st.

Definition score_quality_moat (a : Analysis) : CategoryScore :=
  result quality_moat (quality_rules a).

(** *** calculate_total_score *)

Record ScoreReport := {
  ticker : string;
  total_score : float;
  recommendation : string;
  (* "Valuation", "Growth", "Profitability", "Financial Health",
     "Momentum/Sentiment", "Quality/Moat", in this order *)
  categories : list (string * CategoryScore);
  (* "valuation", "growth", "profitability", "health", "momentum",
     "quality", in this order *)
  all_factors : list (string * list string);
}.

(** The if/elif chain on the local [total_score]. *)
Definition recommend (total_score : float) : string :=
  if total_score >=? RECOMMENDATION_THRESHOLDS strong_buy then "Strong Buy"
  else if total_score >=? RECOMMENDATION_THRESHOLDS buy then "Buy"
  else if total_score >=? RECOMMENDATION_THRESHOLDS hold then "Hold"
  else if total_score >=? RECOMMENDATION_THRESHOLDS sell then "Sell"
  else "Strong Sell".

(** The local [total_score]: the six [weighted] entries added left to
    right. *)
Definition weighted_sum (v g p h m q : CategoryScore) : float :=
  weighted v + weighted g + weighted p + weighted h + weighted m + weighted q.

Definition calculate_total_score
    (a : Analysis) (p : PeerSummary) (s : Sentiment) : ScoreReport :=
  let valuation := score_valuation a p in
  let growth := score_growth a in
  let profitability := score_profitability a in
  let health := score_financial_health a in
  let momentum := score_momentum_sentiment s in
  let quality := score_quality_moat a in
  let total_score :=
    weighted_sum valuation growth profitability health momentum quality in
  {| ticker := default "Unknown" (an_ticker a);
     total_score := Py.round total_score 1;
     recommendation := recommend total_score;
     categories :=
       [("Valuation", valuation); ("Growth", growth);
        ("Profitability", profitability); ("Financial Health", health);
        ("Momentum/Sentiment", momentum); ("Quality/Moat", quality)];
     all_factors :=
       [("valuation", factors valuation); ("growth", factors growth);
        ("profitability", factors profitability); ("health", factors health);
        ("momentum", factors momentum); ("quality", factors quality)] |}.

End Engine.

(** ** Bull and bear cases ([ThesisGenerator]) *)

Module Thesis.

Local Open Scope string_scope.
Local Open Scope float_scope.
Local Open Scope py_scope.

Definition bull_words : list string :=
  ["strong"; "excellent"; "high"; "good"; "healthy"; "low p/e";
   "attractive"; "growth"; "beat"; "bullish"; "upside"; "above"].

Definition bear_words : list string :=
  ["low"; "weak"; "declining"; "high p/e"; "elevated"; "risk";
   "bearish"; "below"; "miss"; "thin"; "concern"].

Definition is_bull (factor : string) : bool :=
  PyStr.any_in bull_words (PyStr.lower factor).

Definition is_bear (factor : string) : bool :=
  PyStr.any_in bear_words (PyStr.lower factor).

(** The nested loop over [all_factors.items()]: every factor of every
    category, in order, that passes the keyword test. *)
Definition collect (test : string -> bool)
    (all_factors : list (string * list string)) : list string :=
  flat_map (fun cf => filter (fun f => test f = true) (snd cf)) all_factors.

(** [list(dict.fromkeys(l))]: the elements of [l] without repetition, each
    at the place of its first occurrence; [seen] are the keys already in the
    dict. *)
Fixpoint fromkeys (seen l : list string) : list string :=
  match l with
  | [] => []
  | x :: l' =>
      if decide (x ∈ seen) then fromkeys seen l'
      else x :: fromkeys (x :: seen) l'
  end.

(** [if c: points.append(f)]. *)
Definition append_if (c : bool) (f : string) (points : list string)
    : list string :=
  if c then points ++ [f] else points.

(** [bull_points] at the end of [generate_bull_case], before the
    deduplication. *)
Definition bull_points (a : Analysis) (p : PeerSummary) (s : Sentiment)
    (all_factors : list (string * list string)) : list string :=
  let points := collect is_bull all_factors in
  let rev_growth := Py.or_num (bag_get (an_growth a) "revenue_growth_1y") 0 in
  let points :=
    append_if
      ((rev_growth >? 0.15)
       && negb (PyStr.contains "revenue growth"
                  (PyStr.lower (PyStr.join " " points))))
      ("Revenue growing at " +:+ Py.format_pct rev_growth 1 +:+ " YoY")
      points in
  let points :=
    match an_operating_margin_trend a with
    | Some (m0 :: trend) =>
        let margins := omap id (m0 :: trend) in
        match margins with
        | first :: _ :: _ =>
            append_if (first >? List.last margins first)
              "Operating margins expanding year-over-year" points
        | _ => points
        end
    | _ => points
    end in
  let points :=
    append_if (default 0 (ps_avg_premium_discount p) <? -15)
      "Trading at discount to peers despite comparable fundamentals"
      points in
  let upside := Py.or_num (se_upside_pct s) 0 in
  append_if (upside >? 15)
    ("Analyst consensus implies " +:+ Py.format_f upside 0
       +:+ "% upside potential")
    points.

Definition generate_bull_case (a : Analysis) (p : PeerSummary) (s : Sentiment)
    (all_factors : list (string * list string)) : list string :=
  take 5 (fromkeys [] (bull_points a p s all_factors)).

(** [bear_points] at the end of [generate_bear_case], before the
    deduplication. *)
Definition bear_points (a : Analysis) (p : PeerSummary) (s : Sentiment)
    (all_factors : list (string * list string)) : list string :=
  let points := collect is_bear all_factors in
  let pe := bag_get (an_valuation a) "pe_trailing" in
  let points :=
    append_if
      (Py.present pe && (default 0 pe >? 35)
       && negb (PyStr.contains "p/e" (PyStr.lower (PyStr.join " " points))))
      ("Trading at " +:+ Py.format_f (default 0 pe) 0
         +:+ "x earnings - limited margin of safety")
      points in
  let points :=
    append_if (default 0 (ps_avg_premium_discount p) >? 20)
      "Premium valuation relative to peers may not be sustainable" points in
  let de := bag_get (an_financial_health a) "debt_to_equity" in
  let points :=
    append_if (Py.present de && (default 0 de >? 100))
      ("Elevated debt levels (D/E: " +:+ Py.format_f (default 0 de) 0
         +:+ "%) increase risk")
      points in
  let rev_1y := Py.or_num (bag_get (an_growth a) "revenue_growth_1y") 0 in
  let rev_3y_cagr := Py.or_num (bag_get (an_growth a) "revenue_cagr_3y") 0 in
  let points :=
    append_if ((rev_3y_cagr >? 0) && (rev_1y <? rev_3y_cagr * 0.7))
      "Revenue growth decelerating vs historical trend" points in
  let upside := Py.or_num (se_upside_pct s) 0 in
  append_if (upside <? -10)
    ("Trading above analyst price target (" +:+ Py.format_f upside 0 +:+ "%)")
    points.

Definition generate_bear_case (a : Analysis) (p : PeerSummary) (s : Sentiment)
    (all_factors : list (string * list string)) : list string :=
  take 5 (fromkeys [] (bear_points a p s all_factors)).

End Thesis.

(** ** Relative valuation against peers ([PeerComparison]) *)

Module Peers.

Local Open Scope string_scope.
Local Open Scope float_scope.
Local Open Scope py_scope.

(** The state of a [PeerComparison] that the relative valuation reads: the
    target's ticker and key statistics, the peer list, and the key statistics
    of the peers whose data was collected. *)
Record PeerComparison := {
  pc_ticker : string;
  pc_stats : MetricBag;
  pc_peers : list string;
  pc_peer_data : gmap string MetricBag;
}.

(** The rows of the comparison matrix that the valuation reads, with the
    statistic each row is filled from. *)
Definition valuation_metrics : list (string * string) :=
  [("P/E (TTM)", "pe_trailing"); ("P/E (Forward)", "pe_forward");
   ("EV/EBITDA", "ev_to_ebitda"); ("P/S", "price_to_sales");
   ("P/B", "price_to_book")].

(** The columns of [create_comparison_matrix]: the target's column first,
    then one column per peer with collected data (a later column replaces an
    earlier one of the same name).  The derived "Peer Avg" column is left
    out: tickers are upper-case, so no peer is looked up under that name. *)
Definition comparison_columns (pc : PeerComparison) : gmap string MetricBag :=
  foldl (fun cols peer =>
           match pc_peer_data pc !! peer with
           | Some stats => <[peer := stats]> cols
           | None => cols
           end)
        {[ pc_ticker pc := pc_stats pc ]} (pc_peers pc).

(** [pd.notna(v) and v is not None] on a cell: a number that is not NaN. *)
Definition valid_cell (v : option float) : option float :=
  match v with
  | Some x => if Py.is_nan x then None else Some x
  | None => None
  end.

(** [comparison.loc[metric, col]] filtered by the validity test; [key] is the
    statistic behind the row. *)
Definition cell (cols : gmap string MetricBag) (key col : string)
    : option float :=
  match cols !! col with
  | Some stats => valid_cell (bag_get stats key)
  | None => None
  end.

(** The inner loop: the valid values of the listed peers that have a
    column. *)
Definition peer_values (cols : gmap string MetricBag) (peers : list string)
    (key : string) : list float :=
  omap (fun peer => cell cols key peer) peers.

(** [min(l)] and [max(l)] on a non-empty list. *)
Definition list_min (l : list float) : float :=
  match l with
  | [] => 0
  | x :: l' => foldl (fun m y => if y <? m then y else m) x l'
  end.
Definition list_max (l : list float) : float :=
  match l with
  | [] => 0
  | x :: l' => foldl (fun m y => if y >? m then y else m) x l'
  end.

Record MetricDetail := {
  md_target : float;
  md_peer_avg : float;
  md_peer_min : float;
  md_peer_max : float;
}.

Record RelativeValuation := {
  rv_target : string;
  rv_peers : list string;
  rv_valuation_metrics : list (string * MetricDetail);
  rv_premium_discount : list (string * float);
  rv_assessment : string;
  rv_assessment_detail : string;
  rv_avg_premium_discount : float;
}.

(** [format(x, "+.0f")]. *)
Definition format_signed (x : float) : string :=
  let s := Py.format_f x 0 in
  if PyStr.starts_with "-" s then s else "+" +:+ s.

Section RelativeValuation.

(** [numpy.mean] on a non-empty list of floats. *)
Variable np_mean : list float -> float.

(** The premium of the target over a positive peer average; 0 when the
    average is not positive. *)
Definition premium_pct (target_value peer_avg : float) : float :=
  if peer_avg >? 0 then ((target_value / peer_avg) - 1) * 100 else 0.

(** One turn of the loop over the valuation metrics; the accumulator holds
    [result["valuation_metrics"]] and [result["premium_discount"]]. *)
Definition metric_step (pc : PeerComparison) (cols : gmap string MetricBag)
    (acc : list (string * MetricDetail) * list (string * float))
    (row : string * string)
    : list (string * MetricDetail) * list (string * float) :=
  let '(metric, key) := row in
  match cell cols key (pc_ticker pc) with
  | None => acc
  | Some target_value =>
      match peer_values cols (pc_peers pc) key with
      | [] => acc
      | values =>
          let peer_avg := np_mean values in
          ((fst acc ++ [(metric,
                         {| md_target := target_value;
                            md_peer_avg := peer_avg;
                            md_peer_min := list_min values;
                            md_peer_max := list_max values |})])%list,
           (snd acc ++ [(metric, premium_pct target_value peer_avg)])%list)
      end
  end.

Definition assessment_of (avg_premium : float) : string * string :=
  if avg_premium >? 30 then
    ("Significant Premium",
     "Trading at " +:+ Py.format_f avg_premium 0
       +:+ "% premium to peers on average")
  else if avg_premium >? 10 then
    ("Moderate Premium",
     "Trading at " +:+ Py.format_f avg_premium 0
       +:+ "% premium to peers on average")
  else if avg_premium >? -10 then
    ("In-Line",
     "Trading roughly in-line with peers (" +:+ format_signed avg_premium
       +:+ "%)")
  else if avg_premium >? -30 then
    ("Moderate Discount",
     "Trading at " +:+ Py.format_f (abs avg_premium) 0
       +:+ "% discount to peers on average")
  else
    ("Significant Discount",
     "Trading at " +:+ Py.format_f (abs avg_premium) 0
       +:+ "% discount to peers on average").

Definition calculate_relative_valuation (pc : PeerComparison)
    : RelativeValuation :=
  let cols := comparison_columns pc in
  let '(details, premiums) :=
    foldl (metric_step pc cols) ([], []) valuation_metrics in
  let avg_premium :=
    match premiums with
    | [] => 0
    | _ => np_mean (map snd premiums)
    end in
  {| rv_target := pc_ticker pc;
     rv_peers := pc_peers pc;
     rv_valuation_metrics := details;
     rv_premium_discount := premiums;
     rv_assessment := fst (assessment_of avg_premium);
     rv_assessment_detail := snd (assessment_of avg_premium);
     rv_avg_premium_discount := avg_premium |}.

(** What one valuation metric contributes to [premium_discount]: nothing
    when the target has no valid value or no listed peer has one. *)
Definition evaluate (pc : PeerComparison) (row : string * string)
    : option (string * float) :=
  let cols := comparison_columns pc in
  match cell cols (snd row) (pc_ticker pc),
        peer_values cols (pc_peers pc) (snd row) with
  | Some target_value, v :: vs =>
      Some (fst row, premium_pct target_value (np_mean (v :: vs)))
  | _, _ => None
  end.

End RelativeValuation.

(** The mean as a running sum from left to right divided by the count. *)
Definition mean_left (l : list float) : float :=
  fold_left PrimFloat.add l 0
  / PrimFloat.of_uint63 (Uint63.of_Z (Z.of_nat (length l))).

End Peers.

(** ** Inputs used by the examples below *)

Module Scenario.

Local Open Scope string_scope.
Local Open Scope float_scope.

(** The spec's end-to-end scenario: P/E 12, revenue growth 35%, gross margin
    65%, debt/equity 20, peer discount 25%; every other metric absent. *)
Definition analysis : Analysis :=
  {| an_ticker := Some "ACME";
     an_valuation := {[ "pe_trailing" := Some 12 ]};
     an_growth := {[ "revenue_growth_1y" := Some 0.35 ]};
     an_profitability := {[ "gross_margin" := Some 0.65 ]};
     an_operating_margin_trend := None;
     an_financial_health := {[ "debt_to_equity" := Some 20 ]} |}.

Definition peers : PeerSummary := {| ps_avg_premium_discount := Some (-25) |}.

(** A sentiment result that only carries the technical momentum score. *)
Definition momentum (m : float) : Sentiment :=
  {| se_momentum_score := Some m; se_technical_signals := [];
     se_mean_rating := None; se_upside_pct := None; se_beat_rate := None |}.

(** An analysis that only knows one valuation bag and one health bag. *)
Definition of_bags (valuation health : MetricBag) : Analysis :=
  {| an_ticker := None; an_valuation := valuation; an_growth := ∅;
     an_profitability := ∅; an_operating_margin_trend := None;
     an_financial_health := health |}.

(** P/E 12 and debt/equity 50, nothing else. *)
Definition cheap_levered : Analysis :=
  of_bags {[ "pe_trailing" := Some 12 ]} {[ "debt_to_equity" := Some 50 ]}.

(** An analysis with the given financial-health bag in place of its own. *)
Definition with_health (a : Analysis) (health : MetricBag) : Analysis :=
  {| an_ticker := an_ticker a; an_valuation := an_valuation a;
     an_growth := an_growth a; an_profitability := an_profitability a;
     an_operating_margin_trend := an_operating_margin_trend a;
     an_financial_health := health |}.

(** A target with P/E 10 and one peer whose P/E is negative. *)
Definition loss_making_peer : Peers.PeerComparison :=
  {| Peers.pc_ticker := "ACME";
     Peers.pc_stats := {[ "pe_trailing" := Some 10 ]};
     Peers.pc_peers := ["LOSS"];
     Peers.pc_peer_data := {[ "LOSS" := {[ "pe_trailing" := Some (-5) ]} ]} |}.

End Scenario.

(** ** The aggregation as the specification words it *)

Module Spec.

Import Config Engine.
Local Open Scope float_scope.

(** "each category's weighted value is its clamped score multiplied by that
    category's fixed configuration weight". *)
Definition spec_weighted (c : category) (st : acc) : float :=
  clamp (acc_score st) * SCORE_WEIGHTS c.

(** "total_score == round(sum of weighted, 1)" over those products. *)
Definition spec_total_score (a : Analysis) (p : PeerSummary) (s : Sentiment)
    : float :=
  Py.round
    (spec_weighted valuation (valuation_rules a p)
     + spec_weighted growth (growth_rules a)
     + spec_weighted profitability (profitability_rules a)
     + spec_weighted financial_health (financial_health_rules a)
     + spec_weighted momentum_sentiment (momentum_rules s)
     + spec_weighted quality_moat (quality_rules a)) 1.

End Spec.

(** ** Threshold ladders

    The spec's reading of a metric's rule: a ladder is an ordered table of
    buckets (condition, delta, factor text), and the first bucket whose
    condition holds is the only one applied.  [cumulative] is the other
    reading, with one independent [if] per bucket. *)

Module Ladder.

Import Engine.
Local Open Scope string_scope.
Local Open Scope float_scope.
Local Open Scope py_scope.

Inductive adjustment := up (d : float) | down (d : float).

Record bucket (X : Type) := when {
  holds : X -> bool;
  adjust : adjustment;
  factor : X -> string;
}.
Arguments when {X} _ _ _.
Arguments holds {X} _ _.
Arguments adjust {X} _.
Arguments factor {X} _ _.

Definition apply_bucket {X : Type} (b : bucket X) (x : X) (st : acc) : acc :=
  match adjust b with
  | up d => plus st d (factor b x)
  | down d => minus st d (factor b x)
  end.

(** First match wins: an [if]/[elif] chain. *)
Fixpoint first_match {X : Type} (ladder : list (bucket X)) (x : X)
    (st : acc) : acc :=
  match ladder with
  | [] => st
  | b :: rest =>
      if holds b x then apply_bucket b x st else first_match rest x st
  end.

(** Every match counts: a sequence of independent [if]s. *)
Fixpoint cumulative {X : Type} (ladder : list (bucket X)) (x : X)
    (st : acc) : acc :=
  match ladder with
  | [] => st
  | b :: rest =>
      cumulative rest x (if holds b x then apply_bucket b x st else st)
  end.

(** The tables of the six scorers, in the order of the rules. *)

Definition pe_ladder : list (bucket float) :=
  [when (fun pe => pe <? 15) (up 1.5)
     (fun pe => "Low P/E (" +:+ Py.format_f pe 1 +:+ "x) suggests value");
   when (fun pe => pe <? 25) (up 0.5)
     (fun pe => "Reasonable P/E (" +:+ Py.format_f pe 1 +:+ "x)");
   when (fun pe => pe >? 50) (down 1.5)
     (fun pe => "High P/E (" +:+ Py.format_f pe 1
                  +:+ "x) suggests premium valuation");
   when (fun pe => pe >? 35) (down 0.5)
     (fun pe => "Elevated P/E (" +:+ Py.format_f pe 1 +:+ "x)")].

Definition forward_pe_ladder : list (bucket (float * float)) :=
  [when (fun '(pe, pe_forward) => pe_forward <? pe * 0.8) (up 0.5)
     (fun _ => "Forward P/E significantly lower - growth expected");
   when (fun '(pe, pe_forward) => pe_forward >? pe * 1.2) (down 0.5)
     (fun _ => "Forward P/E higher - potential earnings decline")].

Definition peg_ladder : list (bucket float) :=
  [when (fun peg => peg <? 1) (up 1)
     (fun peg => "Attractive PEG ratio (" +:+ Py.format_f peg 2 +:+ ")");
   when (fun peg => peg >? 2) (down 0.5)
     (fun peg => "High PEG ratio (" +:+ Py.format_f peg 2 +:+ ")")].

Definition peer_ladder : list (bucket float) :=
  [when (fun avg_premium => avg_premium <? -20) (up 1)
     (fun avg_premium => "Trading at " +:+ Py.format_f (abs avg_premium) 0
                           +:+ "% discount to peers");
   when (fun avg_premium => avg_premium <? -10) (up 0.5)
     (fun _ => "Trading at slight discount to peers");
   when (fun avg_premium => avg_premium >? 30) (down 1)
     (fun avg_premium => "Significant premium ("
                           +:+ Py.format_f avg_premium 0 +:+ "%) vs peers");
   when (fun avg_premium => avg_premium >? 15) (down 0.5)
     (fun _ => "Premium valuation vs peers")].

Definition fcf_yield_ladder : list (bucket float) :=
  [when (fun fcf_yield => fcf_yield >? 0.06) (up 0.5)
     (fun fcf_yield => "Strong FCF yield (" +:+ Py.format_pct fcf_yield 1
                         +:+ ")");
   when (fun fcf_yield => fcf_yield <? 0.02) (down 0.5)
     (fun fcf_yield => "Low FCF yield (" +:+ Py.format_pct fcf_yield 1
                         +:+ ")")].

Definition revenue_growth_ladder : list (bucket float) :=
  [when (fun g => g >? 0.30) (up 2)
     (fun g => "Excellent revenue growth (" +:+ Py.format_pct g 1 +:+ ")");
   when (fun g => g >? 0.15) (up 1)
     (fun g => "Strong revenue growth (" +:+ Py.format_pct g 1 +:+ ")");
   when (fun g => g >? 0.05) (up 0.5)
     (fun g => "Moderate revenue growth (" +:+ Py.format_pct g 1 +:+ ")");
   when (fun g => g <? 0) (down 1)
     (fun g => "Revenue declining (" +:+ Py.format_pct g 1 +:+ ")")].

Definition revenue_cagr_ladder : list (bucket float) :=
  [when (fun g => g >? 0.20) (up 1)
     (fun g => "Strong 3-year revenue CAGR (" +:+ Py.format_pct g 1 +:+ ")");
   when (fun g => g <? 0.05) (down 0.5)
     (fun _ => "Slow revenue growth over 3 years")].

Definition eps_growth_ladder : list (bucket float) :=
  [when (fun g => g >? 0.25) (up 1)
     (fun g => "Strong EPS growth (" +:+ Py.format_pct g 1 +:+ ")");
   when (fun g => g <? 0) (down 1)
     (fun g => "EPS declining (" +:+ Py.format_pct g 1 +:+ ")")].

Definition fcf_growth_ladder : list (bucket float) :=
  [when (fun g => g >? 0.20) (up 0.5)
     (fun g => "Strong FCF growth (" +:+ Py.format_pct g 1 +:+ ")");
   when (fun g => g <? -0.20) (down 0.5)
     (fun _ => "FCF declining significantly")].

Definition gross_margin_ladder : list (bucket float) :=
  [when (fun m => m >? 0.60) (up 1.5)
     (fun m => "Excellent gross margin (" +:+ Py.format_pct m 1 +:+ ")");
   when (fun m => m >? 0.40) (up 0.5)
     (fun m => "Good gross margin (" +:+ Py.format_pct m 1 +:+ ")");
   when (fun m => m <? 0.20) (down 1)
     (fun m => "Low gross margin (" +:+ Py.format_pct m 1 +:+ ")")].

Definition operating_margin_ladder : list (bucket float) :=
  [when (fun m => m >? 0.25) (up 1)
     (fun m => "Strong operating margin (" +:+ Py.format_pct m 1 +:+ ")");
   when (fun m => m >? 0.15) (up 0.5)
     (fun m => "Healthy operating margin (" +:+ Py.format_pct m 1 +:+ ")");
   when (fun m => m <? 0.05) (down 1)
     (fun m => "Thin operating margin (" +:+ Py.format_pct m 1 +:+ ")")].

Definition roe_ladder : list (bucket float) :=
  [when (fun r => r >? 0.25) (up 1)
     (fun r => "Excellent ROE (" +:+ Py.format_pct r 1 +:+ ")");
   when (fun r => r >? 0.15) (up 0.5)
     (fun r => "Good ROE (" +:+ Py.format_pct r 1 +:+ ")");
   when (fun r => r <? 0.08) (down 0.5)
     (fun r => "Low ROE (" +:+ Py.format_pct r 1 +:+ ")")].

Definition roic_ladder : list (bucket float) :=
  [when (fun r => r >? 0.20) (up 1)
     (fun r => "High ROIC (" +:+ Py.format_pct r 1
                 +:+ ") - efficient capital allocation");
   when (fun r => r <? 0.08) (down 0.5)
     (fun r => "Low ROIC (" +:+ Py.format_pct r 1 +:+ ")")].

Definition current_ratio_ladder : list (bucket float) :=
  [when (fun r => r >? 2) (up 1)
     (fun r => "Strong current ratio (" +:+ Py.format_f r 2 +:+ ")");
   when (fun r => r >? 1.5) (up 0.5)
     (fun r => "Healthy current ratio (" +:+ Py.format_f r 2 +:+ ")");
   when (fun r => r <? 1) (down 1)
     (fun r => "Low current ratio (" +:+ Py.format_f r 2
                 +:+ ") - liquidity risk")].

Definition debt_to_equity_ladder : list (bucket float) :=
  [when (fun r => r <? 30) (up 1)
     (fun r => "Low leverage (D/E: " +:+ Py.format_f r 0 +:+ "%)");
   when (fun r => r <? 100) (up 0.5)
     (fun r => "Moderate leverage (D/E: " +:+ Py.format_f r 0 +:+ "%)");
   when (fun r => r >? 200) (down 1)
     (fun r => "High leverage (D/E: " +:+ Py.format_f r 0 +:+ "%)")].

Definition interest_coverage_ladder : list (bucket float) :=
  [when (fun c => c >? 10) (up 1)
     (fun c => "Excellent interest coverage (" +:+ Py.format_f c 1 +:+ "x)");
   when (fun c => c >? 5) (up 0.5)
     (fun c => "Good interest coverage (" +:+ Py.format_f c 1 +:+ "x)");
   when (fun c => c <? 2) (down 1)
     (fun c => "Low interest coverage (" +:+ Py.format_f c 1
                 +:+ "x) - debt risk")].

Definition altman_ladder : list (bucket float) :=
  [when (fun z => z >? 3) (up 0.5)
     (fun z => "Strong Altman Z-Score (" +:+ Py.format_f z 2
                 +:+ ") - low bankruptcy risk");
   when (fun z => z <? 1.8) (down 1)
     (fun z => "Low Altman Z-Score (" +:+ Py.format_f z 2
                 +:+ ") - elevated risk")].

Definition mean_rating_ladder : list (bucket float) :=
  [when (fun r => r <=? 2) (up 1)
     (fun _ => "Strong analyst buy consensus");
   when (fun r => r <=? 2.5) (up 0.5)
     (fun _ => "Positive analyst sentiment");
   when (fun r => r >=? 4) (down 1)
     (fun _ => "Bearish analyst sentiment")].

Definition upside_ladder : list (bucket float) :=
  [when (fun u => u >? 20) (up 0.5)
     (fun u => "Significant upside to price target (" +:+ Py.format_f u 0
                 +:+ "%)");
   when (fun u => u <? -10) (down 0.5)
     (fun u => "Below analyst price target (" +:+ Py.format_f u 0 +:+ "%)")].

Definition beat_rate_ladder : list (bucket float) :=
  [when (fun b => b >=? 0.75) (up 0.5)
     (fun b => "Strong earnings beat rate (" +:+ Py.format_pct b 0 +:+ ")");
   when (fun b => b <? 0.5) (down 0.5)
     (fun b => "Weak earnings beat rate (" +:+ Py.format_pct b 0 +:+ ")")].

Definition margins_ladder : list (bucket (float * float)) :=
  [when (fun '(gross_margin, op_margin) =>
           (gross_margin >? 0.50) && (op_margin >? 0.20)) (up 1.5)
     (fun _ => "High margins suggest pricing power/moat");
   when (fun '(gross_margin, op_margin) =>
           (gross_margin >? 0.40) && (op_margin >? 0.15)) (up 0.5)
     (fun _ => "Healthy margins indicate competitive position")].

Definition returns_ladder : list (bucket (float * float)) :=
  [when (fun '(roe, roic) => (roe >? 0.20) && (roic >? 0.15)) (up 1)
     (fun _ => "High ROE & ROIC suggest durable competitive advantage")].

Definition cagr_moat_ladder : list (bucket float) :=
  [when (fun rev_cagr => rev_cagr >? 0.10) (up 0.5)
     (fun _ => "Consistent revenue growth demonstrates market position")].

Definition leverage_moat_ladder : list (bucket float) :=
  [when (fun de_ratio => de_ratio <? 50) (up 0.5)
     (fun _ => "Conservative capital structure")].

Definition cash_moat_ladder : list (bucket float) :=
  [when (fun fcf => fcf >? 0.04) (up 0.5)
     (fun _ => "Strong free cash flow generation")].

End Ladder.

(** A bag without its [None] entries. *)
Definition drop_none (bag : MetricBag) : MetricBag :=
  filter (fun kv => is_Some (snd kv)) bag.

(** The numbers 1 and 10 of the clamp, as mantissa and exponent. *)
Definition one_sf : spec_float := S754_finite false 4503599627370496 (-52).
Definition ten_sf : spec_float := S754_finite false 5629499534213120 (-49).

(** [st'] is [st] after at most one bucket of a ladder: unchanged, or one
    delta added or subtracted together with one factor. *)
Definition one_bucket (st st' : Engine.acc) : Prop :=
  st' = st \/ exists d f, st' = Engine.plus st d f \/ st' = Engine.minus st d f.

(** An analysis whose bags have lost their [None] entries. *)
Definition drop_none_analysis (a : Analysis) : Analysis :=
  {| an_ticker := an_ticker a;
     an_valuation := drop_none (an_valuation a);
     an_growth := drop_none (an_growth a);
     an_profitability := drop_none (an_profitability a);
     an_operating_margin_trend := an_operating_margin_trend a;
     an_financial_health := drop_none (an_financial_health a) |}.

(** The six scorers, run on one set of inputs, in the order of the report. *)
Definition six_scores (a : Analysis) (p : PeerSummary) (s : Sentiment)
    : list Engine.CategoryScore :=
  [Engine.score_valuation a p; Engine.score_growth a;
   Engine.score_profitability a; Engine.score_financial_health a;
   Engine.score_momentum_sentiment s; Engine.score_quality_moat a].

(** ** Reachable scores

    Every rule of a scorer either leaves the accumulator alone or appends one
    factor and moves the score by one of a few fixed deltas, so the scores a
    scorer can reach from its baseline form a finite list. *)

Module Reach.

Import Engine.
Local Open Scope float_scope.

(** The scores one step away from [s]: [s + d] for the upward deltas and
    [s - d] for the downward ones. *)
Definition moves (ups downs : list float) (s : float) : list float :=
  map (fun d => s + d) ups ++ map (fun d => s - d) downs.

(** [st'] is [st] after one rule with the given deltas: nothing happened, or
    one factor was appended and the score moved by one delta. *)
Definition rule_step (ups downs : list float) (st st' : acc) : Prop :=
  st' = st
  \/ ((exists f, acc_factors st' = acc_factors st ++ [f])
      /\ acc_score st' ∈ moves ups downs (acc_score st)).

(** A list of floats without its repetitions. *)
Fixpoint nub (l : list float) : list float :=
  match l with
  | [] => []
  | x :: l' =>
      let r := nub l' in
      if existsb (PrimFloat.Leibniz.eqb x) r then r else x :: r
  end.

(** The scores reachable from the scores [R] by at most one step. *)
Definition grow (ups downs : list float) (R : list float) : list float :=
  nub (flat_map (fun s => s :: moves ups downs s) R).

(** What a scorer maintains: the score is one of [R], there are at most [n]
    factors, and a score that left the neutral 5.0 has a factor that says
    why. *)
Definition reach (R : list float) (n : nat) (st : acc) : Prop :=
  acc_score st ∈ R
  /\ (length (acc_factors st) <= n)%nat
  /\ (acc_factors st = [] -> acc_score st = 5.0).

(** [k / 2] as a float. *)
Definition halves (k : Z) : float :=
  PrimFloat.of_uint63 (Uint63.of_Z k) / 2.

(** The integers [lo], [lo + 1], ..., [lo + n - 1]. *)
Definition zrange (lo : Z) (n : nat) : list Z :=
  map (fun i => (lo + Z.of_nat i)%Z) (seq 0 n).

(** [s] is [k / 2] for an integer [k] with [lo <= k <= hi], and neither the
    clamp nor the rounding to one place changes it. *)
Definition settled (lo hi : Z) (s : float) : bool :=
  PrimFloat.Leibniz.eqb (Py.round (clamp s) 1) s
  && PrimFloat.Leibniz.eqb (clamp s) s
  && existsb (fun k => PrimFloat.Leibniz.eqb (halves k) s)
       (zrange lo (Z.to_nat (hi - lo + 1))).

Definition valuation_reach : list float :=
  grow [0.5] [0.5]
    (grow [1; 0.5] [1; 0.5]
       (grow [1] [0.5]
          (grow [0.5] [0.5] (grow [1.5; 0.5] [1.5; 0.5] [5.0])))).

Definition growth_reach : list float :=
  grow [0.5] [0.5]
    (grow [1] [1] (grow [1] [0.5] (grow [2; 1; 0.5] [1] [5.0]))).

Definition profitability_reach : list float :=
  grow [1] [0.5]
    (grow [1; 0.5] [0.5] (grow [1; 0.5] [1] (grow [1.5; 0.5] [1] [5.0]))).

Definition health_reach : list float :=
  grow [0.5] [1]
    (grow [1; 0.5] [1] (grow [1; 0.5] [1] (grow [1; 0.5] [1] [5.0]))).

Definition quality_reach : list float :=
  grow [0.5] []
    (grow [0.5] [] (grow [0.5] [] (grow [1] [] (grow [1.5; 0.5] [] [5.0])))).

End Reach.

(** The five labels from worst to best, as a number. *)
Definition label_rank (label : string) : nat :=
  if String.eqb label "Strong Buy" then 4
  else if String.eqb label "Buy" then 3
  else if String.eqb label "Hold" then 2
  else if String.eqb label "Sell" then 1
  else 0.

(** ** Technical momentum ([SentimentAnalyzer.calculate_momentum_score]) *)

Module Momentum.

Import Engine.
Local Open Scope string_scope.
Local Open Scope float_scope.
Local Open Scope py_scope.

(** What the method reads of the collected data: the company overview, the
    return metrics, and the latest value of the "RSI_14" column of the price
    history ([None] when the history is empty or has no such column). *)
Record Data := {
  overview : MetricBag;
  return_metrics : MetricBag;
  latest_rsi : option float;
}.

Record MomentumResult := {
  (* return_1m, return_3m, return_6m, return_1y, return_ytd, in this order *)
  price_momentum : list (string * option float);
  technical_signals : list string;
  overall_momentum : string;
  momentum_score : float;
  rsi : option float;
}.

(** The method's locals [score] and [signals] are threaded like the
    [score] and [factors] of a scorer. *)
Definition return_rule (r1m : float) (st : acc) : acc :=
  if r1m >? 0.10 then plus st 1 "Strong 1M momentum (+10%+)"
  else if r1m >? 0.05 then plus st 0.5 "Positive 1M momentum (+5%+)"
  else if r1m <? -0.10 then minus st 1 "Weak 1M momentum (-10%+)"
  else if r1m <? -0.05 then minus st 0.5 "Negative 1M momentum (-5%+)"
  else st.

(** [if a and b: if a > b: ... else: ...]. *)
Definition compare_rule (a b : option float) (above below : string)
    (st : acc) : acc :=
  match a, b with
  | Some a, Some b =>
      if Py.truthy a && Py.truthy b then
        if a >? b then plus st 0.5 above else minus st 0.5 below
      else st
  | _, _ => st
  end.

Definition high_rule (pct_from_high : float) (st : acc) : acc :=
  if pct_from_high >? -5 then plus st 0.5 "Near 52-week high"
  else if pct_from_high <? -30 then
    minus st 0.5 "Significantly below 52-week high (>30%)"
  else st.

Definition momentum_label (score : float) : string :=
  if score >=? 7 then "Strong Bullish"
  else if score >=? 6 then "Bullish"
  else if score >=? 4 then "Neutral"
  else if score >=? 3 then "Bearish"
  else "Strong Bearish".

(** The RSI block runs after [result["technical_signals"] = signals]; it
    appends to the same list object, so its signal shows in the result. *)
Definition rsi_signals (latest_rsi : option float) (signals : list string)
    : list string :=
  match latest_rsi with
  | Some r =>
      if r >? 70 then
        signals ++ ["RSI overbought (" +:+ Py.format_f r 0 +:+ ")"]
      else if r <? 30 then
        signals ++ ["RSI oversold (" +:+ Py.format_f r 0 +:+ ")"]
      else signals
  | None => signals
  end.

(** [score] and [signals] before the clamp. *)
Definition momentum_rules (d : Data) : acc :=
  let st := Acc 5 [] in
  let r1m := Py.or_num (bag_get (return_metrics d) "return_1m") 0 in
  let st := return_rule r1m st in
  let current_price := bag_get (overview d) "current_price" in
  let ma50 := bag_get (overview d) "fifty_day_avg" in
  let ma200 := bag_get (overview d) "two_hundred_day_avg" in
  let st :=
    compare_rule current_price ma50
      "Price above 50-day MA" "Price below 50-day MA" st in
  let st :=
    compare_rule current_price ma200
      "Price above 200-day MA" "Price below 200-day MA" st in
  let st :=
    compare_rule ma50 ma200
      "Golden cross (50MA > 200MA)" "Death cross (50MA < 200MA)" st in
  let pct_from_high := Py.or_num (bag_get (overview d) "pct_from_52w_high") 0 in
  high_rule pct_from_high st.

Definition calculate_momentum_score (d : Data) : MomentumResult :=
  let st := momentum_rules d in
  let score := clamp (acc_score st) in
  {| price_momentum :=
       map (fun k => (k, bag_get (return_metrics d) k))
         ["return_1m"; "return_3m"; "return_6m"; "return_1y"; "return_ytd"];
     technical_signals := rsi_signals (latest_rsi d) (acc_factors st);
     overall_momentum := momentum_label score;
     momentum_score := Py.round score 1;
     rsi := latest_rsi d |}.

(** The [momentum] entry of the sentiment summary as the scoring engine
    receives it, beside the analyst and earnings figures. *)
Definition sentiment_with (m : MomentumResult)
    (mean_rating upside_pct beat_rate : option float) : Sentiment :=
  {| se_momentum_score := Some (momentum_score m);
     se_technical_signals := technical_signals m;
     se_mean_rating := mean_rating;
     se_upside_pct := upside_pct;
     se_beat_rate := beat_rate |}.

Definition momentum_reach : list float :=
  Reach.grow [0.5] [0.5]
    (Reach.grow [0.5] [0.5]
       (Reach.grow [0.5] [0.5]
          (Reach.grow [0.5] [0.5] (Reach.grow [1; 0.5] [1; 0.5] [5.0])))).

(** The scores the momentum/sentiment scorer reaches from a momentum score
    of [momentum_reach]. *)
Definition sentiment_reach : list float :=
  Reach.grow [0.5] [0.5]
    (Reach.grow [0.5] [0.5] (Reach.grow [1; 0.5] [1] momentum_reach)).

End Momentum.

(** ** Key metrics to monitor ([ThesisGenerator]) *)

Module Monitor.

Local Open Scope string_scope.
Local Open Scope float_scope.
Local Open Scope py_scope.
Local Open Scope list_scope.

Definition base_metrics : list string :=
  ["Quarterly revenue growth and guidance"; "Operating margin trends";
   "Free cash flow generation"].

(** The sector block: an if/elif chain on the lower-cased industry. *)
Definition sector_metrics (industry : string) : list string :=
  if PyStr.contains "software" industry || PyStr.contains "tech" industry
  then ["Customer acquisition and retention rates";
        "R&D spending as % of revenue"]
  else if PyStr.contains "semiconductor" industry
  then ["Data center/AI segment growth"; "Gross margin trends by segment"]
  else if PyStr.contains "retail" industry
  then ["Same-store sales growth"; "Inventory turnover"]
  else if PyStr.contains "bank" industry || PyStr.contains "financial" industry
  then ["Net interest margin"; "Loan loss provisions"]
  else [].

(** [metrics] before the final [metrics[:7]]; [industry] is
    [analysis.get("industry", "")]. *)
Definition key_metrics (a : Analysis) (industry : string) : list string :=
  let metrics := base_metrics ++ sector_metrics (PyStr.lower industry) in
  let pe := Py.or_num (bag_get (an_valuation a) "pe_trailing") 0 in
  let metrics :=
    Thesis.append_if (pe >? 30)
      "Earnings growth to justify premium valuation" metrics in
  let de := Py.or_num (bag_get (an_financial_health a) "debt_to_equity") 0 in
  Thesis.append_if (de >? 80)
    "Debt reduction progress and interest expense" metrics.

Definition generate_key_metrics_to_monitor (a : Analysis) (industry : string)
    : list string :=
  take 7 (key_metrics a industry).

End Monitor.

(** ** The detail entries of the relative valuation *)

Section DetailEntries.

Import Peers.
Local Open Scope string_scope.
Local Open Scope float_scope.
Local Open Scope py_scope.

(** What the loop records for a metric in [result["valuation_metrics"]]. *)
Definition sound_detail (np_mean : list float -> float) (pc : PeerComparison)
    (entry : string * MetricDetail) : Prop :=
  exists key,
    (fst entry, key) ∈ valuation_metrics /\
    let values := peer_values (comparison_columns pc) (pc_peers pc) key in
    let d := snd entry in
    cell (comparison_columns pc) key (pc_ticker pc) = Some (md_target d) /\
    Py.is_nan (md_target d) = false /\
    md_peer_avg d = np_mean values /\
    md_peer_min d ∈ values /\ md_peer_max d ∈ values /\
    forall v, v ∈ values ->
              (md_peer_min d <=? v) = true /\ (v <=? md_peer_max d) = true.

(** [get_peer_summary()] as the scorer and the thesis read it: they look at
    nothing but [summary["relative_valuation"]["avg_premium_discount"]]. *)
Definition get_peer_summary (np_mean : list float -> float)
    (pc : PeerComparison) : PeerSummary :=
  {| ps_avg_premium_discount :=
       Some (rv_avg_premium_discount
               (calculate_relative_valuation np_mean pc)) |}.

End DetailEntries.

(** ** Text methods on ASCII strings *)

Module PyText.

Local Open Scope string_scope.

(** [s.isascii()].  The methods below are those of [str] on ASCII text; the
    statements that depend on them carry [is_ascii] as a hypothesis. *)
Fixpoint is_ascii (s : string) : bool :=
  match s with
  | EmptyString => true
  | String c s' => (nat_of_ascii c <? 128)%nat && is_ascii s'
  end.

(** [c.upper()]. *)
Definition upper_char (c : ascii) : ascii :=
  let n := nat_of_ascii c in
  if ((97 <=? n) && (n <=? 122))%nat then ascii_of_nat (n - 32) else c.

Fixpoint upper (s : string) : string :=
  match s with
  | EmptyString => EmptyString
  | String c s' => String (upper_char c) (upper s')
  end.

End PyText.

(** ** Validation helpers ([validators.py]) *)

Module Validators.

Local Open Scope string_scope.
Local Open Scope float_scope.
Local Open Scope py_scope.

(** [clamp(value, min_value, max_value)]:
    [max(min_value, min(max_value, value))]. *)
Definition clamp (value min_value max_value : float) : float :=
  Py.max min_value (Py.min max_value value).

(** The three ways [validate_numeric_range] raises [ValidationError]; the
    message text is left out. *)
Inductive ValidationError :=
  | cannot_be_none | below_minimum | above_maximum.

(** [validate_numeric_range(value, name, min_value, max_value, allow_none)]
    on an optional number; [name] only appears in the messages. *)
Definition validate_numeric_range (value min_value max_value : option float)
    (allow_none : bool) : ValidationError + bool :=
  match value with
  | None => if allow_none then inr true else inl cannot_be_none
  | Some value =>
      if match min_value with
         | Some min_value => value <? min_value
         | None => false
         end
      then inl below_minimum
      else if match max_value with
              | Some max_value => value >? max_value
              | None => false
              end
      then inl above_maximum
      else inr true
  end.

End Validators.

(** ** Peer selection ([config.get_peers], [PeerComparison.identify_peers]) *)

Module PeerSelection.

Import PyText.
Local Open Scope string_scope.

(** [config.PEER_MAPPING], in the order of the dict display; no key occurs
    twice. *)
Definition PEER_MAPPING_items : list (string * list string) :=
  [("NVDA", ["AMD"; "INTC"; "QCOM"; "AVGO"; "TXN"]);
   ("AMD", ["NVDA"; "INTC"; "QCOM"; "AVGO"; "TXN"]);
   ("INTC", ["NVDA"; "AMD"; "QCOM"; "AVGO"; "TXN"]);
   ("MSFT", ["AAPL"; "GOOGL"; "ORCL"; "CRM"; "ADBE"]);
   ("ORCL", ["MSFT"; "CRM"; "SAP"; "IBM"; "ADBE"]);
   ("CRM", ["MSFT"; "ORCL"; "SAP"; "WDAY"; "NOW"]);
   ("ADBE", ["MSFT"; "CRM"; "ORCL"; "INTU"; "ANSS"]);
   ("AAPL", ["MSFT"; "GOOGL"; "AMZN"; "META"; "SAMSUNG.KS"]);
   ("GOOGL", ["AAPL"; "MSFT"; "META"; "AMZN"; "NFLX"]);
   ("GOOG", ["AAPL"; "MSFT"; "META"; "AMZN"; "NFLX"]);
   ("META", ["GOOGL"; "SNAP"; "PINS"; "TWTR"; "NFLX"]);
   ("AMZN", ["AAPL"; "MSFT"; "GOOGL"; "WMT"; "BABA"]);
   ("JPM", ["BAC"; "WFC"; "C"; "GS"; "MS"]);
   ("BAC", ["JPM"; "WFC"; "C"; "GS"; "USB"]);
   ("WFC", ["JPM"; "BAC"; "C"; "USB"; "PNC"]);
   ("GS", ["JPM"; "MS"; "C"; "BAC"; "SCHW"]);
   ("MS", ["GS"; "JPM"; "C"; "BAC"; "SCHW"]);
   ("JNJ", ["PFE"; "MRK"; "ABBV"; "LLY"; "BMY"]);
   ("PFE", ["JNJ"; "MRK"; "ABBV"; "LLY"; "BMY"]);
   ("MRK", ["JNJ"; "PFE"; "ABBV"; "LLY"; "BMY"]);
   ("LLY", ["JNJ"; "PFE"; "MRK"; "ABBV"; "NVO"]);
   ("ABBV", ["JNJ"; "PFE"; "MRK"; "LLY"; "BMY"]);
   ("WMT", ["COST"; "TGT"; "AMZN"; "HD"; "LOW"]);
   ("COST", ["WMT"; "TGT"; "BJ"; "KR"; "AMZN"]);
   ("TGT", ["WMT"; "COST"; "KR"; "DG"; "DLTR"]);
   ("HD", ["LOW"; "WMT"; "COST"; "TGT"; "TSCO"]);
   ("LOW", ["HD"; "WMT"; "COST"; "TGT"; "TSCO"]);
   ("XOM", ["CVX"; "COP"; "EOG"; "SLB"; "OXY"]);
   ("CVX", ["XOM"; "COP"; "EOG"; "SLB"; "OXY"]);
   ("TSLA", ["F"; "GM"; "TM"; "RIVN"; "NIO"]);
   ("F", ["GM"; "TSLA"; "TM"; "HMC"; "STLA"]);
   ("GM", ["F"; "TSLA"; "TM"; "HMC"; "STLA"]);
   ("NFLX", ["DIS"; "WBD"; "PARA"; "CMCSA"; "ROKU"]);
   ("DIS", ["NFLX"; "WBD"; "PARA"; "CMCSA"; "ROKU"])].

Definition PEER_MAPPING : gmap string (list string) :=
  list_to_map PEER_MAPPING_items.

Definition DEFAULT_PEERS : list string := ["SPY"].

(** [get_peers(ticker)]: [PEER_MAPPING.get(ticker.upper(), DEFAULT_PEERS)]. *)
Definition get_peers (ticker : string) : list string :=
  default DEFAULT_PEERS (PEER_MAPPING !! upper ticker).

(** The local [sector_tickers] of [_find_dynamic_peers]. *)
Definition sector_tickers_items : list (string * list string) :=
  [("Technology", ["AAPL"; "MSFT"; "GOOGL"; "META"; "NVDA"; "AMD"; "INTC"]);
   ("Financial Services", ["JPM"; "BAC"; "WFC"; "GS"; "MS"; "C"]);
   ("Healthcare", ["JNJ"; "PFE"; "MRK"; "ABBV"; "LLY"; "UNH"]);
   ("Consumer Cyclical", ["AMZN"; "TSLA"; "HD"; "NKE"; "MCD"; "SBUX"]);
   ("Consumer Defensive", ["WMT"; "PG"; "KO"; "PEP"; "COST"; "CL"]);
   ("Energy", ["XOM"; "CVX"; "COP"; "EOG"; "SLB"; "OXY"]);
   ("Industrials", ["CAT"; "DE"; "BA"; "HON"; "UPS"; "RTX"]);
   ("Communication Services", ["GOOGL"; "META"; "DIS"; "NFLX"; "T"; "VZ"]);
   ("Utilities", ["NEE"; "DUK"; "SO"; "D"; "AEP"; "XEL"]);
   ("Real Estate", ["PLD"; "AMT"; "CCI"; "EQIX"; "SPG"; "O"]);
   ("Materials", ["LIN"; "APD"; "ECL"; "SHW"; "FCX"; "NEM"])].

Definition sector_tickers : gmap string (list string) :=
  list_to_map sector_tickers_items.

(** [_find_dynamic_peers()]; [ticker] is [self.ticker] and [sector] is
    [overview.get("sector", "")]. *)
Definition _find_dynamic_peers (ticker sector : string) : list string :=
  let potential_peers := default [] (sector_tickers !! sector) in
  let peers :=
    take 5 (filter (fun p => p <> ticker) potential_peers) in
  match peers with
  | [] => ["SPY"]
  | _ => peers
  end.

(** [identify_peers(custom_peers)]: the new [self.peers]; [None] and the
    empty list are the two false values of [custom_peers]. *)
Definition identify_peers (ticker sector : string)
    (custom_peers : option (list string)) : list string :=
  match custom_peers with
  | Some (p :: ps) => map upper (p :: ps)
  | _ =>
      let peers := get_peers ticker in
      if bool_decide (peers = []) || bool_decide (peers = ["SPY"])
      then _find_dynamic_peers ticker sector
      else peers
  end.

(** [PeerComparison(ticker, data)] followed by [identify_peers()]: the
    constructor stores [ticker.upper()]. *)
Definition default_peers_of (ticker sector : string) : list string :=
  identify_peers (upper ticker) sector None.

End PeerSelection.

(** ** The totals that the six scorers can add up to *)

Module Totals.

Import Engine Config Reach.
Local Open Scope float_scope.

(** The union of two lists; on ascending lists it is ascending and holds an
    element of both only once. *)
Fixpoint merge (l1 : list float) : list float -> list float :=
  fix merge_l1 (l2 : list float) : list float :=
    match l1, l2 with
    | [], _ => l2
    | _, [] => l1
    | a :: l1', b :: l2' =>
        if PrimFloat.ltb a b then a :: merge l1' l2
        else if PrimFloat.ltb b a then b :: merge_l1 l2'
        else if Leibniz.eqb a b then a :: merge l1' l2'
        else a :: b :: merge l1' l2'
    end.

(** One round of pairwise unions. *)
Fixpoint merge_pairs (ls : list (list float)) : list (list float) :=
  match ls with
  | l1 :: l2 :: ls' => merge l1 l2 :: merge_pairs ls'
  | _ => ls
  end.

(** The union of all lists, by [fuel] rounds of pairwise unions. *)
Fixpoint merge_all (fuel : nat) (ls : list (list float)) : list float :=
  match fuel, ls with
  | _, [] => []
  | _, [l] => l
  | O, l :: ls' => fold_left merge ls' l
  | S fuel', _ => merge_all fuel' (merge_pairs ls)
  end.

Definition union (ls : list (list float)) : list float :=
  merge_all (length ls) ls.

(** The [weighted] entries of a category whose unclamped score is in [R]. *)
Definition weighted_values (c : category) (R : list float) : list float :=
  union (map (fun s => [Py.round (clamp s * SCORE_WEIGHTS c) 2]) R).

(** Every sum of a number of [A] and a number of [B]. *)
Definition sums (A B : list float) : list float :=
  union (map (fun a => map (fun b => a + b) B) A).

(** The local [total_score] of [calculate_total_score]: the six [weighted]
    entries added in the order of the source. *)
Definition total_reach : list float :=
  sums
    (sums
       (sums
          (sums
             (sums (weighted_values valuation valuation_reach)
                (weighted_values growth growth_reach))
             (weighted_values profitability profitability_reach))
          (weighted_values financial_health health_reach))
       (weighted_values momentum_sentiment Momentum.sentiment_reach))
    (weighted_values quality_moat quality_reach).

(** [k / 10] as a float. *)
Definition tenths (k : Z) : float := PrimFloat.of_uint63 (Uint63.of_Z k) / 10.

(** The [total_score] entries: the reachable sums rounded to one place. *)
Definition total_scores : list float :=
  union (map (fun t => [Py.round t 1]) total_reach).

(** [x] is [k / 10] for a [k] between [lo] and [hi]. *)
Definition in_tenths (lo hi : Z) (x : float) : bool :=
  existsb (fun k => Leibniz.eqb (tenths k) x)
    (zrange lo (Z.to_nat (hi - lo + 1))).

End Totals.

(** ** The overall sentiment ([SentimentAnalyzer.get_sentiment_summary]) *)

Module Summary.

Local Open Scope string_scope.
Local Open Scope float_scope.
Local Open Scope py_scope.
Local Open Scope list_scope.

(** What the overall score reads of the five analyses: the analysts' mean
    rating and price-target upside, the earnings beat rate with the average
    surprise (the earnings analysis sets both or neither), the insiders' net
    sentiment (empty without data), and the momentum result. *)
Record Analyses := {
  mean_rating : option float;
  upside_pct : option float;
  beat_rate_and_surprise : option (float * float);
  net_sentiment : string;
  momentum : Momentum.MomentumResult;
}.

Record SentimentSummary := {
  overall_sentiment_score : float;
  overall_sentiment : string;
  (* (name, score, weight) *)
  score_components : list (string * float * float);
}.

(** [insider_scores.get(net_sentiment, 5)]. *)
Definition insider_score (net_sentiment : string) : float :=
  if String.eqb net_sentiment "Strongly Bullish" then 9
  else if String.eqb net_sentiment "Bullish" then 7
  else if String.eqb net_sentiment "Neutral" then 5
  else if String.eqb net_sentiment "Bearish" then 3
  else if String.eqb net_sentiment "Strongly Bearish" then 1
  else 5.

Definition upside_score (upside : float) : float :=
  if upside >? 30 then 9
  else if upside >? 15 then 7
  else if upside >? 0 then 6
  else if upside >? -15 then 4
  else 2.

(** The list [scores] at the end of the five blocks. *)
Definition components (x : Analyses) : list (string * float * float) :=
  let scores : list (string * float * float) := [] in
  let scores :=
    match mean_rating x with
    | Some r =>
        if Py.truthy r
        then scores ++ [("analyst", 10 - (r - 1) * 2.25, 0.30)]
        else scores
    | None => scores
    end in
  let scores :=
    match beat_rate_and_surprise x with
    | Some (beat_rate, avg_surprise_pct) =>
        let earnings_score := 5 + beat_rate * 5 in
        let earnings_score :=
          if avg_surprise_pct >? 5 then earnings_score + 1
          else earnings_score in
        scores ++ [("earnings", Py.min 10 earnings_score, 0.25)]
    | None => scores
    end in
  let scores :=
    scores ++ [("momentum", Momentum.momentum_score (momentum x), 0.25)] in
  let scores :=
    if String.eqb (net_sentiment x) "" then scores
    else scores ++ [("insider", insider_score (net_sentiment x), 0.10)] in
  match upside_pct x with
  | Some upside => scores ++ [("upside", upside_score upside, 0.10)]
  | None => scores
  end.

(** [sum(...)] of floats: the additions start from 0. *)
Definition py_sum (l : list float) : float := fold_left PrimFloat.add l 0.

Definition sentiment_label (score : float) : string :=
  if score >=? 7.5 then "Very Bullish"
  else if score >=? 6 then "Bullish"
  else if score >=? 4.5 then "Neutral"
  else if score >=? 3 then "Bearish"
  else "Very Bearish".

Definition get_sentiment_summary (x : Analyses) : SentimentSummary :=
  let scores := components x in
  match scores with
  | [] =>
      {| overall_sentiment_score := 5;
         overall_sentiment := "Neutral (Limited Data)";
         score_components := scores |}
  | _ =>
      let total_weight := py_sum (map snd scores) in
      let weighted_sum :=
        py_sum (map (fun c => snd (fst c) * snd c) scores) in
      let score := Py.round (weighted_sum / total_weight) 1 in
      {| overall_sentiment_score := score;
         overall_sentiment := sentiment_label score;
         score_components := scores |}
  end.

(** The summary as the scoring engine reads it. *)
Definition engine_view (x : Analyses) : Sentiment :=
  Momentum.sentiment_with (momentum x) (mean_rating x) (upside_pct x)
    (option_map fst (beat_rate_and_surprise x)).

End Summary.

(** * Properties *)

(** ** Facts about float comparisons *)

Module FloatFacts.

Ltac order_cases :=
  repeat match goal with
  | |- context [Z.compare ?a ?b] => destruct (Z.compare_spec a b)
  | |- context [PosDef.Pos.compare_cont Eq ?a ?b] =>
      change (PosDef.Pos.compare_cont Eq a b) with (Pos.compare a b);
      destruct (Pos.compare_spec a b)
  end; simpl; try congruence; try lia.

Lemma ltb_leb (a b : float) :
  PrimFloat.ltb a b = true -> PrimFloat.leb a b = true.
Proof.
  rewrite FloatAxioms.ltb_spec, FloatAxioms.leb_spec. unfold SFltb, SFleb.
  destruct (SFcompare _ _) as [[]|]; congruence.
Qed.

Lemma SFltb_trans (x y z : spec_float) :
  SFltb x y = true -> SFltb y z = true -> SFltb x z = true.
Proof.
  unfold SFltb.
  destruct x as [[]|[]| |[] mx ex], y as [[]|[]| |[] my ey],
    z as [[]|[]| |[] mz ez]; simpl; try congruence; order_cases.
Qed.

Lemma ltb_trans (a b c : float) :
  PrimFloat.ltb a b = true -> PrimFloat.ltb b c = true ->
  PrimFloat.ltb a c = true.
Proof. rewrite !FloatAxioms.ltb_spec. apply SFltb_trans. Qed.

Lemma ltb_irrefl (a : float) : PrimFloat.ltb a a = false.
Proof.
  rewrite FloatAxioms.ltb_spec. unfold SFltb.
  destruct (Prim2SF a) as [[]|[]| |[] m e]; simpl; try reflexivity;
    rewrite Z.compare_refl;
    change (PosDef.Pos.compare_cont Eq m m) with (Pos.compare m m);
    rewrite Pos.compare_refl; reflexivity.
Qed.

Lemma ltb_asym (a b : float) :
  PrimFloat.ltb a b = true -> PrimFloat.ltb b a = false.
Proof.
  intros H. destruct (PrimFloat.ltb b a) eqn:E; [|reflexivity].
  pose proof (ltb_trans _ _ _ H E) as F. rewrite ltb_irrefl in F.
  discriminate.
Qed.

Lemma ltb_not_eqb (a b : float) :
  PrimFloat.ltb a b = true -> PrimFloat.eqb b a = false.
Proof.
  rewrite FloatAxioms.ltb_spec, FloatAxioms.eqb_spec. unfold SFltb, SFeqb.
  destruct (Prim2SF a) as [[]|[]| |[] ma ea],
    (Prim2SF b) as [[]|[]| |[] mb eb]; simpl; try congruence; order_cases.
Qed.

Lemma ltb_not_leb (a b : float) :
  PrimFloat.ltb a b = true -> PrimFloat.leb b a = false.
Proof.
  rewrite FloatAxioms.ltb_spec, FloatAxioms.leb_spec. unfold SFltb, SFleb.
  destruct (Prim2SF a) as [[]|[]| |[] ma ea],
    (Prim2SF b) as [[]|[]| |[] mb eb]; simpl; try congruence; order_cases.
Qed.

(** A number above a positive bound is true in a condition. *)
Lemma above_truthy (c x : float) :
  PrimFloat.ltb 0 c = true -> PrimFloat.ltb c x = true -> Py.truthy x = true.
Proof.
  intros H0 Hc. unfold Py.truthy.
  rewrite (ltb_not_eqb 0 x); [reflexivity|]. exact (ltb_trans _ _ _ H0 Hc).
Qed.

(** A number above [hi] is not below any [lo] under [hi]. *)
Lemma above_not_below (lo hi x : float) :
  PrimFloat.ltb lo hi = true -> PrimFloat.ltb hi x = true ->
  PrimFloat.ltb x lo = false.
Proof.
  intros Hlh Hx. apply ltb_asym. exact (ltb_trans _ _ _ Hlh Hx).
Qed.

Lemma digits2_pos_bounds (p : positive) :
  2 ^ (Z.pos (digits2_pos p) - 1) <= Z.pos p < 2 ^ Z.pos (digits2_pos p).
Proof.
  induction p as [p IH|p IH|]; simpl digits2_pos.
  - rewrite Pos2Z.inj_succ.
    replace (Z.succ (Z.pos (digits2_pos p)) - 1)
      with (Z.succ (Z.pos (digits2_pos p) - 1)) by lia.
    rewrite !Z.pow_succ_r by lia. lia.
  - rewrite Pos2Z.inj_succ.
    replace (Z.succ (Z.pos (digits2_pos p)) - 1)
      with (Z.succ (Z.pos (digits2_pos p) - 1)) by lia.
    rewrite !Z.pow_succ_r by lia. lia.
  - simpl. lia.
Qed.

Lemma SFleb_finite_pos (m1 : positive) (e1 : Z) (m2 : positive) (e2 : Z) :
  SFleb (S754_finite false m1 e1) (S754_finite false m2 e2) = true ->
  e1 < e2 \/ (e1 = e2 /\ Z.pos m1 <= Z.pos m2).
Proof.
  unfold SFleb, SFcompare.
  destruct (Z.compare_spec e1 e2); try discriminate; [|lia].
  change (PosDef.Pos.compare_cont Eq m1 m2) with (Pos.compare m1 m2).
  destruct (Pos.compare_spec m1 m2); try discriminate; lia.
Qed.

(** Above the subnormal range a valid mantissa has exactly 53 bits. *)
Lemma canonical_digits (m : positive) (e : Z) :
  valid_binary (S754_finite false m e) = true -> -1074 < e ->
  2 ^ 52 <= Z.pos m < 2 ^ 53.
Proof.
  intros Hv He.
  unfold SpecFloat.valid_binary, bounded, canonical_mantissa in Hv.
  apply andb_true_iff in Hv as [Hc _].
  apply Z.eqb_eq in Hc. unfold fexp, emin, prec, emax in Hc.
  pose proof (digits2_pos_bounds m) as Hd.
  assert (Hdig : Z.pos (digits2_pos m) = 53) by lia.
  rewrite Hdig in Hd. exact Hd.
Qed.

Lemma Prim2SF_one : Prim2SF 1 = one_sf.
Proof. vm_compute. reflexivity. Qed.

Lemma Prim2SF_ten : Prim2SF 10 = ten_sf.
Proof. vm_compute. reflexivity. Qed.

End FloatFacts.

(** ** Rounding stays inside the clamp *)

Module RoundFacts.

Import FloatFacts.

Lemma round_half_even_div_bounds (a b num den : Z) :
  0 < den -> a * den <= num <= b * den ->
  a <= Py.round_half_even_div num den <= b.
Proof.
  intros Hden [Ha Hb]. unfold Py.round_half_even_div.
  pose proof (Z.div_mod num den ltac:(lia)) as Hdm.
  pose proof (Z.mod_pos_bound num den Hden) as Hr.
  set (q := num / den) in *. set (r := num mod den) in *.
  assert (a <= q) by nia.
  assert (q <= b) by nia.
  assert (q = b -> r = 0) by nia.
  destruct (Z.compare_spec (2 * r) den); [destruct (Z.even q)| |]; lia.
Qed.

(** For a float between 1 and 10 the number of tenths is between 10 and
    100. *)
Lemma tenths_range (m : positive) (e : Z) :
  valid_binary (S754_finite false m e) = true ->
  SFleb one_sf (S754_finite false m e) = true ->
  SFleb (S754_finite false m e) ten_sf = true ->
  10 <= Py.scaled_digits m e 1 <= 100.
Proof.
  intros Hv H1 H10.
  apply SFleb_finite_pos in H1, H10.
  assert (He : -52 <= e <= -49) by lia.
  pose proof (canonical_digits m e Hv ltac:(lia)) as Hd.
  change (2 ^ 52) with 4503599627370496 in Hd.
  change (2 ^ 53) with 9007199254740992 in Hd.
  unfold Py.scaled_digits.
  destruct (Z.leb_spec 0 e); [lia|].
  change (10 ^ Z.of_nat 1) with 10.
  assert (Hcase : e = -52 \/ e = -51 \/ e = -50 \/ e = -49) by lia.
  destruct Hcase as [-> | [-> | [-> | ->]]].
  - change (2 ^ (- -52)) with 4503599627370496.
    apply round_half_even_div_bounds; lia.
  - change (2 ^ (- -51)) with 2251799813685248.
    apply round_half_even_div_bounds; lia.
  - change (2 ^ (- -50)) with 1125899906842624.
    apply round_half_even_div_bounds; lia.
  - change (2 ^ (- -49)) with 562949953421312.
    apply round_half_even_div_bounds; lia.
Qed.

(** Every number of tenths from 10 to 100 reads back as a float between 1
    and 10. *)
Lemma decimal_tenths_range (n : Z) :
  10 <= n <= 100 ->
  PrimFloat.leb 1 (Py.decimal_to_float false n 1) = true /\
  PrimFloat.leb (Py.decimal_to_float false n 1) 10 = true.
Proof.
  intros Hn.
  assert (Hall : forallb (fun k =>
            let x := Py.decimal_to_float false (10 + Z.of_nat k) 1 in
            PrimFloat.leb 1 x && PrimFloat.leb x 10) (seq 0 91) = true)
    by (vm_compute; reflexivity).
  rewrite forallb_forall in Hall.
  specialize (Hall (Z.to_nat (n - 10))).
  replace (10 + Z.of_nat (Z.to_nat (n - 10))) with n in Hall by lia.
  apply andb_true_iff. apply Hall.
  apply in_seq. lia.
Qed.

Lemma round_keeps_range (y : float) :
  PrimFloat.leb 1 y = true -> PrimFloat.leb y 10 = true ->
  PrimFloat.leb 1 (Py.round y 1) = true /\
  PrimFloat.leb (Py.round y 1) 10 = true.
Proof.
  intros H1 H10. unfold Py.round.
  pose proof (Prim2SF_valid y) as Hv.
  rewrite FloatAxioms.leb_spec in H1, H10.
  rewrite Prim2SF_one in H1. rewrite Prim2SF_ten in H10.
  destruct (Prim2SF y) as [s|s| |s m e] eqn:E.
  - destruct s; discriminate.
  - destruct s; discriminate.
  - discriminate.
  - destruct s; [discriminate|].
    apply decimal_tenths_range. now apply tenths_range.
Qed.

(** The clamp lands in [1, 10] for every float, NaN and the infinities
    included. *)
Lemma clamp_range (x : float) :
  PrimFloat.leb 1 (Engine.clamp x) = true /\
  PrimFloat.leb (Engine.clamp x) 10 = true.
Proof.
  unfold Engine.clamp, Py.max, Py.min, Py.gt, Py.lt.
  destruct (PrimFloat.ltb x 10) eqn:Hx.
  - destruct (PrimFloat.ltb 1 x) eqn:H1.
    + split; now apply ltb_leb.
    + split; reflexivity.
  - split; reflexivity.
Qed.

Lemma result_score_range (c : Config.category) (st : Engine.acc) :
  Py.le 1 (Engine.score (Engine.result c st)) = true /\
  Py.le (Engine.score (Engine.result c st)) 10 = true.
Proof.
  unfold Py.le. simpl.
  destruct (clamp_range (Engine.acc_score st)) as [H1 H10].
  now apply round_keeps_range.
Qed.

End RoundFacts.

(** ** The claims about the scoring engine *)

Section EngineClaims.

Import Config Engine Ladder FloatFacts RoundFacts.
Local Open Scope string_scope.
Local Open Scope float_scope.
Local Open Scope py_scope.

(** C1: the recommendation label is decided by comparing the total against
    the five bands in descending order with greater-or-equal tests: every
    total falls in exactly one of the five cases below; a total of exactly
    8.0 gives "Strong Buy", 6.5 "Buy", 5.0 "Hold", 3.5 "Sell", 3.49 "Strong
    Sell", and so does every total below 3.5; the configured thresholds
    descend from strong_buy to sell; the report's label is this function of
    the summed weighted values. *)
Theorem C1_recommendation_thresholds :
  (forall t : float,
      (recommend t = "Strong Buy" /\ (t >=? 8.0) = true)
      \/ (recommend t = "Buy" /\ (t >=? 8.0) = false /\ (t >=? 6.5) = true)
      \/ (recommend t = "Hold" /\ (t >=? 6.5) = false /\ (t >=? 5.0) = true)
      \/ (recommend t = "Sell" /\ (t >=? 5.0) = false /\ (t >=? 3.5) = true)
      \/ (recommend t = "Strong Sell" /\ (t >=? 3.5) = false)) /\
  recommend 8.0 = "Strong Buy" /\
  recommend 6.5 = "Buy" /\
  recommend 5.0 = "Hold" /\
  recommend 3.5 = "Sell" /\
  recommend 3.49 = "Strong Sell" /\
  (forall t : float, (t <? 3.5) = true -> recommend t = "Strong Sell") /\
  (RECOMMENDATION_THRESHOLDS strong_buy >? RECOMMENDATION_THRESHOLDS buy)
  = true /\
  (RECOMMENDATION_THRESHOLDS buy >? RECOMMENDATION_THRESHOLDS hold) = true /\
  (RECOMMENDATION_THRESHOLDS hold >? RECOMMENDATION_THRESHOLDS sell) = true /\
  (forall a p s,
      recommendation (calculate_total_score a p s)
      = recommend (weighted_sum (score_valuation a p) (score_growth a)
                     (score_profitability a) (score_financial_health a)
                     (score_momentum_sentiment s) (score_quality_moat a))).
Proof.
  split; [|repeat split; try reflexivity].
  - intros t. unfold recommend, RECOMMENDATION_THRESHOLDS.
    destruct (t >=? 8.0) eqn:E1; [now left|].
    destruct (t >=? 6.5) eqn:E2; [right; now left|].
    destruct (t >=? 5.0) eqn:E3; [right; right; now left|].
    destruct (t >=? 3.5) eqn:E4; [right; right; right; now left|].
    right; right; right; right. now split.
  - intros t Ht. unfold recommend, RECOMMENDATION_THRESHOLDS, Py.ge, Py.lt in *.
    assert (H35 : PrimFloat.leb 3.5 t = false) by now apply ltb_not_leb.
    assert (H50 : PrimFloat.leb 5.0 t = false).
    { apply ltb_not_leb. apply (ltb_trans _ 3.5); [exact Ht|reflexivity]. }
    assert (H65 : PrimFloat.leb 6.5 t = false).
    { apply ltb_not_leb. apply (ltb_trans _ 3.5); [exact Ht|reflexivity]. }
    assert (H80 : PrimFloat.leb 8.0 t = false).
    { apply ltb_not_leb. apply (ltb_trans _ 3.5); [exact Ht|reflexivity]. }
    now rewrite H80, H65, H50, H35.
Qed.

(** C1, at a total below the lowest threshold. *)
Lemma C1_recommendation_thresholds_witness :
  recommend 1.25 = "Strong Sell".
Proof.
  apply (proj1 (proj2 (proj2 (proj2 (proj2 (proj2 (proj2
           C1_recommendation_thresholds))))))).
  reflexivity.
Defined.

(** C2: whatever the inputs, each of the six category scorers returns a
    score between 1 and 10: the raw sum of adjustments is clamped and the
    rounding to one place keeps the clamped value in range; a P/E of 10000
    gives the valuation score 3.5. *)
Theorem C2_scores_clamped :
  (forall (a : Analysis) (p : PeerSummary) (s : Sentiment),
      Forall (fun c => (1 <=? score c) = true /\ (score c <=? 10) = true)
        (six_scores a p s)) /\
  (forall x : float, (1 <=? clamp x) = true /\ (clamp x <=? 10) = true) /\
  score (score_valuation
           (Scenario.of_bags {[ "pe_trailing" := Some 10000 ]} ∅)
           empty_peer_summary) = 3.5.
Proof.
  split; [|split].
  - intros a p s. repeat constructor; apply result_score_range.
  - intros x. apply clamp_range.
  - vm_compute. reflexivity.
Qed.

(** Every ladder of the scorers applies at most one of its buckets. *)
Ltac ladder :=
  intros; unfold one_bucket, if_true, if_not_none;
  repeat match goal with
  | |- context [match ?v with Some _ => _ | None => _ end] => destruct v
  | |- context [if ?c then _ else _] => destruct c
  end;
  first [ now left | right; do 2 eexists; left; reflexivity
        | right; do 2 eexists; right; reflexivity ].

(** C3: the buckets of one metric's ladder are tried in order and the first
    match wins: a trailing P/E above 50 gets the -1.5 delta and the "High
    P/E" factor only, never the -0.5 of the >35 bucket as well; every ladder
    of every scorer changes the running score by at most one bucket; each of
    the 25 rules is, behind its guard, its table of buckets read
    first-match-wins; under that reading the first bucket whose condition
    holds is applied alone, whatever holds further down, and nothing changes
    when no condition holds; the cumulative reading of the P/E table would
    take both -1.5 and -0.5 from a P/E above 50; and a revenue growth above
    30% gets the +2 only, not the +1 and +0.5 of the buckets it also
    passes. *)
Theorem C3_pe_ladder_first_match :
  (forall (pe : float) (st : acc),
      (pe >? 50) = true ->
      pe_rule (Some pe) st
      = Acc (acc_score st - 1.5)
          (acc_factors st
             ++ ["High P/E (" +:+ Py.format_f pe 1
                   +:+ "x) suggests premium valuation"])) /\
  (forall (v w : option float) (x y : float) (st : acc),
      Forall (one_bucket st)
        [pe_rule v st; forward_pe_rule v w st; peg_rule v st; peer_rule x st;
         fcf_yield_rule v st; revenue_growth_rule v st; revenue_cagr_rule v st;
         eps_growth_rule v st; fcf_growth_rule v st; gross_margin_rule v st;
         operating_margin_rule v st; roe_rule v st; roic_rule v st;
         current_ratio_rule v st; debt_to_equity_rule v st;
         interest_coverage_rule v st; altman_rule v st; mean_rating_rule v st;
         upside_rule v st; beat_rate_rule v st; margins_rule x y st]) /\
  (forall (v w : option float) (x y : float) (st : acc),
      pe_rule v st = if_true v (first_match pe_ladder) st /\
      forward_pe_rule v w st
      = match v, w with
        | Some pe, Some pe_forward =>
            if Py.truthy pe && Py.truthy pe_forward
            then first_match forward_pe_ladder (pe, pe_forward) st
            else st
        | _, _ => st
        end /\
      peg_rule v st = if_true v (first_match peg_ladder) st /\
      peer_rule x st = first_match peer_ladder x st /\
      fcf_yield_rule v st = if_true v (first_match fcf_yield_ladder) st /\
      revenue_growth_rule v st = if_true v (first_match revenue_growth_ladder) st /\
      revenue_cagr_rule v st = if_true v (first_match revenue_cagr_ladder) st /\
      eps_growth_rule v st = if_true v (first_match eps_growth_ladder) st /\
      fcf_growth_rule v st = if_true v (first_match fcf_growth_ladder) st /\
      gross_margin_rule v st = if_true v (first_match gross_margin_ladder) st /\
      operating_margin_rule v st = if_true v (first_match operating_margin_ladder) st /\
      roe_rule v st = if_true v (first_match roe_ladder) st /\
      roic_rule v st = if_true v (first_match roic_ladder) st /\
      current_ratio_rule v st = if_true v (first_match current_ratio_ladder) st /\
      debt_to_equity_rule v st = if_not_none v (first_match debt_to_equity_ladder) st /\
      interest_coverage_rule v st = if_true v (first_match interest_coverage_ladder) st /\
      altman_rule v st = if_true v (first_match altman_ladder) st /\
      mean_rating_rule v st = if_true v (first_match mean_rating_ladder) st /\
      upside_rule v st = if_not_none v (first_match upside_ladder) st /\
      beat_rate_rule v st = if_not_none v (first_match beat_rate_ladder) st /\
      margins_rule x y st = first_match margins_ladder (x, y) st /\
      returns_rule x y st = first_match returns_ladder (x, y) st /\
      cagr_moat_rule v st = if_true v (first_match cagr_moat_ladder) st /\
      leverage_moat_rule x st = first_match leverage_moat_ladder x st /\
      cash_moat_rule x st = first_match cash_moat_ladder x st) /\
  (forall (X : Type) (pre post : list (bucket X)) (b : bucket X) (x : X)
          (st : acc),
      Forall (fun b' => holds b' x = false) pre -> holds b x = true ->
      first_match (pre ++ b :: post) x st = apply_bucket b x st) /\
  (forall (X : Type) (ladder : list (bucket X)) (x : X) (st : acc),
      Forall (fun b => holds b x = false) ladder ->
      first_match ladder x st = st) /\
  (forall (pe : float) (st : acc),
      (pe >? 50) = true ->
      cumulative pe_ladder pe st
      = Acc (acc_score st - 1.5 - 0.5)
          (acc_factors st
             ++ ["High P/E (" +:+ Py.format_f pe 1
                   +:+ "x) suggests premium valuation"]
             ++ ["Elevated P/E (" +:+ Py.format_f pe 1 +:+ "x)"])) /\
  (forall (g : float) (st : acc),
      (g >? 0.30) = true ->
      revenue_growth_rule (Some g) st
      = Acc (acc_score st + 2)
          (acc_factors st
             ++ ["Excellent revenue growth (" +:+ Py.format_pct g 1
                   +:+ ")"])).
Proof.
  split; [|split; [|split; [|split; [|split; [|split]]]]].
  - intros pe st Hpe. unfold Py.gt in Hpe.
    unfold pe_rule, if_true, Py.lt, Py.gt.
    rewrite (above_truthy 50 pe eq_refl Hpe).
    rewrite (above_not_below 15 50 pe eq_refl Hpe).
    rewrite (above_not_below 25 50 pe eq_refl Hpe).
    rewrite Hpe. reflexivity.
  - intros v w x y st.
    repeat (constructor;
      [ unfold pe_rule, peg_rule, fcf_yield_rule, revenue_growth_rule,
          revenue_cagr_rule, eps_growth_rule, fcf_growth_rule,
          gross_margin_rule, operating_margin_rule, roe_rule, roic_rule,
          current_ratio_rule, debt_to_equity_rule, interest_coverage_rule,
          altman_rule, mean_rating_rule, upside_rule, beat_rate_rule,
          forward_pe_rule, peer_rule, margins_rule; ladder | ]).
    constructor.
  - intros v w x y st.
    repeat split.
    unfold cagr_moat_rule, cagr_moat_ladder, if_true, Py.present, default.
    destruct v as [c|]; [|reflexivity].
    cbn [from_option id first_match apply_bucket holds adjust factor].
    destruct (Py.truthy c), (c >? 0.10); reflexivity.
  - intros X pre post b x st Hpre Hb.
    induction Hpre as [|b' pre Hb' _ IH]; simpl.
    + now rewrite Hb.
    + now rewrite Hb'.
  - intros X ladder x st Hall.
    induction Hall as [|b ladder Hb _ IH]; simpl; [reflexivity|].
    now rewrite Hb.
  - intros pe st Hpe. unfold Py.gt in Hpe.
    unfold pe_ladder.
    cbn [cumulative apply_bucket holds adjust factor].
    unfold Py.lt, Py.gt.
    rewrite (above_not_below 15 50 pe eq_refl Hpe).
    rewrite (above_not_below 25 50 pe eq_refl Hpe).
    rewrite Hpe.
    rewrite (ltb_trans 35 50 pe eq_refl Hpe).
    unfold minus. cbn [acc_score acc_factors].
    now rewrite <- app_assoc.
  - intros g st Hg. unfold Py.gt in Hg.
    unfold revenue_growth_rule, if_true, Py.gt.
    rewrite (above_truthy 0.30 g eq_refl Hg), Hg. reflexivity.
Qed.

(** C3, at a P/E of 60 on the neutral baseline. *)
Lemma C3_pe_ladder_first_match_witness :
  pe_rule (Some 60) (Acc 5.0 [])
  = Acc (5.0 - 1.5)
      ([] ++ ["High P/E (" +:+ Py.format_f 60 1
                +:+ "x) suggests premium valuation"]).
Proof.
  apply (proj1 C3_pe_ladder_first_match 60 (Acc 5.0 [])). reflexivity.
Defined.


(** C4 fails as stated: with P/E 12 and debt/equity 50 the valuation score
    6.5 times its weight is 1.625 but the stored weighted value is 1.62, and
    the reported total is 5.4 where the rounded sum of the products is 5.5. *)
Lemma C4_products_are_rounded_first :
  let a := Scenario.cheap_levered in
  weighted (score_valuation a empty_peer_summary) = 1.62 /\
  Spec.spec_weighted valuation (valuation_rules a empty_peer_summary) = 1.625 /\
  total_score (calculate_total_score a empty_peer_summary empty_sentiment)
  = 5.4 /\
  Spec.spec_total_score a empty_peer_summary empty_sentiment = 5.5.
Proof. vm_compute. repeat split; reflexivity. Qed.

(** C4 (amended): the reported total is the sum of the six weighted values
    rounded to one place; each weighted value is the clamped score times the
    category's configured weight, rounded to two places; and the six weights
    add up to exactly 1.0. *)
Theorem C4_total_is_rounded_sum :
  (forall a p s,
      let r := calculate_total_score a p s in
      total_score r
      = Py.round
          (match map (fun nc => weighted (snd nc)) (categories r) with
           | [] => 0
           | w :: ws => fold_left PrimFloat.add ws w
           end) 1 /\
      map (fun nc => weighted (snd nc)) (categories r)
      = [Py.round (Spec.spec_weighted valuation (valuation_rules a p)) 2;
         Py.round (Spec.spec_weighted growth (growth_rules a)) 2;
         Py.round (Spec.spec_weighted profitability (profitability_rules a)) 2;
         Py.round
           (Spec.spec_weighted financial_health (financial_health_rules a)) 2;
         Py.round (Spec.spec_weighted momentum_sentiment (momentum_rules s)) 2;
         Py.round (Spec.spec_weighted quality_moat (quality_rules a)) 2] /\
      map (fun nc => weight (snd nc)) (categories r)
      = map SCORE_WEIGHTS Config.categories) /\
  weights_total = 1.0.
Proof.
  split; [|vm_compute; reflexivity].
  intros a p s. repeat split.
Qed.

Lemma bag_get_drop_none (bag : MetricBag) (k : string) :
  bag_get (drop_none bag) k = bag_get bag k.
Proof.
  unfold bag_get, drop_none. rewrite map_lookup_filter.
  destruct (bag !! k) as [[x|]|]; reflexivity.
Qed.

(** C6: a missing metric is skipped, never an error and never an
    adjustment: on entirely empty inputs the valuation scorer returns the
    neutral 5.0 with no factors, and so do the other five; every rule leaves
    the running score and the factors as they are when its metric is [None];
    and no scorer can tell a key stored with [None] from an absent key. *)
Theorem C6_missing_metrics_are_skipped :
  score_valuation empty_analysis empty_peer_summary
  = {| score := 5.0; weight := 0.25; weighted := 1.25; factors := [] |} /\
  map (fun c => (score c, factors c))
    (six_scores empty_analysis empty_peer_summary empty_sentiment)
  = repeat (5.0, []) 6 /\
  (forall (v : option float) (st : acc),
      Forall (fun st' => st' = st)
        [pe_rule None st; forward_pe_rule None v st; forward_pe_rule v None st;
         peg_rule None st; fcf_yield_rule None st;
         revenue_growth_rule None st; revenue_cagr_rule None st;
         eps_growth_rule None st; fcf_growth_rule None st;
         gross_margin_rule None st; operating_margin_rule None st;
         roe_rule None st; roic_rule None st; current_ratio_rule None st;
         debt_to_equity_rule None st; interest_coverage_rule None st;
         altman_rule None st; mean_rating_rule None st; upside_rule None st;
         beat_rate_rule None st; cagr_moat_rule None st]) /\
  (forall a p s, six_scores (drop_none_analysis a) p s = six_scores a p s).
Proof.
  split; [vm_compute; reflexivity|].
  split; [vm_compute; reflexivity|].
  split.
  - intros v st. repeat (constructor; [reflexivity|]).
    constructor; [destruct v; reflexivity|].
    repeat (constructor; [reflexivity|]). constructor.
  - intros a p s.
    unfold six_scores, score_valuation, score_growth, score_profitability,
      score_financial_health, score_quality_moat, valuation_rules,
      growth_rules, profitability_rules, financial_health_rules,
      quality_rules, drop_none_analysis; simpl.
    rewrite !bag_get_drop_none. reflexivity.
Qed.

(** C8 fails as stated: in the scenario the valuation score is below 8, the
    growth score below 8, the profitability score below 7.5, the financial
    health score below 7, and the recommendation is "Buy". *)
Lemma C8_scenario_is_not_strong_buy :
  let r := calculate_total_score Scenario.analysis Scenario.peers
             (Scenario.momentum 7) in
  map (fun nc => score (snd nc)) (categories r) = [7.5; 7; 6.5; 6; 7; 5.5] /\
  (7.5 >=? 8) = false /\ (7 >=? 8) = false /\ (6.5 >=? 7.5) = false /\
  (6 >=? 7) = false /\
  recommendation r = "Buy".
Proof. vm_compute. repeat split; reflexivity. Qed.

(** C8 (amended): for trailing P/E 12, revenue growth 35%, gross margin 65%,
    debt/equity 20, momentum score 7 and a peer premium of -25% (all other
    metrics absent) the engine gives Valuation 7.5, Growth 7.0, Profitability
    6.5, Financial Health 6.0, Momentum/Sentiment 7.0 and Quality/Moat 5.5,
    a total of 6.7 and the recommendation "Buy". *)
Theorem C8_scenario_scores :
  let r := calculate_total_score Scenario.analysis Scenario.peers
             (Scenario.momentum 7) in
  map (fun nc => (fst nc, score (snd nc))) (categories r)
  = [("Valuation", 7.5); ("Growth", 7.0); ("Profitability", 6.5);
     ("Financial Health", 6.0); ("Momentum/Sentiment", 7.0);
     ("Quality/Moat", 5.5)] /\
  map (fun nc => weighted (snd nc)) (categories r)
  = [1.88; 1.4; 1.3; 0.9; 0.7; 0.55] /\
  total_score r = 6.7 /\
  recommendation r = "Buy".
Proof. vm_compute. repeat split; reflexivity. Qed.

(** C9: the label is computed from the unrounded sum of the six weighted
    values and the reported total is that sum rounded afterwards; with the
    scenario's metrics and a momentum score of 4.4 the sum is just above
    6.47, the reported total is 6.5, which as a total would be a "Buy", and
    the recommendation is "Hold". *)
Theorem C9_label_uses_unrounded_sum :
  (forall a p s,
      let sum := weighted_sum (score_valuation a p) (score_growth a)
                   (score_profitability a) (score_financial_health a)
                   (score_momentum_sentiment s) (score_quality_moat a) in
      recommendation (calculate_total_score a p s) = recommend sum /\
      total_score (calculate_total_score a p s) = Py.round sum 1) /\
  (let s := Scenario.momentum 4.4 in
   let r := calculate_total_score Scenario.analysis Scenario.peers s in
   weighted_sum (score_valuation Scenario.analysis Scenario.peers)
     (score_growth Scenario.analysis) (score_profitability Scenario.analysis)
     (score_financial_health Scenario.analysis) (score_momentum_sentiment s)
     (score_quality_moat Scenario.analysis) = 6.470000000000001 /\
   total_score r = 6.5 /\
   total_score r = RECOMMENDATION_THRESHOLDS buy /\
   recommend (total_score r) = "Buy" /\
   recommendation r = "Hold").
Proof.
  split.
  - intros a p s. split; reflexivity.
  - vm_compute. repeat split; reflexivity.
Qed.

(** C10: in the financial-health scorer a debt/equity of exactly 0 passes
    the [is not None] test and gets the +1 low-leverage adjustment with its
    factor, while a current ratio, interest coverage or Altman Z-Score of
    exactly 0 fails the truth test and is scored as if the key were missing. *)
Theorem C10_zero_debt_counts_zero_ratio_skipped :
  (forall st : acc,
      debt_to_equity_rule (Some 0) st = plus st 1 "Low leverage (D/E: 0%)" /\
      debt_to_equity_rule None st = st /\
      current_ratio_rule (Some 0) st = current_ratio_rule None st /\
      interest_coverage_rule (Some 0) st = interest_coverage_rule None st /\
      altman_rule (Some 0) st = altman_rule None st) /\
  (forall (a : Analysis) (h : MetricBag),
      score_financial_health
        (Scenario.with_health a (<["current_ratio" := Some 0]> h))
      = score_financial_health
          (Scenario.with_health a (delete "current_ratio" h)) /\
      score_financial_health
        (Scenario.with_health a (<["interest_coverage" := Some 0]> h))
      = score_financial_health
          (Scenario.with_health a (delete "interest_coverage" h)) /\
      score_financial_health
        (Scenario.with_health a (<["altman_z_score" := Some 0]> h))
      = score_financial_health
          (Scenario.with_health a (delete "altman_z_score" h))) /\
  score_financial_health
    (Scenario.of_bags ∅ {[ "debt_to_equity" := Some 0 ]})
  = {| score := 6.0; weight := 0.15; weighted := 0.9;
       factors := ["Low leverage (D/E: 0%)"] |} /\
  score_financial_health
    (Scenario.of_bags ∅
       {[ "current_ratio" := Some 0; "interest_coverage" := Some 0;
          "altman_z_score" := Some 0 ]})
  = score_financial_health (Scenario.of_bags ∅ ∅).
Proof.
  split; [intros st; repeat split|].
  split; [|split; vm_compute; reflexivity].
  intros a h.
  unfold score_financial_health, financial_health_rules, Scenario.with_health,
    bag_get; simpl an_financial_health.
  repeat split.
  - rewrite lookup_insert_eq, lookup_delete_eq.
    rewrite !lookup_insert_ne, !lookup_delete_ne by discriminate.
    reflexivity.
  - rewrite lookup_insert_eq, lookup_delete_eq.
    rewrite !lookup_insert_ne, !lookup_delete_ne by discriminate.
    reflexivity.
  - rewrite lookup_insert_eq, lookup_delete_eq.
    rewrite !lookup_insert_ne, !lookup_delete_ne by discriminate.
    reflexivity.
Qed.

End EngineClaims.

(** ** The claim about the bull and bear cases *)

Section ThesisClaims.

Import Engine Thesis.
Local Open Scope string_scope.
Local Open Scope list_scope.
Local Open Scope float_scope.
Local Open Scope nat_scope.

Lemma fromkeys_elem (seen l : list string) (x : string) :
  x ∈ fromkeys seen l <-> x ∈ l /\ x ∉ seen.
Proof.
  revert seen. induction l as [|y l IH]; intros seen; simpl.
  - rewrite elem_of_nil. tauto.
  - destruct (decide (y ∈ seen)) as [Hy|Hy].
    + rewrite IH, elem_of_cons. intuition congruence.
    + rewrite !elem_of_cons, IH, elem_of_cons.
      destruct (decide (x = y)) as [->|Hne]; intuition congruence.
Qed.

Lemma fromkeys_NoDup (seen l : list string) : NoDup (fromkeys seen l).
Proof.
  revert seen. induction l as [|y l IH]; intros seen; simpl.
  - constructor.
  - destruct (decide (y ∈ seen)); [apply IH|].
    constructor; [|apply IH].
    rewrite fromkeys_elem, elem_of_cons. intros [_ H]. auto.
Qed.

(** Keys are kept where they are first seen: a key that comes last is
    appended when it is new and dropped when it is not. *)
Lemma fromkeys_snoc (seen l : list string) (x : string) :
  fromkeys seen (l ++ [x])
  = fromkeys seen l
      ++ (if decide (x ∈ seen \/ x ∈ l) then [] else [x]).
Proof.
  revert seen. induction l as [|y l IH]; intros seen; simpl.
  - destruct (decide (x ∈ seen)), (decide (x ∈ seen \/ x ∈ []));
      try reflexivity.
    + exfalso. auto.
    + exfalso. destruct o as [?|H]; [auto|inversion H].
  - destruct (decide (y ∈ seen)).
    + rewrite IH.
      destruct (decide (x ∈ seen \/ x ∈ l)),
        (decide (x ∈ seen \/ x ∈ y :: l)); try reflexivity; exfalso.
      * rewrite elem_of_cons in n. tauto.
      * rewrite elem_of_cons in o.
        destruct o as [?|[->|?]]; tauto.
    + rewrite IH. simpl.
      destruct (decide (x ∈ y :: seen \/ x ∈ l)),
        (decide (x ∈ seen \/ x ∈ y :: l)); try reflexivity; exfalso.
      * rewrite !elem_of_cons in *. tauto.
      * rewrite !elem_of_cons in *. tauto.
Qed.

Lemma collect_elem (test : string -> bool)
    (fs : list (string * list string)) (f : string) :
  f ∈ collect test fs
  <-> test f = true /\ exists cf, cf ∈ fs /\ f ∈ snd cf.
Proof.
  unfold collect. rewrite list_elem_of_In, in_flat_map. split.
  - intros (cf & Hcf & Hf).
    apply list_elem_of_In, list_elem_of_filter in Hf as [Ht Hf].
    split; [exact Ht|]. exists cf. split; [now apply list_elem_of_In|exact Hf].
  - intros (Ht & cf & Hcf & Hf). exists cf.
    split; [now apply list_elem_of_In|].
    apply list_elem_of_In, list_elem_of_filter. auto.
Qed.

Lemma append_if_elem (c : bool) (g f : string) (points : list string) :
  f ∈ points -> f ∈ append_if c g points.
Proof.
  intros H. unfold append_if. destruct c; [|exact H].
  apply elem_of_app. now left.
Qed.

Lemma bull_points_collect a p s fs (f : string) :
  f ∈ collect is_bull fs -> f ∈ bull_points a p s fs.
Proof.
  intros H. unfold bull_points.
  repeat apply append_if_elem.
  destruct (an_operating_margin_trend a) as [[|m0 trend]|];
    [| |]; try (now apply append_if_elem).
  destruct (omap id (m0 :: trend)) as [|first [|second rest]];
    try (now apply append_if_elem).
  now repeat apply append_if_elem.
Qed.

Lemma bear_points_collect a p s fs (f : string) :
  f ∈ collect is_bear fs -> f ∈ bear_points a p s fs.
Proof.
  intros H. unfold bear_points. now repeat apply append_if_elem.
Qed.

(** C7 fails as stated: in the report of the scenario the factor "Low P/E
    (12.0x) suggests value" holds the bull keyword "low p/e" and the bear
    keyword "low", and it is listed in the bull case and in the bear case. *)
Lemma C7_factor_in_both_cases :
  let s := Scenario.momentum 7 in
  let r := calculate_total_score Scenario.analysis Scenario.peers s in
  is_bull "Low P/E (12.0x) suggests value" = true /\
  is_bear "Low P/E (12.0x) suggests value" = true /\
  generate_bull_case Scenario.analysis Scenario.peers s (all_factors r)
  = ["Low P/E (12.0x) suggests value"; "Excellent revenue growth (35.0%)";
     "Excellent gross margin (65.0%)";
     "Trading at discount to peers despite comparable fundamentals"] /\
  generate_bear_case Scenario.analysis Scenario.peers s (all_factors r)
  = ["Low P/E (12.0x) suggests value"; "Low leverage (D/E: 20%)"].
Proof. vm_compute. repeat split; reflexivity. Qed.

(** C7 (amended): the bull list and the bear list are built by two
    independent passes over the factors, each with its own keyword test, so
    a factor that holds a bull keyword and a bear keyword is a candidate of
    both lists and, before the cut to five items, is in both; within each
    list the duplicates are removed keeping the first occurrence in place,
    and the list is cut to its first 5 items. *)
Theorem C7_bull_and_bear_are_independent
    (a : Analysis) (p : PeerSummary) (s : Sentiment)
    (fs : list (string * list string)) :
  let bull := generate_bull_case a p s fs in
  let bear := generate_bear_case a p s fs in
  (bull = take 5 (fromkeys [] (bull_points a p s fs)) /\
   bear = take 5 (fromkeys [] (bear_points a p s fs))) /\
  (NoDup bull /\ length bull <= 5 /\ NoDup bear /\ length bear <= 5) /\
  (forall (l : list string) (x : string),
      NoDup (fromkeys [] l) /\
      (x ∈ fromkeys [] l <-> x ∈ l) /\
      fromkeys [] (l ++ [x])
      = fromkeys [] l ++ (if decide (x ∈ l) then [] else [x])) /\
  (forall f : string,
      (f ∈ collect is_bull fs
       <-> is_bull f = true /\ exists cf, cf ∈ fs /\ f ∈ snd cf) /\
      (f ∈ collect is_bear fs
       <-> is_bear f = true /\ exists cf, cf ∈ fs /\ f ∈ snd cf)) /\
  (forall (cf : string * list string) (f : string),
      cf ∈ fs -> f ∈ snd cf -> is_bull f = true -> is_bear f = true ->
      f ∈ fromkeys [] (bull_points a p s fs) /\
      f ∈ fromkeys [] (bear_points a p s fs)).
Proof.
  simpl. split; [split; reflexivity|]. split; [|split; [|split]].
  - unfold generate_bull_case, generate_bear_case. repeat split.
    + eapply sublist_NoDup; [apply fromkeys_NoDup|apply sublist_take].
    + rewrite length_take. lia.
    + eapply sublist_NoDup; [apply fromkeys_NoDup|apply sublist_take].
    + rewrite length_take. lia.
  - intros l x. split; [apply fromkeys_NoDup|]. split.
    + rewrite fromkeys_elem. split; [tauto|].
      intros H. split; [exact H|]. intros H'. inversion H'.
    + rewrite fromkeys_snoc.
      destruct (decide (x ∈ [] \/ x ∈ l)) as [Hd|Hd], (decide (x ∈ l));
        try reflexivity; exfalso.
      * destruct Hd as [Hd|Hd]; [inversion Hd|auto].
      * auto.
  - intros f. split; apply collect_elem.
  - intros cf f Hcf Hf Hbull Hbear. split.
    + apply fromkeys_elem. split.
      * apply bull_points_collect, collect_elem. eauto.
      * intros H. inversion H.
    + apply fromkeys_elem. split.
      * apply bear_points_collect, collect_elem. eauto.
      * intros H. inversion H.
Qed.

(** C7, at the "Low P/E" factor of the scenario's valuation category. *)
Lemma C7_bull_and_bear_are_independent_witness :
  let fs := [("valuation", ["Low P/E (12.0x) suggests value"])] in
  "Low P/E (12.0x) suggests value"
    ∈ fromkeys [] (bull_points empty_analysis empty_peer_summary
                     empty_sentiment fs) /\
  "Low P/E (12.0x) suggests value"
    ∈ fromkeys [] (bear_points empty_analysis empty_peer_summary
                     empty_sentiment fs).
Proof.
  apply (proj2 (proj2 (proj2 (proj2
           (C7_bull_and_bear_are_independent empty_analysis
              empty_peer_summary empty_sentiment
              [("valuation", ["Low P/E (12.0x) suggests value"])]))))
         ("valuation", ["Low P/E (12.0x) suggests value"])
         "Low P/E (12.0x) suggests value").
  - apply list_elem_of_here.
  - apply list_elem_of_here.
  - reflexivity.
  - reflexivity.
Defined.

End ThesisClaims.

(** ** The claim about the relative valuation *)

Section PeersClaims.

Import Peers.
Local Open Scope string_scope.
Local Open Scope list_scope.
Local Open Scope float_scope.
Local Open Scope py_scope.

Lemma metric_loop_premiums (np_mean : list float -> float)
    (pc : PeerComparison) (rows : list (string * string))
    (acc : list (string * MetricDetail) * list (string * float)) :
  snd (foldl (metric_step np_mean pc (comparison_columns pc)) acc rows)
  = snd acc ++ omap (evaluate np_mean pc) rows.
Proof.
  revert acc. induction rows as [|[metric key] rows IH]; intros acc; simpl.
  - now rewrite app_nil_r.
  - rewrite IH. unfold evaluate at 2. simpl.
    destruct (cell (comparison_columns pc) key (pc_ticker pc)) as [t|];
      [|reflexivity].
    destruct (peer_values (comparison_columns pc) (pc_peers pc) key)
      as [|v vs]; [reflexivity|].
    simpl. now rewrite <- app_assoc.
Qed.

Lemma relative_valuation_premiums (np_mean : list float -> float)
    (pc : PeerComparison) :
  rv_premium_discount (calculate_relative_valuation np_mean pc)
  = omap (evaluate np_mean pc) valuation_metrics.
Proof.
  unfold calculate_relative_valuation.
  pose proof (metric_loop_premiums np_mean pc valuation_metrics ([], [])) as H.
  destruct (foldl (metric_step np_mean pc (comparison_columns pc)) ([], [])
              valuation_metrics) as [details premiums].
  simpl in *. exact H.
Qed.

Lemma relative_valuation_average (np_mean : list float -> float)
    (pc : PeerComparison) :
  let rv := calculate_relative_valuation np_mean pc in
  rv_avg_premium_discount rv
  = match rv_premium_discount rv with
    | [] => 0
    | _ => np_mean (map snd (rv_premium_discount rv))
    end.
Proof.
  unfold calculate_relative_valuation.
  destruct (foldl (metric_step np_mean pc (comparison_columns pc)) ([], [])
              valuation_metrics) as [details premiums].
  reflexivity.
Qed.

Lemma valid_cell_not_nan (v : option float) (x : float) :
  valid_cell v = Some x -> v = Some x /\ Py.is_nan x = false.
Proof.
  destruct v as [y|]; simpl; [|discriminate].
  destruct (Py.is_nan y) eqn:E; [discriminate|].
  intros [= ->]. auto.
Qed.

(** C5 fails as stated: for a target P/E of 10 and a single peer whose P/E
    is -5 the formula (target/peer_avg - 1) x 100 gives -300, while the
    premium recorded for the metric, and the aggregate, is 0. *)
Lemma C5_nonpositive_peer_average_gives_zero :
  let rv := calculate_relative_valuation mean_left Scenario.loss_making_peer in
  peer_values (comparison_columns Scenario.loss_making_peer)
    (pc_peers Scenario.loss_making_peer) "pe_trailing" = [-5] /\
  mean_left [-5] = -5 /\
  ((10 / mean_left [-5]) - 1) * 100 = -300 /\
  rv_premium_discount rv = [("P/E (TTM)", 0)] /\
  rv_avg_premium_discount rv = 0.
Proof. vm_compute. repeat split; reflexivity. Qed.

(** C5 (amended): for each of the five valuation metrics for which the
    target has a valid value and at least one listed peer has one, the
    premium is (target/peer_avg - 1) x 100 when peer_avg is positive and 0
    otherwise, peer_avg being the mean of the peers' valid values (present
    and not NaN) only; a metric for which the target or every peer lacks a
    valid value is left out entirely; and the aggregate is the plain mean of
    the recorded premiums, or 0 when none was recorded. *)
Theorem C5_relative_valuation
    (np_mean : list float -> float) (pc : PeerComparison) :
  let rv := calculate_relative_valuation np_mean pc in
  let cols := comparison_columns pc in
  rv_premium_discount rv = omap (evaluate np_mean pc) valuation_metrics /\
  (forall (row : string * string) (premium : float),
      row ∈ valuation_metrics ->
      evaluate np_mean pc row = Some (fst row, premium) ->
      exists target_value,
        cell cols (snd row) (pc_ticker pc) = Some target_value /\
        peer_values cols (pc_peers pc) (snd row) <> [] /\
        let peer_avg := np_mean (peer_values cols (pc_peers pc) (snd row)) in
        premium = if peer_avg >? 0
                  then ((target_value / peer_avg) - 1) * 100 else 0) /\
  (forall row : string * string,
      row ∈ valuation_metrics ->
      cell cols (snd row) (pc_ticker pc) = None
      \/ peer_values cols (pc_peers pc) (snd row) = [] ->
      fst row ∉ map fst (rv_premium_discount rv)) /\
  (forall (key : string) (v : float),
      v ∈ peer_values cols (pc_peers pc) key
      <-> exists peer stats,
            peer ∈ pc_peers pc /\ cols !! peer = Some stats /\
            bag_get stats key = Some v /\ Py.is_nan v = false) /\
  rv_avg_premium_discount rv
  = match rv_premium_discount rv with
    | [] => 0
    | _ => np_mean (map snd (rv_premium_discount rv))
    end.
Proof.
  simpl. split; [apply relative_valuation_premiums|].
  split; [|split; [|split; [|apply relative_valuation_average]]].
  - intros [metric key] premium _. unfold evaluate. simpl.
    destruct (cell (comparison_columns pc) key (pc_ticker pc)) as [t|];
      [|discriminate].
    destruct (peer_values (comparison_columns pc) (pc_peers pc) key)
      as [|v vs]; [discriminate|].
    intros [= <-]. exists t. split; [reflexivity|]. split; [discriminate|].
    reflexivity.
  - intros row Hrow Hmissing.
    rewrite relative_valuation_premiums.
    intros Hin. apply list_elem_of_fmap in Hin as ([m x] & Hm & Hin).
    simpl in Hm. subst m.
    apply list_elem_of_omap in Hin as (row' & Hrow' & Hev).
    assert (row' = row) as ->.
    { unfold evaluate in Hev.
      destruct (cell (comparison_columns pc) (snd row') (pc_ticker pc));
        [|discriminate].
      destruct (peer_values (comparison_columns pc) (pc_peers pc) (snd row'));
        [discriminate|].
      injection Hev as Hfst _.
      unfold valuation_metrics in Hrow, Hrow'.
      repeat (apply elem_of_cons in Hrow as [->|Hrow]);
        try (apply elem_of_nil in Hrow; contradiction);
        repeat (apply elem_of_cons in Hrow' as [->|Hrow']);
        try (apply elem_of_nil in Hrow'; contradiction);
        first [reflexivity|discriminate]. }
    unfold evaluate in Hev.
    destruct Hmissing as [Hc|Hp].
    + rewrite Hc in Hev. discriminate.
    + rewrite Hp in Hev.
      destruct (cell (comparison_columns pc) (snd row) (pc_ticker pc));
        discriminate.
  - intros key v. unfold peer_values. rewrite list_elem_of_omap. split.
    + intros (peer & Hpeer & Hcell). unfold cell in Hcell.
      destruct (comparison_columns pc !! peer) as [stats|] eqn:E;
        [|discriminate].
      apply valid_cell_not_nan in Hcell as [Hv Hn].
      exists peer, stats. auto.
    + intros (peer & stats & Hpeer & Hcol & Hv & Hn).
      exists peer. split; [exact Hpeer|].
      unfold cell. rewrite Hcol, Hv. simpl. now rewrite Hn.
Qed.

(** C5, at the P/E row of a target with P/E 30 and one peer with P/E 20. *)
Lemma C5_relative_valuation_witness :
  let pc := {| pc_ticker := "ACME";
               pc_stats := {[ "pe_trailing" := Some 30 ]};
               pc_peers := ["PEER"];
               pc_peer_data :=
                 {[ "PEER" := {[ "pe_trailing" := Some 20 ]} ]} |} in
  exists target_value,
    cell (comparison_columns pc) "pe_trailing" "ACME" = Some target_value /\
    peer_values (comparison_columns pc) ["PEER"] "pe_trailing" <> [] /\
    50 = if mean_left (peer_values (comparison_columns pc) ["PEER"]
                         "pe_trailing") >? 0
         then ((target_value
                / mean_left (peer_values (comparison_columns pc) ["PEER"]
                               "pe_trailing")) - 1) * 100
         else 0.
Proof.
  apply (proj1 (proj2
           (C5_relative_valuation mean_left
              {| pc_ticker := "ACME";
                 pc_stats := {[ "pe_trailing" := Some 30 ]};
                 pc_peers := ["PEER"];
                 pc_peer_data :=
                   {[ "PEER" := {[ "pe_trailing" := Some 20 ]} ]} |}))
         ("P/E (TTM)", "pe_trailing") 50).
  - apply list_elem_of_here.
  - reflexivity.
Defined.

End PeersClaims.

(** ** The scores a scorer can reach *)

Section ReachFacts.

Import Config Engine Reach.
Local Open Scope string_scope.
Local Open Scope list_scope.
Local Open Scope float_scope.
Local Open Scope py_scope.

Lemma nub_elem (l : list float) (x : float) : x ∈ l -> x ∈ nub l.
Proof.
  induction l as [|y l IH]; simpl; [auto|].
  rewrite elem_of_cons. intros [->|H].
  - destruct (existsb (PrimFloat.Leibniz.eqb y) (nub l)) eqn:E.
    + apply existsb_exists in E as (z & Hz & E).
      apply FloatAxioms.Leibniz.eqb_spec in E. subst z.
      now apply list_elem_of_In.
    + apply list_elem_of_here.
  - destruct (existsb (PrimFloat.Leibniz.eqb y) (nub l)); auto.
    apply list_elem_of_further. auto.
Qed.

Lemma grow_elem (ups downs : list float) (R : list float) (s s' : float) :
  s ∈ R -> s' = s \/ s' ∈ moves ups downs s -> s' ∈ grow ups downs R.
Proof.
  intros Hs Hs'. unfold grow. apply nub_elem.
  apply list_elem_of_In, in_flat_map. exists s.
  split; [now apply list_elem_of_In|].
  apply list_elem_of_In, elem_of_cons. destruct Hs' as [->|H]; auto.
Qed.

Lemma reach_grow (ups downs : list float) (R : list float) (n : nat)
    (st st' : acc) :
  reach R n st -> rule_step ups downs st st' ->
  reach (grow ups downs R) (S n) st'.
Proof.
  intros (HR & Hn & H5) [->|[[f Hf] Hm]].
  - split; [|split].
    + eapply grow_elem; eauto.
    + lia.
    + exact H5.
  - split; [|split].
    + eapply grow_elem; eauto.
    + rewrite Hf, length_app. simpl. lia.
    + rewrite Hf. intros H. destruct (acc_factors st); discriminate.
Qed.

Lemma reach_start : reach [5.0] 0 (Acc 5.0 []).
Proof.
  split; [apply list_elem_of_here|]. split; [simpl; lia|reflexivity].
Qed.

Lemma settled_sound (lo hi : Z) (R : list float) (s : float) :
  forallb (settled lo hi) R = true -> s ∈ R ->
  Py.round (clamp s) 1 = s /\ clamp s = s /\
  exists k : Z, (lo <= k <= hi)%Z /\ s = halves k.
Proof.
  intros Hall Hs. rewrite forallb_forall in Hall.
  specialize (Hall s (proj1 (list_elem_of_In _ _) Hs)).
  unfold settled in Hall.
  apply andb_true_iff in Hall as [Hall Hk].
  apply andb_true_iff in Hall as [Hr Hc].
  apply FloatAxioms.Leibniz.eqb_spec in Hr, Hc.
  split; [exact Hr|]. split; [exact Hc|].
  apply existsb_exists in Hk as (k & Hin & Hk).
  apply FloatAxioms.Leibniz.eqb_spec in Hk.
  exists k. split; [|now symmetry].
  unfold zrange in Hin. apply in_map_iff in Hin as (i & <- & Hi).
  apply in_seq in Hi. lia.
Qed.

(** One step of a rule: unchanged, or the named move with one factor. *)
Ltac rule_stays := left; reflexivity.
Ltac rule_moves :=
  right; split; [eexists; reflexivity|];
  unfold moves; simpl;
  repeat first [apply list_elem_of_here | apply list_elem_of_further].
Ltac rule_cases :=
  intros; unfold rule_step, if_true, if_not_none;
  repeat match goal with
  | |- context [match ?v with Some _ => _ | None => _ end] => destruct v
  | |- context [if ?c then _ else _] => destruct c
  end;
  first [rule_stays | rule_moves].

Lemma pe_rule_step v st :
  rule_step [1.5; 0.5] [1.5; 0.5] st (pe_rule v st).
Proof. unfold pe_rule. rule_cases. Qed.
Lemma forward_pe_rule_step v w st :
  rule_step [0.5] [0.5] st (forward_pe_rule v w st).
Proof. unfold forward_pe_rule. rule_cases. Qed.
Lemma peg_rule_step v st : rule_step [1] [0.5] st (peg_rule v st).
Proof. unfold peg_rule. rule_cases. Qed.
Lemma peer_rule_step x st :
  rule_step [1; 0.5] [1; 0.5] st (peer_rule x st).
Proof. unfold peer_rule. rule_cases. Qed.
Lemma fcf_yield_rule_step v st :
  rule_step [0.5] [0.5] st (fcf_yield_rule v st).
Proof. unfold fcf_yield_rule. rule_cases. Qed.

Lemma revenue_growth_rule_step v st :
  rule_step [2; 1; 0.5] [1] st (revenue_growth_rule v st).
Proof. unfold revenue_growth_rule. rule_cases. Qed.
Lemma revenue_cagr_rule_step v st :
  rule_step [1] [0.5] st (revenue_cagr_rule v st).
Proof. unfold revenue_cagr_rule. rule_cases. Qed.
Lemma eps_growth_rule_step v st :
  rule_step [1] [1] st (eps_growth_rule v st).
Proof. unfold eps_growth_rule. rule_cases. Qed.
Lemma fcf_growth_rule_step v st :
  rule_step [0.5] [0.5] st (fcf_growth_rule v st).
Proof. unfold fcf_growth_rule. rule_cases. Qed.

Lemma gross_margin_rule_step v st :
  rule_step [1.5; 0.5] [1] st (gross_margin_rule v st).
Proof. unfold gross_margin_rule. rule_cases. Qed.
Lemma operating_margin_rule_step v st :
  rule_step [1; 0.5] [1] st (operating_margin_rule v st).
Proof. unfold operating_margin_rule. rule_cases. Qed.
Lemma roe_rule_step v st : rule_step [1; 0.5] [0.5] st (roe_rule v st).
Proof. unfold roe_rule. rule_cases. Qed.
Lemma roic_rule_step v st : rule_step [1] [0.5] st (roic_rule v st).
Proof. unfold roic_rule. rule_cases. Qed.

Lemma current_ratio_rule_step v st :
  rule_step [1; 0.5] [1] st (current_ratio_rule v st).
Proof. unfold current_ratio_rule. rule_cases. Qed.
Lemma debt_to_equity_rule_step v st :
  rule_step [1; 0.5] [1] st (debt_to_equity_rule v st).
Proof. unfold debt_to_equity_rule. rule_cases. Qed.
Lemma interest_coverage_rule_step v st :
  rule_step [1; 0.5] [1] st (interest_coverage_rule v st).
Proof. unfold interest_coverage_rule. rule_cases. Qed.
Lemma altman_rule_step v st : rule_step [0.5] [1] st (altman_rule v st).
Proof. unfold altman_rule. rule_cases. Qed.

Lemma margins_rule_step x y st :
  rule_step [1.5; 0.5] [] st (margins_rule x y st).
Proof. unfold margins_rule. rule_cases. Qed.
Lemma returns_rule_step x y st : rule_step [1] [] st (returns_rule x y st).
Proof. unfold returns_rule. rule_cases. Qed.
Lemma cagr_moat_rule_step v st : rule_step [0.5] [] st (cagr_moat_rule v st).
Proof. unfold cagr_moat_rule. rule_cases. Qed.
Lemma leverage_moat_rule_step x st :
  rule_step [0.5] [] st (leverage_moat_rule x st).
Proof. unfold leverage_moat_rule. rule_cases. Qed.
Lemma cash_moat_rule_step x st : rule_step [0.5] [] st (cash_moat_rule x st).
Proof. unfold cash_moat_rule. rule_cases. Qed.

Lemma valuation_rules_reach a p : reach valuation_reach 5 (valuation_rules a p).
Proof.
  unfold valuation_rules, valuation_reach.
  repeat (eapply reach_grow;
          [|first [apply fcf_yield_rule_step | apply peer_rule_step
                  | apply peg_rule_step | apply forward_pe_rule_step
                  | apply pe_rule_step]]).
  apply reach_start.
Qed.

Lemma growth_rules_reach a : reach growth_reach 4 (growth_rules a).
Proof.
  unfold growth_rules, growth_reach.
  repeat (eapply reach_grow;
          [|first [apply fcf_growth_rule_step | apply eps_growth_rule_step
                  | apply revenue_cagr_rule_step
                  | apply revenue_growth_rule_step]]).
  apply reach_start.
Qed.

Lemma profitability_rules_reach a :
  reach profitability_reach 4 (profitability_rules a).
Proof.
  unfold profitability_rules, profitability_reach.
  repeat (eapply reach_grow;
          [|first [apply roic_rule_step | apply roe_rule_step
                  | apply operating_margin_rule_step
                  | apply gross_margin_rule_step]]).
  apply reach_start.
Qed.

Lemma financial_health_rules_reach a :
  reach health_reach 4 (financial_health_rules a).
Proof.
  unfold financial_health_rules, health_reach.
  repeat (eapply reach_grow;
          [|first [apply altman_rule_step | apply interest_coverage_rule_step
                  | apply debt_to_equity_rule_step
                  | apply current_ratio_rule_step]]).
  apply reach_start.
Qed.

Lemma quality_rules_reach a : reach quality_reach 5 (quality_rules a).
Proof.
  unfold quality_rules, quality_reach.
  repeat (eapply reach_grow;
          [|first [apply cash_moat_rule_step | apply leverage_moat_rule_step
                  | apply cagr_moat_rule_step | apply returns_rule_step
                  | apply margins_rule_step]]).
  apply reach_start.
Qed.

(** What a reachable accumulator gives once the result dict is built. *)
Lemma result_of_reach (c : category) (lo hi : Z) (R : list float) (n : nat)
    (st : acc) :
  forallb (settled lo hi) R = true -> reach R n st ->
  score (result c st) = acc_score st /\
  weighted (result c st) = Py.round (acc_score st * SCORE_WEIGHTS c) 2 /\
  (exists k : Z, (lo <= k <= hi)%Z /\ score (result c st) = halves k) /\
  (length (factors (result c st)) <= n)%nat /\
  (factors (result c st) = [] -> score (result c st) = 5.0).
Proof.
  intros Hall (HR & Hn & H5).
  destruct (settled_sound lo hi R _ Hall HR) as (Hr & Hc & k & Hk & Hs).
  unfold result. cbn [score weighted factors].
  rewrite Hc in Hr. rewrite Hc, Hr.
  split; [reflexivity|]. split; [reflexivity|].
  split; [exists k; auto|]. auto.
Qed.

End ReachFacts.

(** ** Invariants of the scorers *)

Section ScorerInvariants.

Import Config Engine Reach FloatFacts.
Local Open Scope string_scope.
Local Open Scope list_scope.
Local Open Scope float_scope.
Local Open Scope py_scope.

Lemma explained_or_neutral (c : CategoryScore) :
  (factors c = [] -> score c = 5.0) -> score c = 5.0 \/ factors c <> [].
Proof.
  intros H. destruct (factors c) as [|f fs]; [left; now apply H|].
  right. discriminate.
Qed.

(** X1: the valuation score needs no clamp: for every input the sum of the
    adjustments is already a multiple of 0.5 between 1.0 and 9.5, so the
    reported score is that sum, unchanged by the clamp and the rounding;
    there are at most 5 factors, and a score with no factor is the neutral
    5.0. *)
Theorem X1_valuation_score_range (a : Analysis) (p : PeerSummary) :
  let c := score_valuation a p in
  score c = acc_score (valuation_rules a p) /\
  (exists k : Z, (2 <= k <= 19)%Z /\ score c = halves k) /\
  (length (factors c) <= 5)%nat /\
  (score c = 5.0 \/ factors c <> []).
Proof.
  destruct (result_of_reach valuation 2 19 valuation_reach 5
              (valuation_rules a p) ltac:(vm_compute; reflexivity)
              (valuation_rules_reach a p)) as (H1 & _ & H2 & H3 & H4).
  split; [exact H1|]. split; [exact H2|]. split; [exact H3|].
  apply explained_or_neutral, H4.
Qed.

(** X2: the growth score is always a multiple of 0.5 between 2.0 and 9.5,
    equal to the unclamped sum of its adjustments, with at most 4 factors,
    and it is the neutral 5.0 when there is no factor. *)
Theorem X2_growth_score_range (a : Analysis) :
  let c := score_growth a in
  score c = acc_score (growth_rules a) /\
  (exists k : Z, (4 <= k <= 19)%Z /\ score c = halves k) /\
  (length (factors c) <= 4)%nat /\
  (score c = 5.0 \/ factors c <> []).
Proof.
  destruct (result_of_reach growth 4 19 growth_reach 4
              (growth_rules a) ltac:(vm_compute; reflexivity)
              (growth_rules_reach a)) as (H1 & _ & H2 & H3 & H4).
  split; [exact H1|]. split; [exact H2|]. split; [exact H3|].
  apply explained_or_neutral, H4.
Qed.

(** X3: the profitability score is always a multiple of 0.5 between 2.0 and
    9.5, equal to the unclamped sum of its adjustments, with at most 4
    factors, and it is the neutral 5.0 when there is no factor. *)
Theorem X3_profitability_score_range (a : Analysis) :
  let c := score_profitability a in
  score c = acc_score (profitability_rules a) /\
  (exists k : Z, (4 <= k <= 19)%Z /\ score c = halves k) /\
  (length (factors c) <= 4)%nat /\
  (score c = 5.0 \/ factors c <> []).
Proof.
  destruct (result_of_reach profitability 4 19 profitability_reach 4
              (profitability_rules a) ltac:(vm_compute; reflexivity)
              (profitability_rules_reach a)) as (H1 & _ & H2 & H3 & H4).
  split; [exact H1|]. split; [exact H2|]. split; [exact H3|].
  apply explained_or_neutral, H4.
Qed.

(** X4: the financial-health score is always a multiple of 0.5 between 1.0
    and 8.5, equal to the unclamped sum of its adjustments, with at most 4
    factors, and it is the neutral 5.0 when there is no factor. *)
Theorem X4_financial_health_score_range (a : Analysis) :
  let c := score_financial_health a in
  score c = acc_score (financial_health_rules a) /\
  (exists k : Z, (2 <= k <= 17)%Z /\ score c = halves k) /\
  (length (factors c) <= 4)%nat /\
  (score c = 5.0 \/ factors c <> []).
Proof.
  destruct (result_of_reach financial_health 2 17 health_reach 4
              (financial_health_rules a) ltac:(vm_compute; reflexivity)
              (financial_health_rules_reach a)) as (H1 & _ & H2 & H3 & H4).
  split; [exact H1|]. split; [exact H2|]. split; [exact H3|].
  apply explained_or_neutral, H4.
Qed.

(** X5: the quality/moat scorer only ever adds: its score is a multiple of
    0.5 between the neutral 5.0 and 9.0, equal to the unclamped sum of its
    adjustments, with at most 5 factors, and it is 5.0 when there is no
    factor. *)
Theorem X5_quality_moat_score_range (a : Analysis) :
  let c := score_quality_moat a in
  score c = acc_score (quality_rules a) /\
  (exists k : Z, (10 <= k <= 18)%Z /\ score c = halves k) /\
  (length (factors c) <= 5)%nat /\
  (score c = 5.0 \/ factors c <> []).
Proof.
  destruct (result_of_reach quality_moat 10 18 quality_reach 5
              (quality_rules a) ltac:(vm_compute; reflexivity)
              (quality_rules_reach a)) as (H1 & _ & H2 & H3 & H4).
  split; [exact H1|]. split; [exact H2|]. split; [exact H3|].
  apply explained_or_neutral, H4.
Qed.

Lemma SFleb_trans (x y z : spec_float) :
  SFleb x y = true -> SFleb y z = true -> SFleb x z = true.
Proof.
  unfold SFleb.
  destruct x as [[]|[]| |[] mx ex], y as [[]|[]| |[] my ey],
    z as [[]|[]| |[] mz ez]; simpl; try congruence; order_cases.
Qed.

Lemma leb_trans (a b c : float) :
  PrimFloat.leb a b = true -> PrimFloat.leb b c = true ->
  PrimFloat.leb a c = true.
Proof. rewrite !FloatAxioms.leb_spec. apply SFleb_trans. Qed.

(** X6: the recommendation is monotone in the total: of two totals the
    larger one never gets the worse label. *)
Theorem X6_recommend_monotone (t1 t2 : float) :
  (t1 <=? t2) = true ->
  (label_rank (recommend t1) <= label_rank (recommend t2))%nat.
Proof.
  intros H. unfold Py.le in H.
  assert (Hup : forall th : float,
             PrimFloat.leb th t1 = true -> PrimFloat.leb th t2 = true).
  { intros th Hth. exact (leb_trans _ _ _ Hth H). }
  unfold recommend, RECOMMENDATION_THRESHOLDS, Py.ge.
  pose proof (Hup 8.0) as H8. pose proof (Hup 6.5) as H6.
  pose proof (Hup 5.0) as H5. pose proof (Hup 3.5) as H3.
  destruct (PrimFloat.leb 8.0 t1); [rewrite H8 by reflexivity; vm_compute; lia|].
  destruct (PrimFloat.leb 6.5 t1).
  { rewrite H6 by reflexivity. destruct (PrimFloat.leb 8.0 t2); vm_compute; lia. }
  destruct (PrimFloat.leb 5.0 t1).
  { rewrite H5 by reflexivity.
    destruct (PrimFloat.leb 8.0 t2), (PrimFloat.leb 6.5 t2); vm_compute; lia. }
  destruct (PrimFloat.leb 3.5 t1).
  { rewrite H3 by reflexivity.
    destruct (PrimFloat.leb 8.0 t2), (PrimFloat.leb 6.5 t2),
      (PrimFloat.leb 5.0 t2); vm_compute; lia. }
  vm_compute. lia.
Qed.

(** X6, at the totals 6.4 and 6.6 on the two sides of the "Buy" threshold. *)
Lemma X6_recommend_monotone_witness :
  (label_rank (recommend 6.4) <= label_rank (recommend 6.6))%nat.
Proof. apply X6_recommend_monotone. reflexivity. Defined.

End ScorerInvariants.

(** ** The technical momentum score and its use by the scoring engine *)

Section MomentumFacts.

Import Config Engine Reach FloatFacts.
Local Open Scope string_scope.
Local Open Scope list_scope.
Local Open Scope float_scope.
Local Open Scope py_scope.

Ltac rule_stays := left; reflexivity.
Ltac rule_moves :=
  right; split; [eexists; reflexivity|];
  unfold moves; simpl;
  repeat first [apply list_elem_of_here | apply list_elem_of_further].
Ltac rule_cases :=
  intros; unfold rule_step, if_true, if_not_none;
  repeat match goal with
  | |- context [match ?v with Some _ => _ | None => _ end] => destruct v
  | |- context [if ?c then _ else _] => destruct c
  end;
  first [rule_stays | rule_moves].

Lemma return_rule_step x st :
  rule_step [1; 0.5] [1; 0.5] st (Momentum.return_rule x st).
Proof. unfold Momentum.return_rule. rule_cases. Qed.
Lemma compare_rule_step v w above below st :
  rule_step [0.5] [0.5] st (Momentum.compare_rule v w above below st).
Proof. unfold Momentum.compare_rule. rule_cases. Qed.
Lemma high_rule_step x st :
  rule_step [0.5] [0.5] st (Momentum.high_rule x st).
Proof. unfold Momentum.high_rule. rule_cases. Qed.
Lemma mean_rating_rule_step v st :
  rule_step [1; 0.5] [1] st (mean_rating_rule v st).
Proof. unfold mean_rating_rule. rule_cases. Qed.
Lemma upside_rule_step v st : rule_step [0.5] [0.5] st (upside_rule v st).
Proof. unfold upside_rule. rule_cases. Qed.
Lemma beat_rate_rule_step v st :
  rule_step [0.5] [0.5] st (beat_rate_rule v st).
Proof. unfold beat_rate_rule. rule_cases. Qed.

Lemma momentum_rules_reach (d : Momentum.Data) :
  reach Momentum.momentum_reach 5 (Momentum.momentum_rules d).
Proof.
  unfold Momentum.momentum_rules, Momentum.momentum_reach.
  repeat (eapply reach_grow;
          [|first [apply high_rule_step | apply compare_rule_step
                  | apply return_rule_step]]).
  apply reach_start.
Qed.

(** A rule keeps the factors it found and adds at most one. *)
Lemma rule_step_factors ups downs (st st' : acc) :
  rule_step ups downs st st' ->
  acc_factors st `prefix_of` acc_factors st' /\
  (length (acc_factors st') <= S (length (acc_factors st)))%nat.
Proof.
  intros [->|[[f Hf] _]].
  - split; [reflexivity|lia].
  - rewrite Hf, length_app. split; [now exists [f]|simpl; lia].
Qed.

Lemma rule_step_score ups downs (R : list float) (st st' : acc) :
  acc_score st ∈ R -> rule_step ups downs st st' ->
  acc_score st' ∈ grow ups downs R.
Proof.
  intros HR [->|[_ Hm]]; eapply grow_elem; eauto.
Qed.

Lemma rsi_signals_prefix (r : option float) (signals : list string) :
  signals `prefix_of` Momentum.rsi_signals r signals /\
  (length (Momentum.rsi_signals r signals) <= S (length signals))%nat.
Proof.
  unfold Momentum.rsi_signals.
  destruct r as [r|]; [|split; [reflexivity|lia]].
  destruct (r >? 70); [|destruct (r <? 30)];
    rewrite ?length_app; simpl;
    (split; [first [reflexivity | eexists; reflexivity]|lia]).
Qed.

(** X7: the technical momentum score needs no clamp: it is a multiple of
    0.5 between 2.0 and 8.0, equal to the raw sum of the adjustments; the
    momentum label, computed before the rounding, is the label of the
    reported score; and there are at most 6 technical signals. *)
Theorem X7_momentum_score_range (d : Momentum.Data) :
  let m := Momentum.calculate_momentum_score d in
  Momentum.momentum_score m = acc_score (Momentum.momentum_rules d) /\
  (exists k : Z, (4 <= k <= 16)%Z /\ Momentum.momentum_score m = halves k) /\
  Momentum.overall_momentum m
  = Momentum.momentum_label (Momentum.momentum_score m) /\
  (length (Momentum.technical_signals m) <= 6)%nat.
Proof.
  destruct (momentum_rules_reach d) as (HR & Hn & _).
  destruct (settled_sound 4 16 Momentum.momentum_reach _
              ltac:(vm_compute; reflexivity) HR)
    as (Hr & Hc & k & Hk & Hs).
  unfold Momentum.calculate_momentum_score.
  cbn [Momentum.momentum_score Momentum.overall_momentum
       Momentum.technical_signals].
  rewrite Hc in Hr. rewrite Hc, Hr.
  split; [reflexivity|]. split; [exists k; auto|]. split; [reflexivity|].
  destruct (rsi_signals_prefix (Momentum.latest_rsi d)
              (acc_factors (Momentum.momentum_rules d))) as [_ Hl].
  lia.
Qed.

Lemma prefix_elem (l1 l2 : list string) (x : string) :
  l1 `prefix_of` l2 -> x ∈ l1 -> x ∈ l2.
Proof. intros [k ->] H. apply elem_of_app. now left. Qed.

(** X8: missing 52-week data counts as being at the high: when
    pct_from_52w_high is absent, [None] or zero, the last rule adds exactly
    0.5 to the score that the four rules before it reached and appends the
    signal "Near 52-week high" to their signals, so the signal is among the
    technical signals; when the 1-month return, the price and the 50-day
    average are missing too and there is no RSI, the result is the score 5.5
    (not the neutral 5) with that signal alone, labelled "Neutral". *)
Theorem X8_missing_high_reads_as_near_high (d : Momentum.Data) :
  Py.present (bag_get (Momentum.overview d) "pct_from_52w_high") = false ->
  let r1m := Py.or_num (bag_get (Momentum.return_metrics d) "return_1m") 0 in
  let current_price := bag_get (Momentum.overview d) "current_price" in
  let ma50 := bag_get (Momentum.overview d) "fifty_day_avg" in
  let ma200 := bag_get (Momentum.overview d) "two_hundred_day_avg" in
  let before :=
    Momentum.compare_rule ma50 ma200
      "Golden cross (50MA > 200MA)" "Death cross (50MA < 200MA)"
      (Momentum.compare_rule current_price ma200
         "Price above 200-day MA" "Price below 200-day MA"
         (Momentum.compare_rule current_price ma50
            "Price above 50-day MA" "Price below 50-day MA"
            (Momentum.return_rule r1m (Acc 5 [])))) in
  let m := Momentum.calculate_momentum_score d in
  Momentum.momentum_rules d
  = Acc (acc_score before + 0.5)
      (acc_factors before ++ ["Near 52-week high"]) /\
  "Near 52-week high" ∈ Momentum.technical_signals m /\
  (Py.present (bag_get (Momentum.return_metrics d) "return_1m") = false ->
   Py.present current_price = false -> Py.present ma50 = false ->
   Momentum.latest_rsi d = None ->
   Momentum.momentum_score m = 5.5 /\
   Momentum.technical_signals m = ["Near 52-week high"] /\
   Momentum.overall_momentum m = "Neutral").
Proof.
  intros H. cbv zeta.
  assert (Hz : Py.or_num (bag_get (Momentum.overview d) "pct_from_52w_high") 0
               = 0).
  { unfold Py.present in H. unfold Py.or_num.
    destruct (bag_get (Momentum.overview d) "pct_from_52w_high") as [x|];
      [|reflexivity].
    now rewrite H. }
  assert (Hrules :
    Momentum.momentum_rules d
    = plus
        (Momentum.compare_rule
           (bag_get (Momentum.overview d) "fifty_day_avg")
           (bag_get (Momentum.overview d) "two_hundred_day_avg")
           "Golden cross (50MA > 200MA)" "Death cross (50MA < 200MA)"
           (Momentum.compare_rule
              (bag_get (Momentum.overview d) "current_price")
              (bag_get (Momentum.overview d) "two_hundred_day_avg")
              "Price above 200-day MA" "Price below 200-day MA"
              (Momentum.compare_rule
                 (bag_get (Momentum.overview d) "current_price")
                 (bag_get (Momentum.overview d) "fifty_day_avg")
                 "Price above 50-day MA" "Price below 50-day MA"
                 (Momentum.return_rule
                    (Py.or_num
                       (bag_get (Momentum.return_metrics d) "return_1m") 0)
                    (Acc 5 [])))))
        0.5 "Near 52-week high").
  { unfold Momentum.momentum_rules. rewrite Hz. reflexivity. }
  split; [exact Hrules|]. split.
  - unfold Momentum.calculate_momentum_score.
    cbn [Momentum.technical_signals]. rewrite Hrules.
    eapply prefix_elem; [apply rsi_signals_prefix|].
    unfold plus. cbn [acc_factors]. apply elem_of_app. right.
    apply list_elem_of_here.
  - intros Hr Hp Hm Hrsi.
    assert (H0 : Py.or_num (bag_get (Momentum.return_metrics d) "return_1m") 0
                 = 0).
    { unfold Py.present in Hr. unfold Py.or_num.
      destruct (bag_get (Momentum.return_metrics d) "return_1m") as [x|];
        [|reflexivity].
      now rewrite Hr. }
    assert (Hc : forall (a b : option float) (above below : string)
                        (st : acc),
               Py.present a = false ->
               Momentum.compare_rule a b above below st = st).
    { intros a b above below st Ha. unfold Momentum.compare_rule.
      destruct a as [x|]; [|reflexivity]. destruct b as [y|]; [|reflexivity].
      simpl in Ha. now rewrite Ha. }
    rewrite H0 in Hrules. rewrite !Hc in Hrules by assumption.
    unfold Momentum.calculate_momentum_score.
    rewrite Hrules, Hrsi.
    cbn [Momentum.momentum_score Momentum.technical_signals
         Momentum.overall_momentum].
    repeat split; vm_compute; reflexivity.
Qed.

(** X8, on entirely empty data: the score is 5.5. *)
Lemma X8_missing_high_reads_as_near_high_witness :
  let m :=
    Momentum.calculate_momentum_score
      {| Momentum.overview := ∅; Momentum.return_metrics := ∅;
         Momentum.latest_rsi := None |} in
  Momentum.momentum_score m = 5.5 /\
  Momentum.technical_signals m = ["Near 52-week high"] /\
  Momentum.overall_momentum m = "Neutral".
Proof.
  destruct (X8_missing_high_reads_as_near_high
              {| Momentum.overview := ∅; Momentum.return_metrics := ∅;
                 Momentum.latest_rsi := None |}) as (_ & _ & H);
    [reflexivity|].
  apply H; reflexivity.
Defined.

(** X9: fed with the result of calculate_momentum_score, the
    momentum/sentiment scorer returns a multiple of 0.5 between 1.0 and 10.0
    whatever the analyst and earnings figures are; its factors start with
    the first three technical signals and number at most 6. *)
Theorem X9_momentum_sentiment_on_momentum_result
    (d : Momentum.Data) (mean_rating upside_pct beat_rate : option float) :
  let m := Momentum.calculate_momentum_score d in
  let c := score_momentum_sentiment
             (Momentum.sentiment_with m mean_rating upside_pct beat_rate) in
  (exists k : Z, (2 <= k <= 20)%Z /\ score c = halves k) /\
  take 3 (Momentum.technical_signals m) `prefix_of` factors c /\
  (length (factors c) <= 6)%nat.
Proof.
  cbv zeta.
  set (m := Momentum.calculate_momentum_score d).
  set (st0 := Acc (Momentum.momentum_score m)
                (take 3 (Momentum.technical_signals m))).
  set (st1 := mean_rating_rule mean_rating st0).
  set (st2 := upside_rule upside_pct st1).
  set (st3 := beat_rate_rule beat_rate st2).
  assert (Hst : momentum_rules
                  (Momentum.sentiment_with m mean_rating upside_pct beat_rate)
                = st3) by reflexivity.
  pose proof (mean_rating_rule_step mean_rating st0) as S1.
  pose proof (upside_rule_step upside_pct st1) as S2.
  pose proof (beat_rate_rule_step beat_rate st2) as S3.
  fold st1 in S1. fold st2 in S2. fold st3 in S3.
  assert (H0 : acc_score st0 ∈ Momentum.momentum_reach).
  { destruct (momentum_rules_reach d) as (HR & _).
    destruct (settled_sound 4 16 Momentum.momentum_reach _
              ltac:(vm_compute; reflexivity) HR)
      as (Hr & Hc & _).
    unfold st0, m, Momentum.calculate_momentum_score.
    cbn [acc_score Momentum.momentum_score].
    rewrite Hc in Hr. rewrite Hc, Hr. exact HR. }
  assert (H3 : acc_score st3 ∈ Momentum.sentiment_reach).
  { unfold Momentum.sentiment_reach.
    eapply rule_step_score; [|exact S3].
    eapply rule_step_score; [|exact S2].
    eapply rule_step_score; [|exact S1]. exact H0. }
  assert (Hall : forallb (fun s =>
              existsb (fun k =>
                  PrimFloat.Leibniz.eqb (halves k) (Py.round (clamp s) 1))
                (zrange 2 19)) Momentum.sentiment_reach = true)
    by (vm_compute; reflexivity).
  rewrite forallb_forall in Hall.
  specialize (Hall _ (proj1 (list_elem_of_In _ _) H3)).
  apply existsb_exists in Hall as (k & Hin & Hk).
  apply FloatAxioms.Leibniz.eqb_spec in Hk.
  destruct (rule_step_factors _ _ _ _ S1) as [P1 L1].
  destruct (rule_step_factors _ _ _ _ S2) as [P2 L2].
  destruct (rule_step_factors _ _ _ _ S3) as [P3 L3].
  unfold score_momentum_sentiment. rewrite Hst.
  unfold result. cbn [score factors].
  split; [|split].
  - exists k. split; [|now symmetry].
    unfold zrange in Hin. apply in_map_iff in Hin as (i & <- & Hi).
    apply in_seq in Hi. lia.
  - etransitivity; [|exact P3]. etransitivity; [|exact P2]. exact P1.
  - assert (length (acc_factors st0) <= 3)%nat.
    { unfold st0. cbn [acc_factors]. rewrite length_take. lia. }
    lia.
Qed.

End MomentumFacts.

(** ** What the thesis lists can contain *)

Section ThesisFacts.

Import Engine Thesis.
Local Open Scope string_scope.
Local Open Scope list_scope.
Local Open Scope float_scope.
Local Open Scope py_scope.

Lemma append_if_inv (c : bool) (g x : string) (points : list string) :
  x ∈ append_if c g points -> x ∈ points \/ (c = true /\ x = g).
Proof.
  unfold append_if. destruct c; [|auto].
  rewrite elem_of_app, list_elem_of_singleton. intros [H|H]; auto.
Qed.

Lemma take_fromkeys_elem (n : nat) (l : list string) (x : string) :
  x ∈ take n (fromkeys [] l) -> x ∈ l.
Proof.
  intros H.
  assert (H' : x ∈ take n (fromkeys [] l) ++ drop n (fromkeys [] l))
    by (apply elem_of_app; now left).
  rewrite take_drop in H'. now apply fromkeys_elem in H' as [H' _].
Qed.

(** Where an entry of [bull_points] comes from, with the condition under
    which each observation is appended. *)
Lemma bull_points_inv (a : Analysis) (p : PeerSummary) (s : Sentiment)
    (fs : list (string * list string)) (x : string) :
  x ∈ bull_points a p s fs ->
  x ∈ collect is_bull fs
  \/ ((Py.or_num (bag_get (an_growth a) "revenue_growth_1y") 0 >? 0.15) = true
      /\ x = "Revenue growing at "
               +:+ Py.format_pct
                     (Py.or_num (bag_get (an_growth a) "revenue_growth_1y") 0)
                     1
               +:+ " YoY")
  \/ x = "Operating margins expanding year-over-year"
  \/ ((default 0 (ps_avg_premium_discount p) <? -15) = true
      /\ x = "Trading at discount to peers despite comparable fundamentals")
  \/ ((Py.or_num (se_upside_pct s) 0 >? 15) = true
      /\ x = "Analyst consensus implies "
               +:+ Py.format_f (Py.or_num (se_upside_pct s) 0) 0
               +:+ "% upside potential").
Proof.
  unfold bull_points. intros H.
  apply append_if_inv in H as [H|[Hc ->]]; [|auto 10].
  apply append_if_inv in H as [H|[Hc ->]]; [|auto 10].
  assert (H' : x ∈ append_if
                   ((Py.or_num (bag_get (an_growth a) "revenue_growth_1y") 0
                     >? 0.15)
                    && negb (PyStr.contains "revenue growth"
                               (PyStr.lower
                                  (PyStr.join " " (collect is_bull fs)))))
                   ("Revenue growing at "
                      +:+ Py.format_pct
                            (Py.or_num
                               (bag_get (an_growth a) "revenue_growth_1y") 0) 1
                      +:+ " YoY")
                   (collect is_bull fs)
                 \/ x = "Operating margins expanding year-over-year").
  { destruct (an_operating_margin_trend a) as [[|m0 trend]|]; auto.
    destruct (omap id (m0 :: trend)) as [|first [|second rest]]; auto.
    apply append_if_inv in H as [H|[_ ->]]; auto. }
  destruct H' as [H'| ->]; [|auto 10].
  apply append_if_inv in H' as [H'|[Hc ->]]; [auto|].
  apply andb_true_iff in Hc as [Hc _]. auto 10.
Qed.

Lemma bear_points_inv (a : Analysis) (p : PeerSummary) (s : Sentiment)
    (fs : list (string * list string)) (x : string) :
  x ∈ bear_points a p s fs ->
  x ∈ collect is_bear fs
  \/ x = "Trading at "
           +:+ Py.format_f
                 (default 0 (bag_get (an_valuation a) "pe_trailing")) 0
           +:+ "x earnings - limited margin of safety"
  \/ ((default 0 (ps_avg_premium_discount p) >? 20) = true
      /\ x = "Premium valuation relative to peers may not be sustainable")
  \/ x = "Elevated debt levels (D/E: "
           +:+ Py.format_f
                 (default 0
                    (bag_get (an_financial_health a) "debt_to_equity")) 0
           +:+ "%) increase risk"
  \/ x = "Revenue growth decelerating vs historical trend"
  \/ x = "Trading above analyst price target ("
           +:+ Py.format_f (Py.or_num (se_upside_pct s) 0) 0 +:+ "%)".
Proof.
  unfold bear_points. intros H.
  apply append_if_inv in H as [H|[_ ->]]; [|auto 10].
  apply append_if_inv in H as [H|[_ ->]]; [|auto 10].
  apply append_if_inv in H as [H|[_ ->]]; [|auto 10].
  apply append_if_inv in H as [H|[Hc ->]]; [|auto 10].
  apply append_if_inv in H as [H|[_ ->]]; auto 10.
Qed.

Ltac in_literal :=
  repeat first [apply list_elem_of_here | apply list_elem_of_further].

(** X10: the bull case lists nothing but factors of the score report that
    hold a bull keyword and its own four observations (revenue growth,
    margin expansion, peer discount, analyst upside); the bear case nothing
    but factors that hold a bear keyword and its own five observations. *)
Theorem X10_thesis_items_provenance
    (a : Analysis) (p : PeerSummary) (s : Sentiment)
    (fs : list (string * list string)) (x : string) :
  (x ∈ generate_bull_case a p s fs ->
   (is_bull x = true /\ exists cf, cf ∈ fs /\ x ∈ snd cf)
   \/ x ∈ ["Revenue growing at "
             +:+ Py.format_pct
                   (Py.or_num (bag_get (an_growth a) "revenue_growth_1y") 0) 1
             +:+ " YoY";
           "Operating margins expanding year-over-year";
           "Trading at discount to peers despite comparable fundamentals";
           "Analyst consensus implies "
             +:+ Py.format_f (Py.or_num (se_upside_pct s) 0) 0
             +:+ "% upside potential"]) /\
  (x ∈ generate_bear_case a p s fs ->
   (is_bear x = true /\ exists cf, cf ∈ fs /\ x ∈ snd cf)
   \/ x ∈ ["Trading at "
             +:+ Py.format_f
                   (default 0 (bag_get (an_valuation a) "pe_trailing")) 0
             +:+ "x earnings - limited margin of safety";
           "Premium valuation relative to peers may not be sustainable";
           "Elevated debt levels (D/E: "
             +:+ Py.format_f
                   (default 0
                      (bag_get (an_financial_health a) "debt_to_equity")) 0
             +:+ "%) increase risk";
           "Revenue growth decelerating vs historical trend";
           "Trading above analyst price target ("
             +:+ Py.format_f (Py.or_num (se_upside_pct s) 0) 0 +:+ "%)"]).
Proof.
  split; intros H; apply take_fromkeys_elem in H.
  - apply bull_points_inv in H
      as [H|[[_ ->]|[->|[[_ ->]|[_ ->]]]]]; try solve [right; in_literal].
    left. now apply collect_elem.
  - apply bear_points_inv in H
      as [H|[->|[[_ ->]|[->|[->| ->]]]]]; try solve [right; in_literal].
    left. now apply collect_elem.
Qed.

(** X10, at the single bull factor of a one-category report. *)
Lemma X10_thesis_items_provenance_witness :
  (is_bull "Strong revenue growth (20.0%)" = true
   /\ exists cf, cf ∈ [("growth", ["Strong revenue growth (20.0%)"])]
                 /\ "Strong revenue growth (20.0%)" ∈ snd cf)
  \/ "Strong revenue growth (20.0%)"
       ∈ ["Revenue growing at "
            +:+ Py.format_pct
                  (Py.or_num
                     (bag_get (an_growth empty_analysis) "revenue_growth_1y")
                     0) 1
            +:+ " YoY";
          "Operating margins expanding year-over-year";
          "Trading at discount to peers despite comparable fundamentals";
          "Analyst consensus implies "
            +:+ Py.format_f (Py.or_num (se_upside_pct empty_sentiment) 0) 0
            +:+ "% upside potential"].
Proof.
  apply (proj1 (X10_thesis_items_provenance empty_analysis empty_peer_summary
                  empty_sentiment
                  [("growth", ["Strong revenue growth (20.0%)"])]
                  "Strong revenue growth (20.0%)")).
  vm_compute. apply list_elem_of_here.
Defined.

(** X11: the key-metrics list always opens with the three standing metrics
    and has between 3 and 7 entries; since at most 2 sector metrics, one
    valuation monitor and one balance-sheet monitor are ever added, the final
    cut to 7 entries never drops anything. *)
Theorem X11_key_metrics_cut_is_idle (a : Analysis) (industry : string) :
  let r := Monitor.generate_key_metrics_to_monitor a industry in
  r = Monitor.key_metrics a industry /\
  take 3 r = Monitor.base_metrics /\
  (3 <= length r <= 7)%nat.
Proof.
  cbv zeta. unfold Monitor.generate_key_metrics_to_monitor.
  assert (H : exists sector extra,
             Monitor.key_metrics a industry
             = Monitor.base_metrics ++ sector ++ extra
             /\ (length sector <= 2)%nat /\ (length extra <= 2)%nat).
  { unfold Monitor.key_metrics.
    exists (Monitor.sector_metrics (PyStr.lower industry)).
    assert (Hs : (length (Monitor.sector_metrics (PyStr.lower industry))
                  <= 2)%nat).
    { unfold Monitor.sector_metrics.
      repeat match goal with
             | |- context [if ?c then _ else _] => destruct c
             end; simpl; lia. }
    unfold append_if.
    destruct (_ >? 30), (_ >? 80).
    - exists ["Earnings growth to justify premium valuation";
              "Debt reduction progress and interest expense"].
      split; [now rewrite <- !app_assoc|]. split; [exact Hs|simpl; lia].
    - exists ["Earnings growth to justify premium valuation"].
      split; [now rewrite <- !app_assoc|]. split; [exact Hs|simpl; lia].
    - exists ["Debt reduction progress and interest expense"].
      split; [now rewrite <- !app_assoc|]. split; [exact Hs|simpl; lia].
    - exists []. split; [now rewrite app_nil_r|].
      split; [exact Hs|simpl; lia]. }
  destruct H as (sector & extra & -> & Hs & He).
  assert (Hlen : (length (Monitor.base_metrics ++ sector ++ extra) <= 7)%nat).
  { rewrite !length_app. simpl. lia. }
  rewrite take_ge by exact Hlen.
  split; [reflexivity|]. split; [reflexivity|].
  rewrite !length_app in *. simpl in *. lia.
Qed.

End ThesisFacts.

(** ** The relative valuation beyond its premiums *)

Section PeersFacts.

Import Engine Peers FloatFacts.
Local Open Scope string_scope.
Local Open Scope list_scope.
Local Open Scope float_scope.
Local Open Scope py_scope.

Lemma leb_refl_number (x : float) :
  Py.is_nan x = false -> PrimFloat.leb x x = true.
Proof.
  unfold Py.is_nan. rewrite FloatAxioms.eqb_spec, FloatAxioms.leb_spec.
  unfold SFeqb, SFleb.
  destruct (SFcompare (Prim2SF x) (Prim2SF x)) as [[]|]; simpl; congruence.
Qed.

Lemma not_ltb_leb (a b : float) :
  Py.is_nan a = false -> Py.is_nan b = false ->
  PrimFloat.ltb a b = false -> PrimFloat.leb b a = true.
Proof.
  unfold Py.is_nan.
  rewrite !FloatAxioms.eqb_spec, FloatAxioms.ltb_spec, FloatAxioms.leb_spec.
  unfold SFeqb, SFltb, SFleb.
  destruct (Prim2SF a) as [[]|[]| |[] ma ea],
    (Prim2SF b) as [[]|[]| |[] mb eb]; simpl; try congruence; order_cases.
Qed.

(** The loop of [min]: the running minimum is one of the values seen and
    lies under each of them. *)
Lemma min_loop (l seen : list float) (m : float) :
  m ∈ seen -> Py.is_nan m = false ->
  (forall v, v ∈ seen -> PrimFloat.leb m v = true) ->
  Forall (fun x => Py.is_nan x = false) l ->
  let r := foldl (fun m y => if y <? m then y else m) m l in
  r ∈ seen ++ l /\ forall v, v ∈ seen ++ l -> PrimFloat.leb r v = true.
Proof.
  revert seen m. induction l as [|y l IH]; intros seen m Hin Hm Hlow Hl; simpl.
  - rewrite app_nil_r. auto.
  - inversion Hl as [|? ? Hy Hl']; subst.
    replace (seen ++ y :: l) with ((seen ++ [y]) ++ l)
      by now rewrite <- app_assoc.
    unfold Py.lt. destruct (PrimFloat.ltb y m) eqn:E.
    + apply IH; [apply elem_of_app; right; apply list_elem_of_here
                |exact Hy| |exact Hl'].
      intros v [Hv|Hv]%elem_of_app.
      * apply leb_trans with m; [now apply ltb_leb|now apply Hlow].
      * apply list_elem_of_singleton in Hv as ->. now apply leb_refl_number.
    + apply IH; [apply elem_of_app; now left|exact Hm| |exact Hl'].
      intros v [Hv|Hv]%elem_of_app; [now apply Hlow|].
      apply list_elem_of_singleton in Hv as ->. now apply not_ltb_leb.
Qed.

Lemma max_loop (l seen : list float) (m : float) :
  m ∈ seen -> Py.is_nan m = false ->
  (forall v, v ∈ seen -> PrimFloat.leb v m = true) ->
  Forall (fun x => Py.is_nan x = false) l ->
  let r := foldl (fun m y => if y >? m then y else m) m l in
  r ∈ seen ++ l /\ forall v, v ∈ seen ++ l -> PrimFloat.leb v r = true.
Proof.
  revert seen m. induction l as [|y l IH]; intros seen m Hin Hm Hlow Hl; simpl.
  - rewrite app_nil_r. auto.
  - inversion Hl as [|? ? Hy Hl']; subst.
    replace (seen ++ y :: l) with ((seen ++ [y]) ++ l)
      by now rewrite <- app_assoc.
    unfold Py.gt. destruct (PrimFloat.ltb m y) eqn:E.
    + apply IH; [apply elem_of_app; right; apply list_elem_of_here
                |exact Hy| |exact Hl'].
      intros v [Hv|Hv]%elem_of_app.
      * apply leb_trans with m; [now apply Hlow|now apply ltb_leb].
      * apply list_elem_of_singleton in Hv as ->. now apply leb_refl_number.
    + apply IH; [apply elem_of_app; now left|exact Hm| |exact Hl'].
      intros v [Hv|Hv]%elem_of_app; [now apply Hlow|].
      apply list_elem_of_singleton in Hv as ->. now apply not_ltb_leb.
Qed.

Lemma list_min_bracket (l : list float) :
  l <> [] -> Forall (fun x => Py.is_nan x = false) l ->
  list_min l ∈ l /\ forall v, v ∈ l -> (list_min l <=? v) = true.
Proof.
  destruct l as [|x l]; [congruence|]. intros _ Hl.
  inversion Hl as [|? ? Hx Hl']; subst.
  apply (min_loop l [x] x); [apply list_elem_of_here|exact Hx| |exact Hl'].
  intros v Hv. apply list_elem_of_singleton in Hv as ->.
  now apply leb_refl_number.
Qed.

Lemma list_max_bracket (l : list float) :
  l <> [] -> Forall (fun x => Py.is_nan x = false) l ->
  list_max l ∈ l /\ forall v, v ∈ l -> (v <=? list_max l) = true.
Proof.
  destruct l as [|x l]; [congruence|]. intros _ Hl.
  inversion Hl as [|? ? Hx Hl']; subst.
  apply (max_loop l [x] x); [apply list_elem_of_here|exact Hx| |exact Hl'].
  intros v Hv. apply list_elem_of_singleton in Hv as ->.
  now apply leb_refl_number.
Qed.

Lemma valid_cell_number (v : option float) (x : float) :
  valid_cell v = Some x -> Py.is_nan x = false.
Proof.
  destruct v as [y|]; simpl; [|discriminate].
  destruct (Py.is_nan y) eqn:E; [discriminate|]. now intros [= <-].
Qed.

Lemma peer_values_numbers (cols : gmap string MetricBag)
    (peers : list string) (key : string) :
  Forall (fun x => Py.is_nan x = false) (peer_values cols peers key).
Proof.
  apply Forall_forall. intros x Hx. unfold peer_values in Hx.
  apply list_elem_of_omap in Hx as (peer & _ & Hc).
  unfold cell in Hc. destruct (cols !! peer); [|discriminate].
  now apply valid_cell_number in Hc.
Qed.

Lemma metric_loop_details (np_mean : list float -> float)
    (pc : PeerComparison) (rows : list (string * string))
    (acc : list (string * MetricDetail) * list (string * float)) :
  (forall row, row ∈ rows -> row ∈ valuation_metrics) ->
  Forall (sound_detail np_mean pc) (fst acc) ->
  map fst (fst acc) = map fst (snd acc) ->
  let r := foldl (metric_step np_mean pc (comparison_columns pc)) acc rows in
  Forall (sound_detail np_mean pc) (fst r) /\
  map fst (fst r) = map fst (snd r).
Proof.
  revert acc. induction rows as [|[metric key] rows IH];
    intros acc Hrows Hacc Hkeys; simpl; [auto|].
  apply IH.
  - intros row Hrow. apply Hrows. now apply list_elem_of_further.
  - unfold metric_step.
    destruct (cell (comparison_columns pc) key (pc_ticker pc))
      as [target_value|] eqn:Ht; [|exact Hacc].
    destruct (peer_values (comparison_columns pc) (pc_peers pc) key)
      as [|v vs] eqn:Hv; [exact Hacc|].
    cbn [fst]. apply Forall_app. split; [exact Hacc|].
    constructor; [|constructor].
    exists key. cbn [fst snd md_target md_peer_avg md_peer_min md_peer_max].
    split; [apply Hrows, list_elem_of_here|].
    rewrite Hv.
    pose proof (peer_values_numbers (comparison_columns pc) (pc_peers pc) key)
      as Hn.
    rewrite Hv in Hn.
    destruct (list_min_bracket (v :: vs) ltac:(discriminate) Hn)
      as [Hmin_in Hmin].
    destruct (list_max_bracket (v :: vs) ltac:(discriminate) Hn)
      as [Hmax_in Hmax].
    split; [exact Ht|]. split.
    { unfold cell in Ht. destruct (_ !! pc_ticker pc); [|discriminate].
      now apply valid_cell_number in Ht. }
    split; [reflexivity|]. split; [exact Hmin_in|]. split; [exact Hmax_in|].
    intros x Hx. split; [now apply Hmin|now apply Hmax].
  - unfold metric_step.
    destruct (cell (comparison_columns pc) key (pc_ticker pc))
      as [target_value|]; [|exact Hkeys].
    destruct (peer_values (comparison_columns pc) (pc_peers pc) key)
      as [|v vs]; [exact Hkeys|].
    cbn [fst snd]. rewrite !map_app, Hkeys. reflexivity.
Qed.

(** X12: every metric with a premium has a detail entry and conversely, in
    the same order; in each entry the target value is the target's valid
    (non-NaN) cell, the peer average is the mean of the valid peer values,
    and peer_min and peer_max are two of those peer values that bracket all
    of them. *)
Theorem X12_peer_range_brackets_peer_values
    (np_mean : list float -> float) (pc : PeerComparison) :
  let rv := calculate_relative_valuation np_mean pc in
  let cols := comparison_columns pc in
  map fst (rv_valuation_metrics rv) = map fst (rv_premium_discount rv) /\
  forall (metric : string) (d : MetricDetail),
    (metric, d) ∈ rv_valuation_metrics rv ->
    exists key,
      (metric, key) ∈ valuation_metrics /\
      let values := peer_values cols (pc_peers pc) key in
      cell cols key (pc_ticker pc) = Some (md_target d) /\
      Py.is_nan (md_target d) = false /\
      md_peer_avg d = np_mean values /\
      md_peer_min d ∈ values /\ md_peer_max d ∈ values /\
      forall v, v ∈ values ->
                (md_peer_min d <=? v) = true /\ (v <=? md_peer_max d) = true.
Proof.
  cbv zeta. unfold calculate_relative_valuation.
  pose proof (metric_loop_details np_mean pc valuation_metrics ([], [])
                ltac:(auto) ltac:(constructor) eq_refl) as [Hd Hk].
  destruct (foldl (metric_step np_mean pc (comparison_columns pc)) ([], [])
              valuation_metrics) as [details premiums].
  cbn [fst snd rv_valuation_metrics rv_premium_discount] in *.
  split; [exact Hk|]. intros metric d Hin.
  rewrite Forall_forall in Hd. exact (Hd _ Hin).
Qed.

(** X12, at a target with P/E 10 and the single peer with P/E -5. *)
Lemma X12_peer_range_brackets_peer_values_witness :
  exists key,
    ("P/E (TTM)", key) ∈ valuation_metrics /\
    let values :=
      peer_values (comparison_columns Scenario.loss_making_peer)
        (pc_peers Scenario.loss_making_peer) key in
    let d := {| md_target := 10; md_peer_avg := -5; md_peer_min := -5;
                md_peer_max := -5 |} in
    cell (comparison_columns Scenario.loss_making_peer) key
      (pc_ticker Scenario.loss_making_peer) = Some (md_target d) /\
    Py.is_nan (md_target d) = false /\
    md_peer_avg d = mean_left values /\
    md_peer_min d ∈ values /\ md_peer_max d ∈ values /\
    forall v, v ∈ values ->
              (md_peer_min d <=? v) = true /\ (v <=? md_peer_max d) = true.
Proof.
  apply (proj2 (X12_peer_range_brackets_peer_values mean_left
                  Scenario.loss_making_peer) "P/E (TTM)").
  vm_compute. apply list_elem_of_here.
Defined.

End PeersFacts.

(** ** The peer assessment and its readers *)

Section PeersDownstream.

Import Engine Thesis Peers FloatFacts.
Local Open Scope string_scope.
Local Open Scope list_scope.
Local Open Scope float_scope.
Local Open Scope py_scope.

Lemma relative_valuation_assessment (np_mean : list float -> float)
    (pc : PeerComparison) :
  let rv := calculate_relative_valuation np_mean pc in
  rv_assessment rv = fst (assessment_of (rv_avg_premium_discount rv)).
Proof.
  unfold calculate_relative_valuation.
  destruct (foldl (metric_step np_mean pc (comparison_columns pc)) ([], [])
              valuation_metrics) as [details premiums].
  reflexivity.
Qed.

(** The five labels by the position of the average premium. *)
Lemma assessment_cases (avg : float) :
  (fst (assessment_of avg) = "Significant Premium" /\ (avg >? 30) = true)
  \/ (fst (assessment_of avg) = "Moderate Premium"
      /\ (avg >? 30) = false /\ (avg >? 10) = true)
  \/ (fst (assessment_of avg) = "In-Line"
      /\ (avg >? 10) = false /\ (avg >? -10) = true)
  \/ (fst (assessment_of avg) = "Moderate Discount"
      /\ (avg >? -10) = false /\ (avg >? -30) = true)
  \/ (fst (assessment_of avg) = "Significant Discount"
      /\ (avg >? -10) = false /\ (avg >? -30) = false).
Proof.
  unfold assessment_of.
  destruct (avg >? 30) eqn:E30; [auto|].
  destruct (avg >? 10) eqn:E10; [auto|].
  destruct (avg >? -10) eqn:E10'; [auto 10|].
  destruct (avg >? -30) eqn:E30'; auto 10.
Qed.

Lemma not_above_mono (lo hi x : float) :
  PrimFloat.ltb lo hi = true -> PrimFloat.ltb lo x = false ->
  PrimFloat.ltb hi x = false.
Proof.
  intros Hlh Hx. destruct (PrimFloat.ltb hi x) eqn:E; [|reflexivity].
  rewrite (ltb_trans _ _ _ Hlh E) in Hx. discriminate.
Qed.

Lemma not_above_below (a b : float) :
  Py.is_nan a = false -> Py.is_nan b = false ->
  PrimFloat.ltb b a = false -> PrimFloat.ltb a b = false ->
  PrimFloat.eqb a b = true.
Proof.
  unfold Py.is_nan.
  rewrite !FloatAxioms.eqb_spec, !FloatAxioms.ltb_spec.
  unfold SFeqb, SFltb.
  destruct (Prim2SF a) as [[]|[]| |[] ma ea],
    (Prim2SF b) as [[]|[]| |[] mb eb]; simpl; try congruence; order_cases.
Qed.

Lemma leb_ltb_trans (a b c : float) :
  PrimFloat.leb a b = true -> PrimFloat.ltb b c = true ->
  PrimFloat.ltb a c = true.
Proof.
  rewrite FloatAxioms.leb_spec, !FloatAxioms.ltb_spec. unfold SFleb, SFltb.
  destruct (Prim2SF a) as [[]|[]| |[] ma ea],
    (Prim2SF b) as [[]|[]| |[] mb eb],
    (Prim2SF c) as [[]|[]| |[] mc ec]; simpl; try congruence; order_cases.
Qed.

(** A NaN is neither below nor above anything; whatever is above something
    is a number. *)
Lemma nan_unordered (x c : float) :
  Py.is_nan x = true ->
  PrimFloat.ltb x c = false /\ PrimFloat.ltb c x = false.
Proof.
  unfold Py.is_nan. rewrite FloatAxioms.eqb_spec, !FloatAxioms.ltb_spec.
  unfold SFeqb, SFltb.
  destruct (Prim2SF x) as [[]|[]| |[] mx ex]; simpl;
    try discriminate;
    try (destruct (Prim2SF c) as [[]|[]| |[] mc ec]; simpl; split;
         reflexivity).
  all: rewrite Z.compare_refl;
    change (PosDef.Pos.compare_cont Eq mx mx) with (Pos.compare mx mx);
    rewrite Pos.compare_refl; discriminate.
Qed.

Lemma above_number (c x : float) :
  PrimFloat.ltb c x = true -> Py.is_nan x = false.
Proof.
  intros H. destruct (Py.is_nan x) eqn:E; [|reflexivity].
  rewrite (proj2 (nan_unordered x c E)) in H. discriminate.
Qed.

(** X13: the label that the peer comparison gives and the adjustment that
    the valuation score makes for the same average premium never point in
    opposite directions: "Significant Premium" always costs 1 point,
    "Moderate Premium" costs 0.5 or nothing, "In-Line" changes nothing,
    "Moderate Discount" earns 1 or 0.5 (nothing at exactly -10), and
    "Significant Discount" earns 1, except that a NaN average, which is
    labelled "Significant Discount" too, changes nothing. *)
Theorem X13_assessment_bounds_peer_adjustment
    (np_mean : list float -> float) (pc : PeerComparison) (st : acc) :
  let rv := calculate_relative_valuation np_mean pc in
  let avg := default 0 (ps_avg_premium_discount (get_peer_summary np_mean pc)) in
  let st' := peer_rule avg st in
  let premium :=
    minus st 1
      ("Significant premium (" +:+ Py.format_f avg 0 +:+ "%) vs peers") in
  let discount :=
    plus st 1
      ("Trading at " +:+ Py.format_f (abs avg) 0 +:+ "% discount to peers") in
  avg = rv_avg_premium_discount rv /\
  (rv_assessment rv = "Significant Premium" -> st' = premium) /\
  (rv_assessment rv = "Moderate Premium" ->
   st' = minus st 0.5 "Premium valuation vs peers" \/ st' = st) /\
  (rv_assessment rv = "In-Line" -> st' = st) /\
  (rv_assessment rv = "Moderate Discount" ->
   st' = discount \/ st' = plus st 0.5 "Trading at slight discount to peers"
   \/ (st' = st /\ PrimFloat.eqb avg (-10) = true)) /\
  (rv_assessment rv = "Significant Discount" ->
   st' = discount \/ (st' = st /\ Py.is_nan avg = true)).
Proof.
  cbv zeta. rewrite relative_valuation_assessment.
  unfold get_peer_summary, default.
  cbn [ps_avg_premium_discount from_option id].
  set (avg := rv_avg_premium_discount (calculate_relative_valuation np_mean pc)).
  split; [reflexivity|].
  unfold peer_rule, Py.lt, Py.gt.
  destruct (assessment_cases avg)
    as [[-> H1]|[[-> [H1 H2]]|[[-> [H1 H2]]|[[-> [H1 H2]]|[-> [H1 H2]]]]]];
    unfold Py.gt in *.
  - rewrite (above_not_below (-20) 30 avg eq_refl H1).
    rewrite (above_not_below (-10) 30 avg eq_refl H1). rewrite H1.
    repeat split; discriminate.
  - rewrite (above_not_below (-20) 10 avg eq_refl H2).
    rewrite (above_not_below (-10) 10 avg eq_refl H2). rewrite H1.
    repeat split; try discriminate.
    intros _. destruct (PrimFloat.ltb 15 avg); auto.
  - rewrite (above_not_below (-20) (-10) avg eq_refl H2).
    rewrite (ltb_asym _ _ H2).
    rewrite (not_above_mono 10 30 avg eq_refl H1).
    rewrite (not_above_mono 10 15 avg eq_refl H1).
    repeat split; discriminate.
  - rewrite (not_above_mono (-10) 30 avg eq_refl H1).
    rewrite (not_above_mono (-10) 15 avg eq_refl H1).
    repeat split; try discriminate.
    intros _. destruct (PrimFloat.ltb avg (-20)); [auto|].
    destruct (PrimFloat.ltb avg (-10)) eqn:E; [auto|].
    right. right. split; [reflexivity|].
    apply not_above_below; [|reflexivity|exact H1|exact E].
    exact (above_number _ _ H2).
  - repeat split; try discriminate.
    intros _. destruct (Py.is_nan avg) eqn:Hn.
    + right. split; [|reflexivity].
      rewrite (proj1 (nan_unordered avg (-20) Hn)),
        (proj1 (nan_unordered avg (-10) Hn)),
        (proj2 (nan_unordered avg 30 Hn)),
        (proj2 (nan_unordered avg 15 Hn)). reflexivity.
    + left.
      rewrite (leb_ltb_trans avg (-30) (-20)); [reflexivity| |reflexivity].
      apply not_ltb_leb; [reflexivity|exact Hn|exact H2].
Qed.

(** X13, at a target whose only peer is loss-making: the premium is 0, the
    label "In-Line", and the state is left alone. *)
Lemma X13_assessment_bounds_peer_adjustment_witness :
  peer_rule
    (default 0
       (ps_avg_premium_discount
          (get_peer_summary mean_left Scenario.loss_making_peer)))
    (Acc 5 [])
  = Acc 5 [].
Proof.
  destruct (X13_assessment_bounds_peer_adjustment mean_left
              Scenario.loss_making_peer (Acc 5 [])) as (_ & _ & _ & H & _).
  apply H. vm_compute. reflexivity.
Defined.

(** X14: the thesis and the peer comparison agree on the direction: the
    bull case can only say "Trading at discount to peers despite comparable
    fundamentals" when the comparison is labelled a discount, and the bear
    case can only say "Premium valuation relative to peers may not be
    sustainable" when it is labelled a premium; no factor of any score
    report can put either sentence there. *)
Theorem X14_peer_bullets_follow_assessment
    (np_mean : list float -> float) (pc : PeerComparison)
    (a : Analysis) (s : Sentiment) (fs : list (string * list string)) :
  let rv := calculate_relative_valuation np_mean pc in
  let p := get_peer_summary np_mean pc in
  ("Trading at discount to peers despite comparable fundamentals"
     ∈ generate_bull_case a p s fs ->
   rv_assessment rv = "Moderate Discount"
   \/ rv_assessment rv = "Significant Discount") /\
  ("Premium valuation relative to peers may not be sustainable"
     ∈ generate_bear_case a p s fs ->
   rv_assessment rv = "Moderate Premium"
   \/ rv_assessment rv = "Significant Premium").
Proof.
  cbv zeta. rewrite relative_valuation_assessment.
  split; intros H; apply take_fromkeys_elem in H.
  - apply bull_points_inv in H as [H|[[_ H]|[H|[[H _]|[_ H]]]]];
      try discriminate H.
    { apply collect_elem in H as [H _]. vm_compute in H. discriminate. }
    unfold get_peer_summary, default in H.
    cbn [ps_avg_premium_discount from_option id] in H. unfold Py.lt in H.
    destruct (assessment_cases
                (rv_avg_premium_discount
                   (calculate_relative_valuation np_mean pc)))
      as [[_ H1]|[[_ [_ H1]]|[[_ [_ H1]]|[[-> _]|[-> _]]]]]; auto;
      unfold Py.gt in H1.
    + rewrite (above_not_below (-15) 30 _ eq_refl H1) in H. discriminate.
    + rewrite (above_not_below (-15) 10 _ eq_refl H1) in H. discriminate.
    + rewrite (above_not_below (-15) (-10) _ eq_refl H1) in H. discriminate.
  - apply bear_points_inv in H as [H|[H|[[H _]|[H|[H|H]]]]];
      try discriminate H.
    { apply collect_elem in H as [H _]. vm_compute in H. discriminate. }
    unfold get_peer_summary, default in H.
    cbn [ps_avg_premium_discount from_option id] in H. unfold Py.gt in H.
    destruct (assessment_cases
                (rv_avg_premium_discount
                   (calculate_relative_valuation np_mean pc)))
      as [[-> _]|[[-> _]|[[_ [H1 _]]|[[_ [H1 _]]|[_ [H1 _]]]]]]; auto;
      unfold Py.gt in H1.
    + rewrite (not_above_mono 10 20 _ eq_refl H1) in H. discriminate.
    + rewrite (not_above_mono (-10) 20 _ eq_refl H1) in H. discriminate.
    + rewrite (not_above_mono (-10) 20 _ eq_refl H1) in H. discriminate.
Qed.

(** X14, at a target with P/E 10 whose only peer has P/E 20: the average
    premium is -50, the bull case carries the discount sentence, and the
    label is "Significant Discount". *)
Lemma X14_peer_bullets_follow_assessment_witness :
  rv_assessment
    (calculate_relative_valuation mean_left
       {| pc_ticker := "ACME";
          pc_stats := {[ "pe_trailing" := Some 10 ]};
          pc_peers := ["PEER"];
          pc_peer_data := {[ "PEER" := {[ "pe_trailing" := Some 20 ]} ]} |})
  = "Moderate Discount"
  \/ rv_assessment
       (calculate_relative_valuation mean_left
          {| pc_ticker := "ACME";
             pc_stats := {[ "pe_trailing" := Some 10 ]};
             pc_peers := ["PEER"];
             pc_peer_data := {[ "PEER" := {[ "pe_trailing" := Some 20 ]} ]} |})
     = "Significant Discount".
Proof.
  apply (proj1 (X14_peer_bullets_follow_assessment mean_left
                  {| pc_ticker := "ACME";
                     pc_stats := {[ "pe_trailing" := Some 10 ]};
                     pc_peers := ["PEER"];
                     pc_peer_data :=
                       {[ "PEER" := {[ "pe_trailing" := Some 20 ]} ]} |}
                  empty_analysis empty_sentiment [])).
  vm_compute. apply list_elem_of_here.
Defined.

Lemma columns_without_peer_data (pc : PeerComparison)
    (peers : list string) (cols : gmap string MetricBag) :
  (forall peer, peer ∈ peers -> pc_peer_data pc !! peer = None) ->
  foldl (fun cols peer =>
           match pc_peer_data pc !! peer with
           | Some stats => <[peer := stats]> cols
           | None => cols
           end) cols peers = cols.
Proof.
  revert cols. induction peers as [|peer peers IH]; intros cols H; simpl;
    [reflexivity|].
  rewrite (H peer) by apply list_elem_of_here.
  apply IH. intros q Hq. apply H. now apply list_elem_of_further.
Qed.

(** X15: when no data was collected for any listed peer (and the target is
    not its own peer), the relative valuation does not fail: it records no
    metric and no premium, reports an average premium of 0, and calls the
    stock "In-Line". *)
Theorem X15_no_peer_data_reads_in_line
    (np_mean : list float -> float) (pc : PeerComparison) :
  pc_ticker pc ∉ pc_peers pc ->
  (forall peer, peer ∈ pc_peers pc -> pc_peer_data pc !! peer = None) ->
  let rv := calculate_relative_valuation np_mean pc in
  rv_valuation_metrics rv = [] /\ rv_premium_discount rv = [] /\
  rv_avg_premium_discount rv = 0 /\ rv_assessment rv = "In-Line" /\
  rv_assessment_detail rv = "Trading roughly in-line with peers (+0%)".
Proof.
  intros Hself Hdata. cbv zeta.
  assert (Hv : forall key,
             peer_values (comparison_columns pc) (pc_peers pc) key = []).
  { intros key. unfold comparison_columns.
    rewrite (columns_without_peer_data pc _ _ Hdata).
    unfold peer_values.
    assert (Hall : forall peers,
               (forall q, q ∈ peers -> q ∈ pc_peers pc) ->
               omap (fun peer =>
                       cell {[ pc_ticker pc := pc_stats pc ]} key peer)
                    peers = []).
    { induction peers as [|q peers IH]; intros Hsub; [reflexivity|].
      simpl. unfold cell at 1.
      rewrite lookup_singleton_ne.
      - apply IH. intros r Hr. apply Hsub. now apply list_elem_of_further.
      - intros E. apply Hself. rewrite E. apply Hsub, list_elem_of_here. }
    apply Hall. auto. }
  unfold calculate_relative_valuation.
  assert (Hloop : foldl (metric_step np_mean pc (comparison_columns pc))
                    ([], []) valuation_metrics = ([], [])).
  { unfold valuation_metrics. simpl. unfold metric_step.
    rewrite !Hv.
    repeat match goal with
           | |- context [cell ?c ?k ?t] => destruct (cell c k t)
           end; reflexivity. }
  rewrite Hloop. cbn [rv_valuation_metrics rv_premium_discount
                      rv_avg_premium_discount rv_assessment
                      rv_assessment_detail].
  repeat split; vm_compute; reflexivity.
Qed.

(** X15, at a target whose peer list is ["AMD"] and for which nothing was
    collected. *)
Lemma X15_no_peer_data_reads_in_line_witness :
  let rv :=
    calculate_relative_valuation mean_left
      {| pc_ticker := "NVDA"; pc_stats := {[ "pe_trailing" := Some 10 ]};
         pc_peers := ["AMD"]; pc_peer_data := ∅ |} in
  rv_valuation_metrics rv = [] /\ rv_premium_discount rv = [] /\
  rv_avg_premium_discount rv = 0 /\ rv_assessment rv = "In-Line" /\
  rv_assessment_detail rv = "Trading roughly in-line with peers (+0%)".
Proof.
  apply (X15_no_peer_data_reads_in_line mean_left
           {| pc_ticker := "NVDA"; pc_stats := {[ "pe_trailing" := Some 10 ]};
              pc_peers := ["AMD"]; pc_peer_data := ∅ |}).
  - cbn [pc_ticker pc_peers]. intros H.
    apply list_elem_of_singleton in H. discriminate.
  - intros peer _. apply lookup_empty.
Defined.

End PeersDownstream.

(** ** The validation helpers *)

Section ValidatorFacts.

Import Validators FloatFacts.
Local Open Scope float_scope.
Local Open Scope py_scope.

Lemma leb_numbers (a b : float) :
  PrimFloat.leb a b = true -> Py.is_nan a = false /\ Py.is_nan b = false.
Proof.
  unfold Py.is_nan. rewrite !FloatAxioms.eqb_spec, FloatAxioms.leb_spec.
  unfold SFeqb, SFleb.
  destruct (Prim2SF a) as [[]|[]| |[] ma ea],
    (Prim2SF b) as [[]|[]| |[] mb eb]; simpl; try congruence;
    intros _; rewrite ?Z.compare_refl;
    repeat match goal with
           | |- context [PosDef.Pos.compare_cont Eq ?m ?m] =>
               change (PosDef.Pos.compare_cont Eq m m) with (Pos.compare m m);
               rewrite Pos.compare_refl
           end; auto.
Qed.

Lemma leb_not_ltb_eqb (a b : float) :
  PrimFloat.leb a b = true -> PrimFloat.ltb a b = false ->
  PrimFloat.eqb a b = true.
Proof.
  rewrite FloatAxioms.leb_spec, FloatAxioms.ltb_spec, FloatAxioms.eqb_spec.
  unfold SFleb, SFltb, SFeqb.
  destruct (SFcompare (Prim2SF a) (Prim2SF b)) as [[]|]; congruence.
Qed.

Lemma eqb_sym (a b : float) :
  PrimFloat.eqb a b = true -> PrimFloat.eqb b a = true.
Proof.
  rewrite !FloatAxioms.eqb_spec. unfold SFeqb.
  destruct (Prim2SF a) as [[]|[]| |[] ma ea],
    (Prim2SF b) as [[]|[]| |[] mb eb]; simpl; try congruence; order_cases.
Qed.

Lemma eqb_trans (a b c : float) :
  PrimFloat.eqb a b = true -> PrimFloat.eqb b c = true ->
  PrimFloat.eqb a c = true.
Proof.
  rewrite !FloatAxioms.eqb_spec. unfold SFeqb.
  destruct (Prim2SF a) as [[]|[]| |[] ma ea],
    (Prim2SF b) as [[]|[]| |[] mb eb],
    (Prim2SF c) as [[]|[]| |[] mc ec]; simpl; try congruence; order_cases.
Qed.

Lemma eqb_refl_number (a : float) :
  Py.is_nan a = false -> PrimFloat.eqb a a = true.
Proof. unfold Py.is_nan. now destruct (PrimFloat.eqb a a). Qed.

(** A value inside the range comes back numerically unchanged. *)
Lemma clamp_keeps (value min_value max_value : float) :
  PrimFloat.leb min_value value = true ->
  PrimFloat.leb value max_value = true ->
  PrimFloat.eqb (clamp value min_value max_value) value = true.
Proof.
  intros H1 H2. unfold clamp, Py.max, Py.min, Py.lt, Py.gt.
  destruct (PrimFloat.ltb value max_value) eqn:E1.
  - destruct (PrimFloat.ltb min_value value) eqn:E2.
    + apply eqb_refl_number. exact (proj2 (leb_numbers _ _ H1)).
    + now apply leb_not_ltb_eqb.
  - pose proof (leb_not_ltb_eqb _ _ H2 E1) as Hv.
    destruct (PrimFloat.ltb min_value max_value) eqn:E2.
    + now apply eqb_sym.
    + apply eqb_trans with max_value; [|now apply eqb_sym].
      apply leb_not_ltb_eqb; [|exact E2].
      exact (leb_trans _ _ _ H1 H2).
Qed.

(** X16: for bounds with min_value <= max_value, [clamp] always lands in
    the range, whatever the value (a NaN included, which comes out as one of
    the bounds); the result is the value itself or one of the two bounds; and
    a value that already lies in the range comes back numerically
    unchanged. *)
Theorem X16_clamp_lands_in_range (value min_value max_value : float) :
  (min_value <=? max_value) = true ->
  let r := clamp value min_value max_value in
  (min_value <=? r) = true /\ (r <=? max_value) = true /\
  (r = value \/ r = min_value \/ r = max_value) /\
  ((min_value <=? value) = true /\ (value <=? max_value) = true ->
   PrimFloat.eqb r value = true).
Proof.
  unfold Py.le. intros Hb. cbv zeta.
  destruct (leb_numbers _ _ Hb) as [Hlo Hhi].
  unfold clamp, Py.max, Py.min, Py.lt, Py.gt.
  split; [|split; [|split]].
  - destruct (PrimFloat.ltb value max_value) eqn:E1;
      [destruct (PrimFloat.ltb min_value value) eqn:E2
      |destruct (PrimFloat.ltb min_value max_value) eqn:E2];
      auto using ltb_leb, leb_refl_number.
  - destruct (PrimFloat.ltb value max_value) eqn:E1;
      [destruct (PrimFloat.ltb min_value value) eqn:E2
      |destruct (PrimFloat.ltb min_value max_value) eqn:E2];
      auto using ltb_leb, leb_refl_number.
  - destruct (PrimFloat.ltb value max_value) eqn:E1;
      [destruct (PrimFloat.ltb min_value value) eqn:E2
      |destruct (PrimFloat.ltb min_value max_value) eqn:E2]; auto.
  - intros [H1 H2]. now apply clamp_keeps.
Qed.

(** X16, at the scorer's bounds 1 and 10 and the value 12.5. *)
Lemma X16_clamp_lands_in_range_witness :
  let r := clamp 12.5 1 10 in
  (1 <=? r) = true /\ (r <=? 10) = true /\
  (r = 12.5 \/ r = 1 \/ r = 10) /\
  ((1 <=? 12.5) = true /\ (12.5 <=? 10) = true ->
   PrimFloat.eqb r 12.5 = true).
Proof. apply (X16_clamp_lands_in_range 12.5 1 10). reflexivity. Defined.

(** X17: with both bounds given (and numbers), [validate_numeric_range]
    accepts a value exactly when it lies in the closed range or is a NaN: a
    NaN passes every range check.  An accepted number is one that [clamp]
    with the same bounds leaves numerically unchanged. *)
Theorem X17_range_check_accepts_range_and_nan
    (value min_value max_value : float) (allow_none : bool) :
  Py.is_nan min_value = false -> Py.is_nan max_value = false ->
  let verdict :=
    validate_numeric_range (Some value) (Some min_value) (Some max_value)
      allow_none in
  (verdict = inr true <->
   Py.is_nan value = true
   \/ ((min_value <=? value) = true /\ (value <=? max_value) = true)) /\
  (verdict = inr true -> Py.is_nan value = false ->
   PrimFloat.eqb (clamp value min_value max_value) value = true).
Proof.
  intros Hlo Hhi. cbv zeta.
  assert (Hiff :
    validate_numeric_range (Some value) (Some min_value) (Some max_value)
      allow_none = inr true <->
    Py.is_nan value = true
    \/ ((min_value <=? value) = true /\ (value <=? max_value) = true)).
  { unfold validate_numeric_range, Py.lt, Py.gt, Py.le.
    destruct (Py.is_nan value) eqn:Hn.
    - rewrite (proj1 (nan_unordered value min_value Hn)).
      rewrite (proj2 (nan_unordered value max_value Hn)). tauto.
    - destruct (PrimFloat.ltb value min_value) eqn:E1.
      + rewrite (ltb_not_leb _ _ E1).
        split; [discriminate|intros [H|[H _]]; discriminate].
      + destruct (PrimFloat.ltb max_value value) eqn:E2.
        * rewrite (ltb_not_leb _ _ E2).
          split; [discriminate|intros [H|[_ H]]; discriminate].
        * rewrite (not_ltb_leb _ _ Hn Hlo E1), (not_ltb_leb _ _ Hhi Hn E2).
          tauto. }
  split; [exact Hiff|].
  intros Hok Hn. apply Hiff in Hok as [Hok|[H1 H2]]; [congruence|].
  unfold Py.le in *.
  now apply clamp_keeps.
Qed.

(** X17, for the value 5 and the bounds 1 and 10. *)
Lemma X17_range_check_accepts_range_and_nan_witness :
  let verdict :=
    validate_numeric_range (Some 5) (Some 1) (Some 10) true in
  (verdict = inr true <->
   Py.is_nan 5 = true \/ ((1 <=? 5) = true /\ (5 <=? 10) = true)) /\
  (verdict = inr true -> Py.is_nan 5 = false ->
   PrimFloat.eqb (clamp 5 1 10) 5 = true).
Proof.
  apply (X17_range_check_accepts_range_and_nan 5 1 10 true); reflexivity.
Defined.

End ValidatorFacts.

(** ** Peer selection *)

Section PeerSelectionFacts.

Import PyText PeerSelection.
Local Open Scope string_scope.
Local Open Scope list_scope.

Lemma upper_char_idem (c : ascii) : upper_char (upper_char c) = upper_char c.
Proof. destruct c as [[] [] [] [] [] [] [] []]; reflexivity. Qed.

Lemma upper_idem (s : string) : upper (upper s) = upper s.
Proof.
  induction s as [|c s IH]; [reflexivity|].
  simpl. now rewrite upper_char_idem, IH.
Qed.

(** What every entry of [PEER_MAPPING] looks like. *)
Lemma mapping_entries :
  Forall (fun entry : string * list string =>
            length (snd entry) = 5%nat /\ NoDup (snd entry)
            /\ fst entry ∉ snd entry)
         PEER_MAPPING_items.
Proof.
  apply (bool_decide_unpack _). vm_compute. exact I.
Qed.

Lemma sector_entries :
  Forall (fun entry : string * list string => NoDup (snd entry))
         sector_tickers_items.
Proof.
  apply (bool_decide_unpack _). vm_compute. exact I.
Qed.

Lemma mapped_peers (target : string) (ps : list string) :
  PEER_MAPPING !! target = Some ps ->
  length ps = 5%nat /\ NoDup ps /\ target ∉ ps.
Proof.
  intros H. apply elem_of_list_to_map_2 in H.
  pose proof mapping_entries as Hall. rewrite Forall_forall in Hall.
  exact (Hall _ H).
Qed.

Lemma dynamic_peers (target sector : string) :
  let peers := _find_dynamic_peers target sector in
  (1 <= length peers <= 5)%nat /\ NoDup peers /\
  (target ∈ peers -> target = "SPY" /\ peers = ["SPY"]).
Proof.
  cbv zeta. unfold _find_dynamic_peers.
  set (potential := default [] (sector_tickers !! sector)).
  assert (Hnd : NoDup potential).
  { unfold potential. destruct (sector_tickers !! sector) as [l|] eqn:E;
      [|constructor].
    apply elem_of_list_to_map_2 in E.
    pose proof sector_entries as Hall. rewrite Forall_forall in Hall.
    exact (Hall _ E). }
  set (kept := filter (fun p => p <> target) potential).
  assert (Hk : NoDup (take 5 kept) /\ (target ∉ take 5 kept)
               /\ (length (take 5 kept) <= 5)%nat).
  { split; [|split].
    - eapply sublist_NoDup; [|apply sublist_take].
      unfold kept. apply NoDup_filter. exact Hnd.
    - intros Hin.
      assert (Hin' : target ∈ take 5 kept ++ drop 5 kept)
        by (apply elem_of_app; now left).
      rewrite take_drop in Hin'. unfold kept in Hin'.
      apply list_elem_of_filter in Hin' as [Hne _]. now apply Hne.
    - rewrite length_take. lia. }
  destruct Hk as (Hk1 & Hk2 & Hk3).
  destruct (take 5 kept) as [|q qs] eqn:E.
  - split; [simpl; lia|]. split; [apply NoDup_singleton|].
    intros H. apply list_elem_of_singleton in H. auto.
  - split; [simpl in *; lia|]. split; [exact Hk1|].
    intros H. contradiction.
Qed.

(** X18: without custom peers, a comparison is always made against between
    1 and 5 distinct peers; a ticker of [PEER_MAPPING] gets its mapped list
    whatever its sector; and the target is never among its own peers, the
    one exception being the fallback ["SPY"] for the ticker SPY itself. *)
Theorem X18_default_peers_exclude_target (ticker sector : string) :
  is_ascii ticker = true ->
  let target := upper ticker in
  let peers := default_peers_of ticker sector in
  (1 <= length peers <= 5)%nat /\ NoDup peers /\
  (forall ps, PEER_MAPPING !! target = Some ps -> peers = ps) /\
  (target ∈ peers -> target = "SPY" /\ peers = ["SPY"]).
Proof.
  intros _. cbv zeta. unfold default_peers_of, identify_peers, get_peers.
  rewrite upper_idem.
  destruct (PEER_MAPPING !! upper ticker) as [ps|] eqn:E.
  - destruct (mapped_peers _ _ E) as (Hlen & Hnd & Hself).
    cbn [default from_option id].
    assert (Hb : bool_decide (ps = []) || bool_decide (ps = ["SPY"]) = false).
    { apply orb_false_iff. split; apply bool_decide_eq_false; intros ->;
        discriminate Hlen. }
    rewrite Hb. split; [lia|]. split; [exact Hnd|].
    split; [now intros ? [= ->]|]. intros H. contradiction.
  - cbn [default from_option id DEFAULT_PEERS].
    replace (bool_decide (["SPY"] = []) || bool_decide (["SPY"] = ["SPY"]))
      with true by (symmetry; vm_compute; reflexivity).
    destruct (dynamic_peers (upper ticker) sector) as (H1 & H2 & H3).
    split; [exact H1|]. split; [exact H2|]. split; [discriminate|exact H3].
Qed.

(** X18, for "nvda" in the sector "Technology". *)
Lemma X18_default_peers_exclude_target_witness :
  let target := upper "nvda" in
  let peers := default_peers_of "nvda" "Technology" in
  (1 <= length peers <= 5)%nat /\ NoDup peers /\
  (forall ps, PEER_MAPPING !! target = Some ps -> peers = ps) /\
  (target ∈ peers -> target = "SPY" /\ peers = ["SPY"]).
Proof.
  apply (X18_default_peers_exclude_target "nvda" "Technology"). reflexivity.
Defined.

End PeerSelectionFacts.

(** ** The range of the total score *)

Section TotalFacts.

Import Engine Config Reach Totals.
Local Open Scope float_scope.
Local Open Scope list_scope.

Lemma merge_elem (l1 l2 : list float) (x : float) :
  x ∈ l1 \/ x ∈ l2 -> x ∈ merge l1 l2.
Proof.
  revert l2. induction l1 as [|a l1 IH1]; intros l2.
  - intros [H|H]; [inversion H|]. destruct l2; exact H.
  - induction l2 as [|b l2 IH2]; [intros [H|H]; [exact H|inversion H]|].
    intros H. simpl.
    destruct (PrimFloat.ltb a b).
    + destruct H as [H|H].
      * apply elem_of_cons in H as [->|H]; [apply list_elem_of_here|].
        apply list_elem_of_further, IH1. now left.
      * apply list_elem_of_further, IH1. now right.
    + destruct (PrimFloat.ltb b a).
      * destruct H as [H|H].
        -- apply list_elem_of_further, IH2. now left.
        -- apply elem_of_cons in H as [->|H]; [apply list_elem_of_here|].
           apply list_elem_of_further, IH2. now right.
      * destruct (Leibniz.eqb a b) eqn:E.
        -- apply FloatAxioms.Leibniz.eqb_spec in E. subst b.
           destruct H as [H|H];
             (apply elem_of_cons in H as [->|H]; [apply list_elem_of_here|]);
             apply list_elem_of_further, IH1; auto.
        -- destruct H as [H|H].
           ++ apply elem_of_cons in H as [->|H]; [apply list_elem_of_here|].
              do 2 apply list_elem_of_further. apply IH1. now left.
           ++ apply elem_of_cons in H as [->|H];
                [apply list_elem_of_further, list_elem_of_here|].
              do 2 apply list_elem_of_further. apply IH1. now right.
Qed.

Lemma merge_pairs_elem (ls : list (list float)) (l : list float) (x : float) :
  l ∈ ls -> x ∈ l -> exists l', l' ∈ merge_pairs ls /\ x ∈ l'.
Proof.
  revert l. 
  assert (H : forall n ls, (length ls <= n)%nat -> forall l,
               l ∈ ls -> x ∈ l -> exists l', l' ∈ merge_pairs ls /\ x ∈ l').
  { clear ls. induction n as [|n IH]; intros ls Hn l Hl Hx.
    - destruct ls; [inversion Hl|simpl in Hn; lia].
    - destruct ls as [|l1 [|l2 ls]]; [inversion Hl|eauto|].
      simpl. apply elem_of_cons in Hl as [->|Hl].
      + exists (merge l1 l2). split; [apply list_elem_of_here|].
        apply merge_elem. now left.
      + apply elem_of_cons in Hl as [->|Hl].
        * exists (merge l1 l2). split; [apply list_elem_of_here|].
          apply merge_elem. now right.
        * destruct (IH ls ltac:(simpl in Hn; lia) l Hl Hx) as (l' & Hl' & Hx').
          exists l'. split; [now apply list_elem_of_further|exact Hx']. }
  intros l. exact (H (length ls) ls (le_n _) l).
Qed.

Lemma fold_merge_elem (ls : list (list float)) (l0 : list float) (x : float) :
  x ∈ l0 \/ (exists l, l ∈ ls /\ x ∈ l) -> x ∈ fold_left merge ls l0.
Proof.
  revert l0. induction ls as [|l1 ls IH]; intros l0 H; simpl.
  - destruct H as [H|(l & Hl & _)]; [exact H|inversion Hl].
  - apply IH. destruct H as [H|(l & Hl & Hx)].
    + left. apply merge_elem. now left.
    + apply elem_of_cons in Hl as [->|Hl].
      * left. apply merge_elem. now right.
      * right. eauto.
Qed.

Lemma merge_all_elem (fuel : nat) (ls : list (list float))
    (l : list float) (x : float) :
  l ∈ ls -> x ∈ l -> x ∈ merge_all fuel ls.
Proof.
  revert ls l. induction fuel as [|fuel IH]; intros ls l Hl Hx.
  - destruct ls as [|l1 [|l2 ls]]; [inversion Hl| |].
    + apply list_elem_of_singleton in Hl as ->. exact Hx.
    + cbn [merge_all]. apply fold_merge_elem.
      apply elem_of_cons in Hl as [->|Hl]; [now left|right; eauto].
  - destruct ls as [|l1 [|l2 ls]]; [inversion Hl| |].
    + apply list_elem_of_singleton in Hl as ->. exact Hx.
    + cbn [merge_all].
      destruct (merge_pairs_elem _ _ _ Hl Hx) as (l' & Hl' & Hx').
      exact (IH _ _ Hl' Hx').
Qed.

Lemma union_elem (ls : list (list float)) (l : list float) (x : float) :
  l ∈ ls -> x ∈ l -> x ∈ union ls.
Proof. apply merge_all_elem. Qed.

Lemma weighted_value_elem (c : category) (R : list float) (s : float) :
  s ∈ R -> Py.round (clamp s * SCORE_WEIGHTS c) 2 ∈ weighted_values c R.
Proof.
  intros HR. unfold weighted_values.
  apply union_elem with [Py.round (clamp s * SCORE_WEIGHTS c) 2];
    [|apply list_elem_of_here].
  apply list_elem_of_In, in_map_iff.
  exists s. split; [reflexivity|]. now apply list_elem_of_In.
Qed.

Lemma weighted_values_elem (c : category) (R : list float) (n : nat)
    (st : acc) :
  reach R n st -> weighted (result c st) ∈ weighted_values c R.
Proof. intros (HR & _). now apply weighted_value_elem. Qed.

Lemma sums_elem (A B : list float) (a b : float) :
  a ∈ A -> b ∈ B -> a + b ∈ sums A B.
Proof.
  intros Ha Hb. unfold sums.
  apply union_elem with (map (fun b => a + b) B).
  - apply list_elem_of_In, in_map_iff.
    exists a. split; [reflexivity|now apply list_elem_of_In].
  - apply list_elem_of_In, in_map_iff.
    exists b. split; [reflexivity|now apply list_elem_of_In].
Qed.

Lemma rounded_elem (R : list float) (t : float) :
  t ∈ R -> Py.round t 1 ∈ union (map (fun t => [Py.round t 1]) R).
Proof.
  intros Ht. apply union_elem with [Py.round t 1]; [|apply list_elem_of_here].
  apply list_elem_of_In, in_map_iff.
  exists t. split; [reflexivity|now apply list_elem_of_In].
Qed.

(** The unclamped momentum/sentiment score on a momentum result. *)
Lemma sentiment_rules_reach (d : Momentum.Data)
    (mean_rating upside_pct beat_rate : option float) :
  acc_score
    (momentum_rules
       (Momentum.sentiment_with (Momentum.calculate_momentum_score d)
          mean_rating upside_pct beat_rate))
  ∈ Momentum.sentiment_reach.
Proof.
  set (m := Momentum.calculate_momentum_score d).
  set (st0 := Acc (Momentum.momentum_score m)
                (take 3 (Momentum.technical_signals m))).
  change (momentum_rules
            (Momentum.sentiment_with m mean_rating upside_pct beat_rate))
    with (beat_rate_rule beat_rate
            (upside_rule upside_pct (mean_rating_rule mean_rating st0))).
  assert (H0 : acc_score st0 ∈ Momentum.momentum_reach).
  { destruct (momentum_rules_reach d) as (HR & _).
    destruct (settled_sound 4 16 Momentum.momentum_reach _
              ltac:(vm_compute; reflexivity) HR)
      as (Hr & Hc & _).
    unfold st0, m, Momentum.calculate_momentum_score.
    cbn [acc_score Momentum.momentum_score].
    rewrite Hc in Hr. rewrite Hc, Hr. exact HR. }
  unfold Momentum.sentiment_reach.
  eapply rule_step_score; [|apply beat_rate_rule_step].
  eapply rule_step_score; [|apply upside_rule_step].
  eapply rule_step_score; [|apply mean_rating_rule_step]. exact H0.
Qed.

(** X19: when the momentum figures come from calculate_momentum_score, the
    total score is a multiple of 0.1 between 1.8 and 9.3 for every analysis,
    peer summary, analyst rating, price-target upside and beat rate: it never
    leaves the 1-10 scale, and the unrounded sum behind it is one of the
    finitely many sums of [total_reach]. *)
Theorem X19_total_score_range
    (a : Analysis) (p : PeerSummary) (d : Momentum.Data)
    (mean_rating upside_pct beat_rate : option float) :
  let s := Momentum.sentiment_with (Momentum.calculate_momentum_score d)
             mean_rating upside_pct beat_rate in
  let r := calculate_total_score a p s in
  (exists t, t ∈ total_reach /\ total_score r = Py.round t 1
             /\ recommendation r = recommend t) /\
  (exists k : Z, (18 <= k <= 93)%Z /\ total_score r = tenths k) /\
  PrimFloat.leb 1 (total_score r) = true /\
  PrimFloat.leb (total_score r) 10 = true.
Proof.
  cbv zeta.
  set (s := Momentum.sentiment_with _ _ _ _).
  set (t := weighted_sum (score_valuation a p) (score_growth a)
              (score_profitability a) (score_financial_health a)
              (score_momentum_sentiment s) (score_quality_moat a)).
  assert (Ht : t ∈ total_reach).
  { unfold t, weighted_sum, total_reach.
    repeat apply sums_elem.
    - exact (weighted_values_elem _ _ _ _ (valuation_rules_reach a p)).
    - exact (weighted_values_elem _ _ _ _ (growth_rules_reach a)).
    - exact (weighted_values_elem _ _ _ _ (profitability_rules_reach a)).
    - exact (weighted_values_elem _ _ _ _ (financial_health_rules_reach a)).
    - exact (weighted_value_elem momentum_sentiment Momentum.sentiment_reach
               _ (sentiment_rules_reach d mean_rating upside_pct beat_rate)).
    - exact (weighted_values_elem _ _ _ _ (quality_rules_reach a)). }
  assert (Hr : Py.round t 1 ∈ total_scores)
    by exact (rounded_elem total_reach t Ht).
  assert (Hall : forallb (fun x =>
                            in_tenths 18 93 x && PrimFloat.leb 1 x
                            && PrimFloat.leb x 10)
                   total_scores = true)
    by (vm_compute; reflexivity).
  rewrite forallb_forall in Hall.
  specialize (Hall _ (proj1 (list_elem_of_In _ _) Hr)).
  apply andb_true_iff in Hall as [Hall Hhi].
  apply andb_true_iff in Hall as [Hk Hlo].
  change (total_score (calculate_total_score a p s)) with (Py.round t 1).
  change (recommendation (calculate_total_score a p s)) with (recommend t).
  split; [exists t; auto|]. split; [|auto].
  apply existsb_exists in Hk as (k & Hin & Hk).
  apply FloatAxioms.Leibniz.eqb_spec in Hk.
  exists k. split; [|now symmetry].
  unfold zrange in Hin. apply in_map_iff in Hin as (i & <- & Hi).
  apply in_seq in Hi. lia.
Qed.

End TotalFacts.

(** ** The overall sentiment *)

Section SummaryFacts.

Import Engine Reach Summary.
Local Open Scope string_scope.
Local Open Scope float_scope.
Local Open Scope py_scope.
Local Open Scope list_scope.

Lemma sentiment_label_cases (score : float) :
  sentiment_label score ∈
    ["Very Bullish"; "Bullish"; "Neutral"; "Bearish"; "Very Bearish"].
Proof.
  unfold sentiment_label.
  destruct (score >=? 7.5); [apply list_elem_of_here|].
  destruct (score >=? 6); [do 1 apply list_elem_of_further;
                           apply list_elem_of_here|].
  destruct (score >=? 4.5); [do 2 apply list_elem_of_further;
                             apply list_elem_of_here|].
  destruct (score >=? 3); [do 3 apply list_elem_of_further;
                           apply list_elem_of_here|].
  do 4 apply list_elem_of_further. apply list_elem_of_here.
Qed.

(** The shape of [scores]: the momentum component between at most two
    earlier and two later ones. *)
Lemma components_shape (x : Analyses) :
  exists before after,
    components x
    = before ++ ("momentum", Momentum.momentum_score (momentum x), 0.25)
               :: after
    /\ (length before <= 2)%nat /\ (length after <= 2)%nat.
Proof.
  unfold components.
  set (m := ("momentum", Momentum.momentum_score (momentum x), 0.25)).
  set (s1 := match mean_rating x with
             | Some r =>
                 if Py.truthy r
                 then [] ++ [("analyst", 10 - (r - 1) * 2.25, 0.30)]
                 else []
             | None => []
             end).
  assert (H1 : (length s1 <= 1)%nat).
  { unfold s1. destruct (mean_rating x) as [r|]; [|simpl; lia].
    destruct (Py.truthy r); simpl; lia. }
  set (s2 := match beat_rate_and_surprise x with
             | Some (beat_rate, avg_surprise_pct) => _
             | None => s1
             end).
  assert (H2 : (length s2 <= 2)%nat).
  { unfold s2. destruct (beat_rate_and_surprise x) as [[b a]|]; [|lia].
    rewrite length_app. simpl. lia. }
  exists s2.
  destruct (String.eqb (net_sentiment x) ""), (upside_pct x) as [u|].
  - exists [("upside", upside_score u, 0.10)].
    rewrite <- app_assoc. simpl. auto.
  - exists []. simpl. auto.
  - exists [("insider", insider_score (net_sentiment x), 0.10);
            ("upside", upside_score u, 0.10)].
    rewrite <- !app_assoc. simpl. auto.
  - exists [("insider", insider_score (net_sentiment x), 0.10)].
    rewrite <- app_assoc. simpl. auto.
Qed.

(** X20: the overall sentiment is always computed: the momentum component
    enters every summary with weight 0.25, so there are between 1 and 5
    components, the label is always the one of the reported score, and the
    fallback "Neutral (Limited Data)" with its score of 5 is never
    returned. *)
Theorem X20_overall_sentiment_never_limited (x : Analyses) :
  let r := get_sentiment_summary x in
  ("momentum", Momentum.momentum_score (momentum x), 0.25)
    ∈ score_components r /\
  (1 <= length (score_components r) <= 5)%nat /\
  overall_sentiment r = sentiment_label (overall_sentiment_score r) /\
  overall_sentiment r
    ∈ ["Very Bullish"; "Bullish"; "Neutral"; "Bearish"; "Very Bearish"] /\
  overall_sentiment r <> "Neutral (Limited Data)".
Proof.
  cbv zeta. destruct (components_shape x) as (before & after & E & Hb & Ha).
  unfold get_sentiment_summary. rewrite E.
  destruct (before ++ _ :: after) as [|c cs] eqn:El.
  { destruct before; discriminate El. }
  cbn [score_components overall_sentiment overall_sentiment_score].
  split.
  { rewrite <- El. apply elem_of_app. right. apply list_elem_of_here. }
  split.
  { rewrite <- El, length_app. simpl. lia. }
  split; [reflexivity|].
  split; [apply sentiment_label_cases|].
  intros H.
  pose proof (sentiment_label_cases
                (Py.round
                   (py_sum (map (fun c => snd (fst c) * snd c) (c :: cs))
                    / py_sum (map snd (c :: cs))) 1)) as Hl.
  rewrite H in Hl.
  repeat (apply elem_of_cons in Hl as [Hl|Hl]; [discriminate Hl|]).
  inversion Hl.
Qed.

(** X21: with no analyst rating, no price target, no earnings history and
    no insider data, the overall sentiment score is exactly the momentum
    score that calculate_momentum_score reports. *)
Theorem X21_momentum_alone_is_the_overall_score
    (x : Analyses) (d : Momentum.Data) :
  momentum x = Momentum.calculate_momentum_score d ->
  Py.present (mean_rating x) = false -> upside_pct x = None ->
  beat_rate_and_surprise x = None -> net_sentiment x = "" ->
  let r := get_sentiment_summary x in
  overall_sentiment_score r = Momentum.momentum_score (momentum x) /\
  score_components r
  = [("momentum", Momentum.momentum_score (momentum x), 0.25)].
Proof.
  intros Hm Hr Hu He Hi. cbv zeta.
  assert (Hc : components x
               = [("momentum", Momentum.momentum_score (momentum x), 0.25)]).
  { unfold components. rewrite Hu, He, Hi. simpl.
    destruct (mean_rating x) as [r|]; [|reflexivity].
    simpl in Hr. now rewrite Hr. }
  unfold get_sentiment_summary. rewrite Hc.
  cbn [score_components overall_sentiment_score map fst snd].
  split; [|reflexivity].
  rewrite Hm.
  destruct (momentum_rules_reach d) as (HR & _).
  destruct (settled_sound 4 16 Momentum.momentum_reach _
              ltac:(vm_compute; reflexivity) HR) as (Hround & Hclamp & _).
  unfold Momentum.calculate_momentum_score. cbn [Momentum.momentum_score].
  rewrite Hclamp in Hround. rewrite Hclamp, Hround.
  assert (Hall : forallb (fun s =>
                            Leibniz.eqb
                              (Py.round (py_sum [s * 0.25] / py_sum [0.25]) 1)
                              s)
                   Momentum.momentum_reach = true)
    by (vm_compute; reflexivity).
  rewrite forallb_forall in Hall.
  specialize (Hall _ (proj1 (list_elem_of_In _ _) HR)).
  now apply FloatAxioms.Leibniz.eqb_spec in Hall.
Qed.

(** X21, on entirely empty data. *)
Lemma X21_momentum_alone_is_the_overall_score_witness :
  let x :=
    {| mean_rating := None; upside_pct := None;
       beat_rate_and_surprise := None; net_sentiment := "";
       momentum :=
         Momentum.calculate_momentum_score
           {| Momentum.overview := ∅; Momentum.return_metrics := ∅;
              Momentum.latest_rsi := None |} |} in
  let r := get_sentiment_summary x in
  overall_sentiment_score r = Momentum.momentum_score (momentum x) /\
  score_components r
  = [("momentum", Momentum.momentum_score (momentum x), 0.25)].
Proof.
  apply (X21_momentum_alone_is_the_overall_score
           {| mean_rating := None; upside_pct := None;
              beat_rate_and_surprise := None; net_sentiment := "";
              momentum :=
                Momentum.calculate_momentum_score
                  {| Momentum.overview := ∅; Momentum.return_metrics := ∅;
                     Momentum.latest_rsi := None |} |}
           {| Momentum.overview := ∅; Momentum.return_metrics := ∅;
              Momentum.latest_rsi := None |}); reflexivity.
Defined.

End SummaryFacts.
